(** * cf_complient_wrf.ipynb: combining WRF files into one CF-compliant netCDF file

    A shallow embedding of the notebook.  The notebook is a sequence of cells
    that call netCDF4, numpy, wrf-python and xarray; each cell is embedded as a
    computation in a state-and-exception monad over the notebook's namespace
    and the files on disk.  The library calls are embedded as executable
    functions on models of the library objects (a netCDF dataset, an ndarray,
    an xarray Dataset), as far as the notebook uses them; where a library does
    something this development does not describe, the model raises
    [NotModelled] instead of guessing. *)

From stdpp Require Import gmap strings list fin_maps pretty.

(** ** Python exceptions, and calls that may raise *)

Inductive exn :=
  | NameError | KeyError | AttributeError | TypeError | ValueError
  | IndexError | RuntimeError | FileNotFoundError | MergeError
  | NotModelled.

Inductive result (A : Type) :=
  | Ok (a : A)
  | Raise (e : exn).
Arguments Ok {A} a.
Arguments Raise {A} e.

#[global] Instance exn_eq_dec : EqDecision exn.
Proof. solve_decision. Defined.

#[global] Instance result_ret : MRet result := @Ok.
#[global] Instance result_bind : MBind result := λ A B f m,
  match m with Ok a => f a | Raise e => Raise e end.
#[global] Instance result_fmap : FMap result := λ A B f m,
  match m with Ok a => Ok (f a) | Raise e => Raise e end.

(** [d[k]] on a Python dict. *)
Definition getitem {A} (d : gmap string A) (k : string) : result A :=
  match d !! k with Some a => Ok a | None => Raise KeyError end.

(** A loop [for x in xs: acc = f(acc, x)] whose body may raise. *)
Fixpoint for_each {A B} (f : A → B → result A) (acc : A) (xs : list B) : result A :=
  match xs with
  | [] => Ok acc
  | x :: xs' => acc' ← f acc x; for_each f acc' xs'
  end.

(** ** numpy: element types, scalars, arrays *)

Inductive dtype :=
  | S1 | Int8 | Int16 | Int32 | Int64 | Float32 | Float64 | Datetime64.

#[global] Instance dtype_eq_dec : EqDecision dtype.
Proof. solve_decision. Defined.

(** An opaque library object (a wrf-python projection, a cartopy CRS): all the
    notebook does with one is pass it on and take [str()] of it. *)
Record pyobject := PyObject { py_repr : string }.

#[global] Instance pyobject_eq_dec : EqDecision pyobject.
Proof. solve_decision. Defined.

(** The scalars of numpy and what numpy does with them.  The notebook's
    arithmetic is float32 arithmetic, which is not re-implemented here: the
    operations are the interface's, and theorems hold for every
    implementation of it. *)
Class NumPy (num : Type) := {
  num_eq_dec :: EqDecision num;
  (** the element of [np.zeros] *)
  np_zero : num;
  (** conversion of an element on assignment into an array of another dtype *)
  np_astype : dtype → dtype → num → num;
  (** element [i] of [np.arange(n, dtype='float32')] *)
  np_arange : nat → num;
  np_mul : num → num → num;
  np_add : num → num → num;
  (** [str(x)] *)
  np_str : num → string;
  (** the value netCDF4 fills a new variable of the given type with *)
  default_fillvals : dtype → num;
}.

Section Notebook.
Context {num : Type} {numpy : NumPy num}.

Record ndarray := {
  nd_dtype : dtype;
  nd_shape : list nat;
  (** elements in row-major (C) order *)
  nd_flat : list num;
}.

Definition prod_list (shape : list nat) : nat := foldr Nat.mul 1 shape.

(** [np.zeros(shape)]: float64 zeros. *)
Definition np_zeros (shape : list nat) : ndarray :=
  {| nd_dtype := Float64; nd_shape := shape;
     nd_flat := replicate (prod_list shape) np_zero |}.

(** Elements stored into an array or variable of type [to]. *)
Definition cast_to (to : dtype) (a : ndarray) : list num :=
  if decide (nd_dtype a = to) then nd_flat a
  else np_astype (nd_dtype a) to <$> nd_flat a.

(** [a[t]] for an index [t] along the first axis, as a flat list. *)
Definition index0 (shape : list nat) (flat : list num) (t : nat) : list num :=
  let inner := prod_list (tail shape) in
  take inner (drop (t * inner) flat).

(** ** Attribute values *)

Inductive attr_value :=
  | ANum (x : num)
  | AStr (s : string)
  | AArr (xs : list num)              (* an ndarray *)
  | ASeq (xs : list (num + string))   (* a list or tuple of numbers and strings *)
  | AObj (o : pyobject).              (* any other Python object *)

#[global] Instance attr_value_eq_dec : EqDecision attr_value.
Proof. solve_decision. Defined.

(** What netCDF can store in an attribute: xarray's [check_attr] accepts
    "a number string, ndarray or a list/tuple of numbers/strings". *)
Definition serializable (v : attr_value) : bool :=
  match v with
  | ANum _ | AStr _ | AArr _ | ASeq _ => true
  | AObj _ => false
  end.

Definition join (sep : string) (l : list string) : string := String.concat sep l.

(** Python's [str(v)]. *)
Definition py_str (v : attr_value) : string :=
  match v with
  | ANum x => np_str x
  | AStr s => s
  | AArr xs => "[" +:+ join " " (np_str <$> xs) +:+ "]"
  | ASeq xs =>
      "[" +:+ join ", " ((λ e, match e with
                               | inl x => np_str x
                               | inr s => "'" +:+ s +:+ "'"
                               end) <$> xs) +:+ "]"
  | AObj o => py_repr o
  end.

(** ** netCDF4: datasets *)

Record Dimension := {
  dim_size : nat;
  isunlimited : bool;
}.

#[global] Instance Dimension_eq_dec : EqDecision Dimension.
Proof. solve_decision. Defined.

Record NcVariable := {
  datatype : dtype;
  dimensions : list string;
  (** the stored elements, row-major over the sizes of [dimensions] *)
  var_data : list num;
  (** [variable.__dict__] *)
  var_ncattrs : gmap string attr_value;
}.

(** The content of a netCDF dataset, on disk or in memory. *)
Record NcData := {
  (** [Dataset.__dict__]: the global attributes *)
  nc_ncattrs : gmap string attr_value;
  nc_dimensions : gmap string Dimension;
  nc_variables : gmap string NcVariable;
}.

Definition nc_empty : NcData :=
  {| nc_ncattrs := ∅; nc_dimensions := ∅; nc_variables := ∅ |}.

(** A [netCDF4.Dataset] object. *)
Record Dataset := {
  ds_path : string;
  ds_writable : bool;
  ds_diskless : bool;
  ds_isopen : bool;
  ds_data : NcData;
}.

Definition with_data (d : Dataset) (c : NcData) : Dataset :=
  {| ds_path := ds_path d; ds_writable := ds_writable d;
     ds_diskless := ds_diskless d; ds_isopen := ds_isopen d; ds_data := c |}.

(** [setncatts(atts)]: sets every attribute of [atts], replacing one of the
    same name.  netCDF4 cannot store an arbitrary Python object. *)
Definition setncatts (atts old : gmap string attr_value)
    : result (gmap string attr_value) :=
  if decide (map_Forall (λ _ v, serializable v = true) atts)
  then Ok (atts ∪ old)
  else Raise TypeError.

(** [createDimension(name, size)]; [size = None] creates an unlimited
    dimension, of current length 0. *)
Definition createDimension (name : string) (size : option nat) (c : NcData)
    : result NcData :=
  match nc_dimensions c !! name with
  | Some _ => Raise RuntimeError
  | None =>
      let d := match size with
               | Some n => {| dim_size := n; isunlimited := false |}
               | None => {| dim_size := 0; isunlimited := true |}
               end in
      Ok {| nc_ncattrs := nc_ncattrs c;
            nc_dimensions := <[name := d]> (nc_dimensions c);
            nc_variables := nc_variables c |}
  end.

(** The current sizes of the named dimensions. *)
Definition shape_of (dims : gmap string Dimension) (names : list string)
    : result (list nat) :=
  match mapM (λ n, dim_size <$> dims !! n) names with
  | Some s => Ok s
  | None => Raise ValueError
  end.

(** [createVariable(name, datatype, dimensions)]: a new variable over existing
    dimensions, filled with the type's fill value, without attributes. *)
Definition createVariable (name : string) (dt : dtype) (dims : list string)
    (c : NcData) : result NcData :=
  match nc_variables c !! name with
  | Some _ => Raise RuntimeError
  | None =>
      shape ← shape_of (nc_dimensions c) dims;
      Ok {| nc_ncattrs := nc_ncattrs c;
            nc_dimensions := nc_dimensions c;
            nc_variables :=
              <[name := {| datatype := dt; dimensions := dims;
                           var_data := replicate (prod_list shape) (default_fillvals dt);
                           var_ncattrs := ∅ |}]> (nc_variables c) |}
  end.

(** [variables[name][:]]: the whole variable as an array.  Packed variables
    (scale_factor, add_offset) and masks are outside this model: values are
    read and written as stored. *)
Definition read_all (name : string) (c : NcData) : result ndarray :=
  v ← getitem (nc_variables c) name;
  shape ← shape_of (nc_dimensions c) (dimensions v);
  Ok {| nd_dtype := datatype v; nd_shape := shape; nd_flat := var_data v |}.

(** The dimensions after an array of the given shape is written along them:
    a fixed dimension must have the array's extent, an unlimited one grows to
    it. *)
Fixpoint fit_dims (dims : gmap string Dimension) (names : list string)
    (shape : list nat) : result (gmap string Dimension) :=
  match names, shape with
  | [], [] => Ok dims
  | n :: names', m :: shape' =>
      match dims !! n with
      | None => Raise ValueError
      | Some d =>
          if isunlimited d then
            if decide (dim_size d ≤ m)
            then fit_dims (<[n := {| dim_size := m; isunlimited := true |}]> dims)
                          names' shape'
            else Raise NotModelled
          else if decide (dim_size d = m) then fit_dims dims names' shape'
          else Raise ValueError
      end
  | _, _ => Raise ValueError
  end.

(** [variables[name][:] = a].  When the write grows an unlimited dimension
    that another variable spans, that variable would have to be padded with
    fill values; this is not modelled. *)
Definition assign_all (name : string) (a : ndarray) (c : NcData) : result NcData :=
  v ← getitem (nc_variables c) name;
  dims' ← fit_dims (nc_dimensions c) (dimensions v) (nd_shape a);
  if decide (map_Forall (λ k w, k = name ∨
               Forall (λ n, nc_dimensions c !! n = dims' !! n) (dimensions w))
             (nc_variables c))
  then Ok {| nc_ncattrs := nc_ncattrs c;
             nc_dimensions := dims';
             nc_variables :=
               <[name := {| datatype := datatype v; dimensions := dimensions v;
                            var_data := cast_to (datatype v) a;
                            var_ncattrs := var_ncattrs v |}]> (nc_variables c) |}
  else Raise NotModelled.

(** [dst[name].setncatts(atts)] *)
Definition var_setncatts (name : string) (atts : gmap string attr_value)
    (c : NcData) : result NcData :=
  v ← getitem (nc_variables c) name;
  atts' ← setncatts atts (var_ncattrs v);
  Ok {| nc_ncattrs := nc_ncattrs c;
        nc_dimensions := nc_dimensions c;
        nc_variables :=
          <[name := {| datatype := datatype v; dimensions := dimensions v;
                       var_data := var_data v; var_ncattrs := atts' |}]>
            (nc_variables c) |}.

(** [dst.setncatts(atts)] *)
Definition nc_setncatts (atts : gmap string attr_value) (c : NcData)
    : result NcData :=
  atts' ← setncatts atts (nc_ncattrs c);
  Ok {| nc_ncattrs := atts'; nc_dimensions := nc_dimensions c;
        nc_variables := nc_variables c |}.

(** A method call on a Dataset object: a closed dataset has no valid id, and
    a dataset opened for reading cannot be changed. *)
Definition reading {A} (d : Dataset) (f : NcData → result A) : result A :=
  if ds_isopen d then f (ds_data d) else Raise RuntimeError.

Definition writing (f : NcData → result NcData) (d : Dataset) : result Dataset :=
  if ds_isopen d && ds_writable d then with_data d <$> f (ds_data d)
  else Raise RuntimeError.

(** ** xarray: variables, DataArrays, Datasets *)

Record XrVariable := {
  xr_dims : list string;
  xr_values : ndarray;
  xr_attrs : gmap string attr_value;
}.

Record DataArray := {
  da_name : string;
  da_variable : XrVariable;
  (** the coordinates, in the order they were given *)
  da_coords : list (string * XrVariable);
}.

Record XrDataset := {
  data_vars : gmap string XrVariable;
  coords : gmap string XrVariable;
  attrs : gmap string attr_value;
}.

#[global] Instance ndarray_eq_dec : EqDecision ndarray.
Proof. solve_decision. Defined.

#[global] Instance XrVariable_eq_dec : EqDecision XrVariable.
Proof. solve_decision. Defined.

Definition xr_empty : XrDataset :=
  {| data_vars := ∅; coords := ∅; attrs := ∅ |}.

(** [ds.variables]: coordinates and data variables together. *)
Definition xr_variables (ds : XrDataset) : gmap string XrVariable :=
  coords ds ∪ data_vars ds.

(** One variable's contribution to the dimension sizes: every dimension of
    every variable has one size. *)
Definition add_size (m : gmap string nat) (kn : string * nat)
    : result (gmap string nat) :=
  match m !! kn.1 with
  | None => Ok (<[kn.1 := kn.2]> m)
  | Some n' => if decide (n' = kn.2) then Ok m else Raise ValueError
  end.

Definition add_sizes (m : gmap string nat) (v : list string * list nat)
    : result (gmap string nat) :=
  if decide (length v.1 = length v.2) then for_each add_size m (zip v.1 v.2)
  else Raise ValueError.

(** The dimension names and the shape of a variable. *)
Definition sizes (v : XrVariable) : list string * list nat :=
  (xr_dims v, nd_shape (xr_values v)).

(** [ds.dims]: dimension names and sizes, computed from the variables
    (xarray's [calculate_dimensions]). *)
Definition calculate_dimensions (vars : gmap string XrVariable)
    : result (gmap string nat) :=
  map_fold (λ _ v acc, acc ≫= λ m, add_sizes m v) (Ok ∅) (sizes <$> vars).

(** Merging one named variable into a collection: an equal one may be there
    already; a different one is a conflict.  For an index coordinate xarray
    would align the two by an outer join, which is not modelled. *)
Definition merge_var (m : gmap string XrVariable) (k : string) (v : XrVariable)
    : result (gmap string XrVariable) :=
  match m !! k with
  | None => Ok (<[k := v]> m)
  | Some w =>
      if decide (xr_dims w = xr_dims v ∧ xr_values w = xr_values v) then Ok m
      else if decide (k ∈ xr_dims v) then Raise NotModelled
      else Raise MergeError
  end.

Definition merge_one (ds : XrDataset) (da : DataArray) : result XrDataset :=
  if decide (da_name da ∈ dom (coords ds) ∨ da_name da ∈ (da_coords da).*1
             ∨ da_name da ∈ xr_dims (da_variable da)
             ∨ Exists (λ k, k ∈ dom (data_vars ds)) (da_coords da).*1)
  then Raise MergeError
  else
    cs ← for_each (λ m '(k, v), merge_var m k v) (coords ds) (da_coords da);
    dv ← merge_var (data_vars ds) (da_name da) (da_variable da);
    _ ← calculate_dimensions (cs ∪ dv);
    Ok {| data_vars := dv; coords := cs; attrs := attrs ds |}.

(** [xr.merge(da_list)] *)
Definition xr_merge (da_list : list DataArray) : result XrDataset :=
  for_each merge_one xr_empty da_list.

(** ** wrf-python *)

Inductive timeidx := ALL_TIMES | TimeIndex (t : nat).

(** What stays inside the libraries: the projection object wrf-python builds
    from the global attributes, the cartopy CRS and its point transform, and
    the datetime a row of [Times] stands for. *)
Class WrfPython := {
  (** the projection wrf-python reads off a file's global attributes *)
  getproj : NcData → result pyobject;
  (** [wrf.get_cartopy(wrfin=...)] *)
  get_cartopy : NcData → result pyobject;
  (** [crs.transform_point(x, y, crs.PlateCarree())] *)
  transform_point : pyobject → num → num → num * num;
  (** the datetime of one row of [Times] *)
  to_datetime : list num → num;
}.
Context {wrf_python : WrfPython}.

Definition wrf_dims : list string := ["Time"; "south_north"; "west_east"].

(** The XLAT or XLONG coordinate wrf-python attaches to a field of a domain
    that does not move: the grid at the first time, over the two horizontal
    dimensions. *)
Definition latlon_coord (c : NcData) (name : string) : result XrVariable :=
  v ← getitem (nc_variables c) name;
  shape ← shape_of (nc_dimensions c) (dimensions v);
  if decide (dimensions v = wrf_dims) then
    match shape with
    | 0 :: _ => Raise IndexError
    | t :: inner =>
        if decide (Forall (λ i, index0 shape (var_data v) i
                                = index0 shape (var_data v) 0) (seq 0 t))
        then Ok {| xr_dims := tail (dimensions v);
                   xr_values := {| nd_dtype := datatype v; nd_shape := inner;
                                   nd_flat := index0 shape (var_data v) 0 |};
                   xr_attrs := ∅ |}
        else Raise NotModelled
    | [] => Raise NotModelled
    end
  else Raise NotModelled.

(** The [Time] coordinate: one datetime per row of the [Times] variable. *)
Definition extract_times (c : NcData) : result XrVariable :=
  v ← getitem (nc_variables c) "Times";
  shape ← shape_of (nc_dimensions c) (dimensions v);
  match dimensions v, shape with
  | ["Time"; _], [t; _] =>
      Ok {| xr_dims := ["Time"];
            xr_values := {| nd_dtype := Datetime64; nd_shape := [t];
                            nd_flat := (λ i, to_datetime (index0 shape (var_data v) i))
                                       <$> seq 0 t |};
            xr_attrs := ∅ |}
  | _, _ => Raise NotModelled
  end.

(** [wrf.getvar(wrfin, varname, timeidx)] for a variable of the file that is
    a surface field (Time, south_north, west_east): the variable's data and
    attributes, the projection as one more attribute, and the coordinates
    XLONG, XLAT and Time.  Other variables, diagnostics wrf-python computes,
    single time indices, and fields with an axis of extent 1, which
    wrf.getvar drops from its result ([squeeze=True]), are not modelled.  A
    name the file does not have is a ValueError. *)
Definition getvar (wrfin : Dataset) (varname : string) (t : timeidx)
    : result DataArray :=
  reading wrfin (λ c,
    v ← match nc_variables c !! varname with
        | Some v => Ok v
        | None => Raise ValueError
        end;
    a ← read_all varname c;
    match t with
    | TimeIndex _ => Raise NotModelled
    | ALL_TIMES =>
        if decide (dimensions v = wrf_dims
                   ∧ (varname ∉ ["XLONG"; "XLAT"; "Time"] ++ wrf_dims)
                   ∧ 1 ∉ nd_shape a) then
          proj ← getproj c;
          xlong ← latlon_coord c "XLONG";
          xlat ← latlon_coord c "XLAT";
          times ← extract_times c;
          Ok {| da_name := varname;
                da_variable :=
                  {| xr_dims := dimensions v; xr_values := a;
                     xr_attrs := <["projection" := AObj proj]> (var_ncattrs v) |};
                da_coords := [("XLONG", xlong); ("XLAT", xlat); ("Time", times)] |}
        else Raise NotModelled
    end).

(** ** xarray: writing and reading netCDF files *)

(** A function that may raise, applied to every value of a dict. *)
Definition map_traverse {A B} (f : A → result B) (m : gmap string A)
    : result (gmap string B) :=
  map_fold (λ k a acc, m' ← acc; b ← f a; Ok (<[k := b]> m')) (Ok ∅) m.

(** Python's [s.split()]: the words of [s] between runs of white space. *)
Definition flush (cur : string) : list string :=
  if decide (cur = "") then [] else [cur].

Fixpoint split_go (cur : string) (s : string) : list string :=
  match s with
  | EmptyString => flush cur
  | String a s' =>
      if Ascii.is_space a then flush cur ++ split_go "" s'
      else split_go (cur +:+ String a "") s'
  end.

Definition py_split (s : string) : list string := split_go "" s.

(** A name that survives [' '.join] and [split]: not empty, no white space. *)
Fixpoint no_space (s : string) : bool :=
  match s with
  | EmptyString => true
  | String a s' => negb (Ascii.is_space a) && no_space s'
  end.

Definition nice_name (s : string) : Prop := s ≠ "" ∧ no_space s = true.

#[global] Instance nice_name_dec s : Decision (nice_name s).
Proof. unfold nice_name. apply _. Defined.

(** [_validate_attrs]: [check_attr] on the attributes of the dataset itself
    and of each of its variables; the first value that is not "a number
    string, ndarray or a list/tuple of numbers/strings" raises TypeError. *)
Definition validate_attrs (ds : XrDataset) : result unit :=
  if decide (map_Forall (λ _ v, serializable v = true) (attrs ds)
             ∧ map_Forall (λ _ x, map_Forall (λ _ v, serializable v = true)
                                             (xr_attrs x))
                          (xr_variables ds))
  then Ok ()
  else Raise TypeError.

(** The coordinates that are no dimension of the dataset, and those of them
    a data variable carries: the ones whose dimensions are all dimensions of
    the variable. *)
Definition non_dim_coords (ds : XrDataset) (dims : gmap string nat) : list string :=
  filter (λ k, dims !! k = None) (elements (dom (coords ds))).

Definition carries (ds : XrDataset) (v : XrVariable) (k : string) : Prop :=
  ∃ cv, coords ds !! k = Some cv ∧ xr_dims cv ⊆ xr_dims v.

#[global] Instance carries_dec ds v k : Decision (carries ds v k).
Proof.
  unfold carries. destruct (coords ds !! k) as [cv|] eqn:E.
  - destruct (decide (xr_dims cv ⊆ xr_dims v)) as [Hs|Hs].
    + left. eauto.
    + right. intros (cv' & Hcv & Hsub). simplify_eq. done.
  - right. intros (cv' & Hcv & _). done.
Defined.

Definition attached (ds : XrDataset) (dims : gmap string nat) (v : XrVariable)
    : list string :=
  filter (carries ds v) (non_dim_coords ds dims).

(** A data variable as written: the names of its coordinates go into a
    [coordinates] attribute, which it may not have already. *)
Definition encode_var (ds : XrDataset) (dims : gmap string nat) (v : XrVariable)
    : result NcVariable :=
  atts ← (if decide (attached ds dims v = []) then Ok (xr_attrs v)
          else match xr_attrs v !! "coordinates" with
               | Some _ => Raise ValueError
               | None => Ok (<["coordinates" := AStr (join " " (attached ds dims v))]>
                               (xr_attrs v))
               end);
  Ok {| datatype := nd_dtype (xr_values v); dimensions := xr_dims v;
        var_data := nd_flat (xr_values v); var_ncattrs := atts |}.

Definition plain_var (v : XrVariable) : NcVariable :=
  {| datatype := nd_dtype (xr_values v); dimensions := xr_dims v;
     var_data := nd_flat (xr_values v); var_ncattrs := xr_attrs v |}.

(** The file for a dataset.  Coordinates that no data variable carries would
    be listed in a global attribute, and names with white space would not
    read back; neither is modelled.  The CF encoding of datetimes and fill
    values is taken to be undone on reading and left out. *)
Definition encode_dataset (ds : XrDataset) : result NcData :=
  dims ← calculate_dimensions (xr_variables ds);
  if decide (Forall nice_name (elements (dom (coords ds)))
             ∧ Forall (λ k, Exists (λ v, k ∈ attached ds dims v)
                                   (map_to_list (data_vars ds)).*2)
                      (non_dim_coords ds dims))
  then
    dvs ← map_traverse (encode_var ds dims) (data_vars ds);
    Ok {| nc_ncattrs := attrs ds;
          nc_dimensions := (λ n, {| dim_size := n; isunlimited := false |}) <$> dims;
          nc_variables := (plain_var <$> coords ds) ∪ dvs |}
  else Raise NotModelled.

(** [ds.to_netcdf(path)]: the attributes are validated first; then the file
    is created, and the encoded dataset written into it. *)
Definition to_netcdf (ds : XrDataset) (path : string) (disk : gmap string NcData)
    : result unit * gmap string NcData :=
  match validate_attrs ds with
  | Raise e => (Raise e, disk)
  | Ok _ =>
      match encode_dataset ds with
      | Raise e => (Raise e, <[path := nc_empty]> disk)
      | Ok file => (Ok (), <[path := file]> disk)
      end
  end.

(** The names a variable's [coordinates] attribute lists, when all of them
    are variables of the file. *)
Definition coordinates_attr (vars : gmap string NcVariable) (v : NcVariable)
    : option (list string) :=
  match var_ncattrs v !! "coordinates" with
  | Some (AStr s) =>
      if decide (Forall (λ n, is_Some (vars !! n)) (py_split s))
      then Some (py_split s) else None
  | _ => None
  end.

Definition decode_var (file : NcData) (v : NcVariable) : result XrVariable :=
  shape ← shape_of (nc_dimensions file) (dimensions v);
  Ok {| xr_dims := dimensions v;
        xr_values := {| nd_dtype := datatype v; nd_shape := shape;
                        nd_flat := var_data v |};
        xr_attrs := match coordinates_attr (nc_variables file) v with
                    | Some _ => delete "coordinates" (var_ncattrs v)
                    | None => var_ncattrs v
                    end |}.

(** The coordinate names of a file: what the [coordinates] attributes list,
    and the variables named after a dimension. *)
Definition coord_names (file : NcData) : gset string :=
  ⋃ ((λ v, list_to_set (default [] (coordinates_attr (nc_variables file) v)))
       <$> (map_to_list (nc_variables file)).*2)
  ∪ dom (nc_dimensions file).

(** [xr.open_dataset(path)] *)
Definition open_dataset (path : string) (disk : gmap string NcData)
    : result XrDataset :=
  file ← match disk !! path with
         | Some f => Ok f
         | None => Raise FileNotFoundError
         end;
  if decide (is_Some (nc_ncattrs file !! "coordinates")) then Raise NotModelled
  else
    vars ← map_traverse (decode_var file) (nc_variables file);
    Ok {| data_vars := filter (λ kv, kv.1 ∉ coord_names file) vars;
          coords := filter (λ kv, kv.1 ∈ coord_names file) vars;
          attrs := nc_ncattrs file |}.

(** [ds[k]]: a data variable or a coordinate; its [attrs] is the dict of the
    dataset's own variable, so a change through [ds[k].attrs] changes [ds]. *)
Definition xr_getitem (ds : XrDataset) (k : string) : result XrVariable :=
  getitem (xr_variables ds) k.

Definition with_attrs (a : gmap string attr_value) (v : XrVariable) : XrVariable :=
  {| xr_dims := xr_dims v; xr_values := xr_values v; xr_attrs := a |}.

Definition xr_set_attrs (k : string) (a : gmap string attr_value) (ds : XrDataset)
    : XrDataset :=
  {| data_vars := alter (with_attrs a) k (data_vars ds);
     coords := alter (with_attrs a) k (coords ds);
     attrs := attrs ds |}.

(** ** numpy indexing used by the notebook *)

(** [a[0,:,:]] *)
Definition first_time (a : ndarray) : result ndarray :=
  match nd_shape a with
  | t :: inner =>
      if decide (length (nd_shape a) < 3) then Raise IndexError
      else if decide (t = 0) then Raise IndexError
      else Ok {| nd_dtype := nd_dtype a; nd_shape := inner;
                 nd_flat := index0 (nd_shape a) (nd_flat a) 0 |}
  | [] => Raise IndexError
  end.

(** numpy's broadcasting rule: aligned at the last axis, every extent of the
    source is the target's or 1. *)
Fixpoint broadcastable_rev (src target : list nat) : bool :=
  match src, target with
  | [], _ => true
  | s :: src', d :: target' =>
      (bool_decide (s = d) || bool_decide (s = 1)) && broadcastable_rev src' target'
  | _ :: _, [] => false
  end.

(** [dest[:,:,:] = src].  The case the notebook is written for is modelled:
    [src] has the shape of one entry of [dest] along its first axis, and is
    repeated along that axis.  Other broadcasts (stretching an axis of
    extent 1) are not. *)
Definition fill_from (dest src : ndarray) : result ndarray :=
  match nd_shape dest with
  | t :: inner =>
      if decide (length (nd_shape dest) < 3) then Raise IndexError
      else if decide (nd_shape src = inner) then
        Ok {| nd_dtype := nd_dtype dest; nd_shape := nd_shape dest;
              nd_flat := mjoin (replicate t (cast_to (nd_dtype dest) src)) |}
      else if broadcastable_rev (reverse (nd_shape src)) (reverse (nd_shape dest))
      then Raise NotModelled
      else Raise ValueError
  | [] => Raise IndexError
  end.

(** [variables[name][0,0,0]] *)
Definition first_element (name : string) (c : NcData) : result num :=
  v ← getitem (nc_variables c) name;
  shape ← shape_of (nc_dimensions c) (dimensions v);
  match shape, var_data v with
  | [S _; S _; S _], x :: _ => Ok x
  | [_; _; _], _ => Raise IndexError
  | _, _ => Raise NotModelled
  end.

(** [np.arange(n, dtype='float32') * d + x0] *)
Definition axis_points (n : nat) (d x0 : num) : ndarray :=
  {| nd_dtype := Float32; nd_shape := [n];
     nd_flat := (λ i, np_add (np_mul (np_arange i) d) x0) <$> seq 0 n |}.

(** ** The notebook's state *)

Inductive pyvalue :=
  | VInt (n : nat)
  | VAttr (a : attr_value)
  | VDataset (d : Dataset)
  | VArray (a : ndarray)
  | VTuple (x y : num)
  | VDataArrays (l : list DataArray)
  | VXr (ds : XrDataset).

Record nbstate := {
  (** the files, by path *)
  disk : gmap string NcData;
  (** what the cells printed *)
  stdout : list string;
  (** the kernel's global names; [name], [dimension], [my_var], [variable]
      and [coords], which a cell binds before it reads them (loop variables
      and temporaries), are passed along and not stored *)
  globals : gmap string pyvalue;
}.

(** A cell, or a statement: it changes the state, and returns or raises.
    What it did before raising stays done. *)
Definition M (A : Type) : Type := nbstate → result A * nbstate.

#[global] Instance M_ret : MRet M := λ A a s, (Ok a, s).
#[global] Instance M_bind : MBind M := λ A B f m s,
  match m s with
  | (Ok a, s') => f a s'
  | (Raise e, s') => (Raise e, s')
  end.

Definition lift {A} (r : result A) : M A := λ s, (r, s).

Definition modify (f : nbstate → nbstate) : M unit := λ s, (Ok (), f s).

(** A library call that reads or writes files. *)
Definition on_disk {A} (f : gmap string NcData → result A * gmap string NcData)
    : M A := λ s,
  ((f (disk s)).1,
   {| disk := (f (disk s)).2; stdout := stdout s; globals := globals s |}).

Definition load (x : string) : M pyvalue := λ s,
  (match globals s !! x with Some v => Ok v | None => Raise NameError end, s).

Definition store (x : string) (v : pyvalue) : M unit := λ s,
  (Ok (), {| disk := disk s; stdout := stdout s;
             globals := <[x := v]> (globals s) |}).

(** The state in which the name [x] is bound to [v]. *)
Definition set_global (x : string) (v : pyvalue) (s : nbstate) : nbstate :=
  {| disk := disk s; stdout := stdout s; globals := <[x := v]> (globals s) |}.

Definition print (line : string) : M unit := λ s,
  (Ok (), {| disk := disk s; stdout := stdout s ++ [line];
             globals := globals s |}).

(** [try: body / except e: handler] *)
Definition try_except {A} (body : M A) (e : exn) (handler : M A) : M A := λ s,
  match body s with
  | (Raise e', s') => if decide (e' = e) then handler s' else (Raise e', s')
  | r => r
  end.

Fixpoint for_M {B} (xs : list B) (body : B → M unit) : M unit :=
  match xs with
  | [] => mret ()
  | x :: xs' => body x;; for_M xs' body
  end.

Definition load_dataset (x : string) : M Dataset :=
  v ← load x;
  match v with VDataset d => mret d | _ => lift (Raise AttributeError) end.

Definition load_array (x : string) : M ndarray :=
  v ← load x;
  match v with VArray a => mret a | _ => lift (Raise TypeError) end.

Definition load_xr (x : string) : M XrDataset :=
  v ← load x;
  match v with VXr ds => mret ds | _ => lift (Raise AttributeError) end.

(** A method of the object [x] names that changes the object. *)
Definition update_dataset (x : string) (f : Dataset → result Dataset) : M unit :=
  d ← load_dataset x;
  d' ← lift (f d);
  store x (VDataset d').

Definition update_xr (x : string) (f : XrDataset → result XrDataset) : M unit :=
  ds ← load_xr x;
  ds' ← lift (f ds);
  store x (VXr ds').

(** [Dataset(path)]: an existing file, opened for reading. *)
Definition Dataset_r (path : string) : M Dataset := λ s,
  match disk s !! path with
  | Some c => (Ok {| ds_path := path; ds_writable := false; ds_diskless := false;
                     ds_isopen := true; ds_data := c |}, s)
  | None => (Raise FileNotFoundError, s)
  end.

(** [Dataset(path, "w", format="NETCDF4", diskless=...)]: a new, empty
    dataset.  Unless it is diskless, the file is created (or emptied) on
    disk at once. *)
Definition Dataset_w (path : string) (diskless : bool) : M Dataset := λ s,
  (Ok {| ds_path := path; ds_writable := true; ds_diskless := diskless;
         ds_isopen := true; ds_data := nc_empty |},
   if diskless then s
   else {| disk := <[path := nc_empty]> (disk s); stdout := stdout s;
           globals := globals s |}).

(** [x.close()]: a written dataset goes to its file, unless it is diskless
    (the notebook does not ask for [persist]).  Closing a closed dataset
    hands its old id to the C library, which fails or closes whatever
    dataset has the id by then: that is not modelled. *)
Definition close (x : string) : M unit :=
  d ← load_dataset x;
  if ds_isopen d then
    modify (λ s,
      {| disk := if ds_writable d && negb (ds_diskless d)
                 then <[ds_path d := ds_data d]> (disk s) else disk s;
         stdout := stdout s;
         globals := <[x := VDataset {| ds_path := ds_path d;
                                       ds_writable := ds_writable d;
                                       ds_diskless := ds_diskless d;
                                       ds_isopen := false;
                                       ds_data := ds_data d |}]>
                      (globals s) |})
  else lift (Raise NotModelled).

(** ** The cells *)

Definition root_dir : string := "/data/fiss_aic/WRF/runA_2010".
Definition my_vars : list string := ["SPDUV10MEAN"; "V10MEAN"; "U10MEAN"].
Definition src_path : string := root_dir +:+ "/wrfxtrm_d02".
Definition coord_path : string := root_dir +:+ "/wrfout_d02_2010-03-18_00:00:00".

(** [nc = Dataset(root_dir+'/wrfout_d02_2010-03-18_00:00:00')] *)
Definition cell3 : M unit :=
  d ← Dataset_r coord_path;
  store "nc" (VDataset d).

(** The guard both closing places use:
    [try: print('>> closing dst << \n'); dst.close() / except NameError: pass] *)
Definition close_dst_body : M unit :=
  print ">> closing dst << ";;
  close "dst".

Definition close_dst : M unit :=
  try_except close_dst_body NameError (mret ()).

(** [len(dimension) if not dimension.isunlimited() else None] *)
Definition size_argument (dimension : Dimension) : option nat :=
  if negb (isunlimited dimension) then Some (dim_size dimension) else None.

(** "Get variables and dimensions" *)
Definition cell6 : M unit :=
  d ← Dataset_r src_path;
  store "src" (VDataset d);;
  close_dst;;
  d ← Dataset_w "dst_tmp.nc" true;
  store "dst" (VDataset d);;
  src ← load_dataset "src";
  atts ← lift (reading src (λ c, Ok (nc_ncattrs c)));
  update_dataset "dst" (writing (nc_setncatts atts));;
  src ← load_dataset "src";
  dimensions ← lift (reading src (λ c, Ok (map_to_list (nc_dimensions c))));
  for_M dimensions (λ '(name, dimension),
    update_dataset "dst" (writing (createDimension name (size_argument dimension)))).

(** The four statements that copy the variable [name] of the dataset [from]
    into [dst]: create it, copy the data, copy the attributes. *)
Definition copy_variable (from name : string) : M unit :=
  src ← load_dataset from;
  variable ← lift (reading src (λ c, getitem (nc_variables c) name));
  update_dataset "dst"
    (writing (createVariable name (datatype variable) (dimensions variable)));;
  a ← lift (reading src (read_all name));
  update_dataset "dst" (writing (assign_all name a));;
  update_dataset "dst" (writing (var_setncatts name (var_ncattrs variable))).

(** "Add time coordinates" *)
Definition cell7 : M unit := copy_variable "src" "Times".

(** One round of the loop of "Add lat/lon coordinates". *)
Definition copy_coordinate (name : string) : M unit :=
  cf ← load_dataset "coord_file";
  variable ← lift (reading cf (λ c, getitem (nc_variables c) name));
  update_dataset "dst"
    (writing (createVariable name (datatype variable) (dimensions variable)));;
  dst ← load_dataset "dst";
  shape ← lift (reading dst (λ c, v ← getitem (nc_variables c) name;
                                  shape_of (nc_dimensions c) (dimensions v)));
  store "correct_shape_arr" (VArray (np_zeros shape));;
  a ← lift (reading cf (read_all name));
  slice ← lift (first_time a);
  arr ← load_array "correct_shape_arr";
  arr' ← lift (fill_from arr slice);
  store "correct_shape_arr" (VArray arr');;
  update_dataset "dst" (writing (assign_all name arr'));;
  update_dataset "dst" (writing (var_setncatts name (var_ncattrs variable))).

Definition cell8 : M unit :=
  d ← Dataset_r coord_path;
  store "coord_file" (VDataset d);;
  for_M ["XLAT"; "XLONG"] copy_coordinate.

Definition getattr (x attr : string) : M attr_value :=
  d ← load_dataset x;
  lift (reading d (λ c, match nc_ncattrs c !! attr with
                        | Some a => Ok a
                        | None => Raise AttributeError
                        end)).

Definition dimension_size (x name : string) : M nat :=
  d ← load_dataset x;
  lift (reading d (λ c, dim_size <$> getitem (nc_dimensions c) name)).

(** "Extract any useful information from nc file" *)
Definition cell9 : M unit :=
  nx ← dimension_size "dst" "west_east"; store "nx" (VInt nx);;
  ny ← dimension_size "dst" "south_north"; store "ny" (VInt ny);;
  dt ← getattr "dst" "DT"; dx ← getattr "dst" "DX"; dy ← getattr "dst" "DY";
  store "dt" (VAttr dt);; store "dx" (VAttr dx);; store "dy" (VAttr dy);;
  cen_lat ← getattr "dst" "CEN_LAT"; cen_lon ← getattr "dst" "CEN_LON";
  store "cen_lat" (VAttr cen_lat);; store "cen_lon" (VAttr cen_lon);;
  truelat1 ← getattr "dst" "TRUELAT1"; truelat2 ← getattr "dst" "TRUELAT2";
  stand_lon ← getattr "dst" "STAND_LON";
  store "truelat1" (VAttr truelat1);; store "truelat2" (VAttr truelat2);;
  store "STAND_LON" (VAttr stand_lon);;
  pole_lat ← getattr "dst" "POLE_LAT"; pole_lon ← getattr "dst" "POLE_LON";
  store "pole_lat" (VAttr pole_lat);; store "pole_lon" (VAttr pole_lon).

Definition load_int (x : string) : M nat :=
  v ← load x;
  match v with VInt n => mret n | _ => lift (Raise TypeError) end.

(** A name that holds a number, as a factor or a summand. *)
Definition load_num (x : string) : M num :=
  v ← load x;
  match v with VAttr (ANum y) => mret y | _ => lift (Raise NotModelled) end.

Definition load_tuple (x : string) : M (num * num) :=
  v ← load x;
  match v with VTuple a b => mret (a, b) | _ => lift (Raise TypeError) end.

(** One axis of "Add south_north and west_east": the variable [name] over
    the dimension [name], with the given points and attributes. *)
Definition add_axis (name points axis : string) : M unit :=
  p ← load_array points;
  update_dataset "dst" (writing (createVariable name (nd_dtype p) [name]));;
  p ← load_array points;
  update_dataset "dst" (writing (assign_all name p));;
  update_dataset "dst"
    (writing (var_setncatts name (<["units" := AStr "m"]> {["axis" := AStr axis]}))).

Definition cell10 : M unit :=
  dst ← load_dataset "dst";
  proj ← lift (reading dst get_cartopy);
  lon ← lift (reading dst (first_element "XLONG"));
  lat ← lift (reading dst (first_element "XLAT"));
  store "x0_y0" (let '(x0, y0) := transform_point proj lon lat in VTuple x0 y0);;
  nx ← load_int "nx"; dy ← load_num "dy"; x0_y0 ← load_tuple "x0_y0";
  store "west_east_points" (VArray (axis_points nx dy x0_y0.1));;
  ny ← load_int "ny"; dy ← load_num "dy"; x0_y0 ← load_tuple "x0_y0";
  store "south_north_points" (VArray (axis_points ny dy x0_y0.2));;
  add_axis "south_north" "south_north_points" "y";;
  add_axis "west_east" "west_east_points" "x".

(** "copy chosen variables (my_var) from src to dst" *)
Definition cell11 : M unit := for_M my_vars (copy_variable "src").

Definition load_da_list (x : string) : M (list DataArray) :=
  v ← load x;
  match v with VDataArrays l => mret l | _ => lift (Raise AttributeError) end.

(** "Create an Xarray Dataset of WRF variables" *)
Definition cell13 : M unit :=
  store "da_list" (VDataArrays []);;
  for_M my_vars (λ my_var,
    dst ← load_dataset "dst";
    da ← lift (getvar dst my_var ALL_TIMES);
    da_list ← load_da_list "da_list";
    store "da_list" (VDataArrays (da_list ++ [da])));;
  da_list ← load_da_list "da_list";
  ds ← lift (xr_merge da_list);
  store "ds" (VXr ds).

Definition cell14 : M unit := close_dst.

(** [x.to_netcdf(path)] *)
Definition write_netcdf (x path : string) : M unit :=
  ds ← load_xr x;
  on_disk (to_netcdf ds path).

Definition cell15 : M unit := write_netcdf "ds" "test.nc".

(** [ds['SPDUV10MEAN'].attrs], displayed. *)
Definition cell16 : M unit :=
  ds ← load_xr "ds";
  _ ← lift (xr_getitem ds "SPDUV10MEAN");
  mret ().

(** The two statements of the loop of "Fix attributes so that we can save to
    file...". *)
Definition stringify_projection (my_var : string) (ds : XrDataset)
    : result XrDataset :=
  v ← xr_getitem ds my_var;
  p ← getitem (xr_attrs v) "projection";
  v ← xr_getitem ds my_var;
  Ok (xr_set_attrs my_var (<["projection" := AStr (py_str p)]> (xr_attrs v)) ds).

Definition pop_coordinates (my_var : string) (ds : XrDataset) : result XrDataset :=
  v ← xr_getitem ds my_var;
  _ ← getitem (xr_attrs v) "coordinates";
  Ok (xr_set_attrs my_var (delete "coordinates" (xr_attrs v)) ds).

Definition fix_attributes : M unit :=
  for_M my_vars (λ my_var,
    update_xr "ds" (stringify_projection my_var);;
    update_xr "ds" (pop_coordinates my_var)).

Definition cell17 : M unit :=
  fix_attributes;;
  write_netcdf "ds" "test.nc".

(** [!ls -ltrh test.nc]: a shell command; it prints, and raises nothing. *)
Definition cell18 : M unit :=
  files ← on_disk (λ files, (Ok files, files));
  print (if decide (is_Some (files !! "test.nc")) then "test.nc"
         else "ls: cannot access test.nc").

(** [ds2 = xr.open_dataset('test.nc')] *)
Definition cell20 : M unit :=
  ds2 ← on_disk (λ files, (open_dataset "test.nc" files, files));
  store "ds2" (VXr ds2).

Definition cell21 : M unit :=
  ds2 ← load_xr "ds2";
  _ ← lift (xr_getitem ds2 "SPDUV10MEAN");
  mret ().

(** The code cells in order.  (The first imports the libraries; the fifth
    binds [root_dir] and [my_vars], which are constants here.) *)
Definition cells : list (M unit) :=
  [cell3; cell6; cell7; cell8; cell9; cell10; cell11; cell13; cell14;
   cell15; cell16; cell17; cell18; cell20; cell21].

(** Running the cells one after the other, as the recorded session did: a
    cell that raises shows its traceback, and the next cell is run on the
    state the failed one left. *)
Definition run_cells (cs : list (M unit)) (s : nbstate) : nbstate :=
  foldl (λ s c, (c s).2) s cs.

(** The state after each cell. *)
Fixpoint trace (cs : list (M unit)) (s : nbstate) : list nbstate :=
  match cs with
  | [] => []
  | c :: cs' => (c s).2 :: trace cs' (c s).2
  end.

(** What each cell returned or raised. *)
Fixpoint outcomes (cs : list (M unit)) (s : nbstate) : list (result unit) :=
  match cs with
  | [] => []
  | c :: cs' => (c s).1 :: outcomes cs' (c s).2
  end.

(** A fresh kernel over the given files. *)
Definition fresh (files : gmap string NcData) : nbstate :=
  {| disk := files; stdout := []; globals := ∅ |}.

(** ** The cells as the notebook writes them *)

(** What a cell is made of. *)
#[local] Unset Elimination Schemes.
Inductive stmt : Type :=
  (** statements one after the other, without control flow: calls of library
      functions and methods, and bindings of names *)
  | Calls (m : M unit)
  (** [for x in items: body] *)
  | For {B : Type} (items : M (list B)) (body : B → list stmt)
  (** [try: body / except e: handler] *)
  | Try (body : list stmt) (e : exn) (handler : list stmt)
  (** a statement with [x if c else y] in it: the statement with [x], and
      the statement with [y] *)
  | IfExp (c : bool) (then_ else_ : stmt).
#[local] Set Elimination Schemes.

(** The statements of a block, one after the other. *)
Definition block (run : stmt → M unit) : list stmt → M unit :=
  fix go l :=
    match l with
    | [] => mret ()
    | [c] => run c
    | c :: l' => run c;; go l'
    end.

Fixpoint run (c : stmt) : M unit :=
  match c with
  | Calls m => m
  | For items body => xs ← items; for_M xs (λ x, block run (body x))
  | Try body e handler => try_except (block run body) e (block run handler)
  | IfExp c then_ else_ => if c then run then_ else run else_
  end.

Definition run_block : list stmt → M unit := block run.




End Notebook.

(** * Statements

    The predicates the theorems are stated with. *)

Section Specification.
Context {num : Type} {numpy : NumPy num} {wrf_python : @WrfPython num}.
Implicit Types (s : @nbstate num) (c : @NcData num) (d : @Dataset num).
Implicit Types (ds : @XrDataset num) (w : @NcVariable num).

(** [preserves I m φ]: [m] keeps the invariant [I], whether it returns or
    raises, and what it returns satisfies [φ]. *)
Definition preserves {A} (I : @nbstate num → Prop) (m : M A) (φ : A → Prop) : Prop :=
  ∀ s r s', I s → m s = (r, s') → I s' ∧ ∀ a, r = Ok a → φ a.

(** A dataset that is open for writing is diskless. *)
Definition flags_ok d : Prop := ds_writable d = true → ds_diskless d = true.

(** Every path but test.nc holds what it holds in [files], and every dataset
    of the namespace satisfies [flags_ok]. *)
Definition only_test_nc (files : gmap string (@NcData num)) s : Prop :=
  (∀ p, p ≠ "test.nc" → disk s !! p = files !! p) ∧
  (∀ x d, globals s !! x = Some (VDataset d) → flags_ok d).

(** A value that may be stored without breaking [only_test_nc]. *)
Definition value_ok (v : @pyvalue num) : Prop :=
  match v with VDataset d => flags_ok d | _ => True end.

(** [m] does not look at the name [x]: bound to any value, [m] returns the
    same and leaves the same state, up to that binding. *)
Definition ignores {A} (x : string) (m : M A) : Prop :=
  ∀ v s, m (set_global x v s) = ((m s).1, set_global x v (m s).2).

(** One round of the loop as a function of the dataset, and the loop. *)
Definition fix_one (my_var : string) ds : result XrDataset :=
  stringify_projection my_var ds ≫= pop_coordinates my_var.

Definition fix_all (names : list string) ds : result XrDataset :=
  for_each (λ ds my_var, fix_one my_var ds) ds names.

(** What the fix makes of a variable's attributes. *)
Definition fix_attrs (p : @attr_value num) (a : gmap string (@attr_value num))
    : gmap string attr_value :=
  delete "coordinates" (<["projection" := AStr (py_str p)]> a).

(** [dim'] is unlimited exactly when [dim] is, and a fixed [dim'] has the
    length of [dim]. *)
Definition same_kind (dim dim' : Dimension) : Prop :=
  isunlimited dim' = isunlimited dim ∧
  (isunlimited dim = false → dim_size dim' = dim_size dim).

(** One call on the variable [n] of a dataset that returned. *)
Inductive nc_step (n : string) c c' : Prop :=
  | step_create dt dims : createVariable n dt dims c = Ok c' → nc_step n c c'
  | step_assign a : assign_all n a c = Ok c' → nc_step n c c'
  | step_attrs atts : var_setncatts n atts c = Ok c' → nc_step n c c'.

(** The variable [name] of [c] is the variable [name] of [src]: the same
    record (type, dimension names, data, attributes), read as the same
    array (so with the same shape). *)
Definition copied (src : @NcData num) (name : string) c : Prop :=
  ∃ w a, nc_variables src !! name = Some w ∧ nc_variables c !! name = Some w ∧
         read_all name src = Ok a ∧ read_all name c = Ok a.

(** Every dimension of [src] is in [c] under its name, of the same kind. *)
Definition dims_copied (src : @NcData num) c : Prop :=
  ∀ k dim, nc_dimensions src !! k = Some dim →
           ∃ dim', nc_dimensions c !! k = Some dim' ∧ same_kind dim dim'.

(** [Q] survives every call on a variable named in [names]. *)
Definition stable (names : list string) (Q : @NcData num → Prop) : Prop :=
  ∀ n c c', n ∈ names → Q c → nc_step n c c' → Q c'.

(** [Q] holds of the dataset bound to [dst], if there is one. *)
Definition dst_inv (Q : @NcData num → Prop) s : Prop :=
  ∀ d, globals s !! "dst" = Some (VDataset d) → Q (ds_data d).

(** The name [x] is bound to [v]. *)
Definition bound (x : string) (v : @pyvalue num) s : Prop :=
  globals s !! x = Some v.

(** The dimension [createDimension] makes from [size_argument]. *)
Definition created (dimension : Dimension) : Dimension :=
  match size_argument dimension with
  | Some n => {| dim_size := n; isunlimited := false |}
  | None => {| dim_size := 0; isunlimited := true |}
  end.

(** The variable [name] of [c] is [w], of the given shape. *)
Definition holds (name : string) w (shape : list nat) c : Prop :=
  nc_variables c !! name = Some w ∧
  shape_of (nc_dimensions c) (dimensions w) = Ok shape.

(** A file in which every variable has as many elements as its shape says. *)
Definition well_formed c : Prop :=
  ∀ k w shape, nc_variables c !! k = Some w →
    shape_of (nc_dimensions c) (dimensions w) = Ok shape →
    length (var_data w) = prod_list shape.

(** The elements [xs] of a variable of type [dt] survive the passage
    through a float64 array. *)
Definition exact_in_float64 (dt : dtype) (xs : list num) : Prop :=
  ∀ x, x ∈ xs → np_astype Float64 dt (np_astype dt Float64 x) = x.

(** The names the file lists for its variable [k]. *)
Definition listed ds (dims : gmap string nat) (k : string) : list string :=
  match coords ds !! k, data_vars ds !! k with
  | None, Some v => attached ds dims v
  | _, _ => []
  end.

(** A dataset that reads back as it was written: no [coordinates] attribute
    of its own anywhere, and data variables that are neither coordinates nor
    named after a dimension. *)
Definition plain_dataset ds : Prop :=
  attrs ds !! "coordinates" = None ∧
  (∀ k v, xr_variables ds !! k = Some v → xr_attrs v !! "coordinates" = None) ∧
  (∀ k v, data_vars ds !! k = Some v →
     coords ds !! k = None ∧
     ∀ n v', xr_variables ds !! n = Some v' → k ∉ xr_dims v').

(** What cell 13 makes of the assembled file [c]: the dataset of the three
    fields, each over (Time, south_north, west_east) with the file's data and
    attributes and the projection object, and the three coordinates that
    wrf-python attaches (XLONG, XLAT, Time), without attributes. *)
Definition merged_from c ds : Prop :=
  attrs ds = ∅ ∧
  dom (coords ds) = {["XLONG"; "XLAT"; "Time"]} ∧
  dom (data_vars ds) = list_to_set my_vars ∧
  (∀ k cv, coords ds !! k = Some cv → xr_attrs cv = ∅ ∧ xr_dims cv ⊆ wrf_dims) ∧
  (∀ k, k ∈ my_vars →
     ∃ w a proj, nc_variables c !! k = Some w ∧ read_all k c = Ok a ∧
       data_vars ds !! k
       = Some {| xr_dims := wrf_dims; xr_values := a;
                 xr_attrs := <["projection" := AObj proj]> (var_ncattrs w) |}) ∧
  ∃ dims, calculate_dimensions (xr_variables ds) = Ok dims.

(** The attributes of the variable [name], if there is one, are values
    netCDF stores. *)
Definition checked (name : string) c : Prop :=
  ∀ w, nc_variables c !! name = Some w →
       map_Forall (λ _ x, serializable x = true) (var_ncattrs w).

(** Every attribute of the dataset and of its variables is a value netCDF
    stores: a number, a string, an ndarray, or a list or tuple of numbers
    and strings. *)
Definition attrs_serializable ds : Prop :=
  map_Forall (λ _ x, serializable x = true) (attrs ds) ∧
  map_Forall (λ _ v, map_Forall (λ _ x, serializable x = true) (xr_attrs v))
             (xr_variables ds).

(** Nothing has been written, every dataset of the namespace satisfies
    [flags_ok], and [ds], if it is bound, is a dataset that [to_netcdf]
    refuses. *)
Definition quiet (files : gmap string (@NcData num)) s : Prop :=
  disk s = files ∧
  (∀ x d, globals s !! x = Some (VDataset d) → flags_ok d) ∧
  (∀ v, globals s !! "ds" = Some v → ∃ ds, v = VXr ds ∧ ¬ attrs_serializable ds).

(** Nothing has been written and none of [src], [dst] and [ds] is bound. *)
Definition unassembled (files : gmap string (@NcData num)) s : Prop :=
  disk s = files ∧ globals s !! "src" = None ∧
  globals s !! "dst" = None ∧ globals s !! "ds" = None.



(** [raises c s e s']: when [c] is run from [s], one of its calls raises [e]
    and leaves [s']; the calls before it have returned.  Whether [c] then
    raises [e] is another matter: a [try] may catch it. *)
Definition raises_in (raises : @stmt num → nbstate → exn → nbstate → Prop)
    : list stmt → nbstate → exn → nbstate → Prop :=
  fix go l s e s' :=
    match l with
    | [] => False
    | c :: l' => raises c s e s' ∨ ∃ s1, run c s = (Ok (), s1) ∧ go l' s1 e s'
    end.

Fixpoint raises (c : @stmt num) s (e : exn) s' : Prop :=
  match c with
  | Calls m => m s = (Raise e, s')
  | For items body =>
      items s = (Raise e, s') ∨
      ∃ xs s0 xs1 x xs2 s1,
        items s = (Ok xs, s0) ∧ xs = xs1 ++ x :: xs2 ∧
        for_M xs1 (λ x, run_block (body x)) s0 = (Ok (), s1) ∧
        raises_in raises (body x) s1 e s'
  | Try body e0 handler =>
      raises_in raises body s e s' ∨
      ∃ s1, run_block body s = (Raise e0, s1) ∧ raises_in raises handler s1 e s'
  | IfExp c then_ else_ => if c then raises then_ s e s' else raises else_ s e s'
  end.

End Specification.

(** * A small run *)

(** Integers for numpy's scalars: conversions between types keep the value. *)
#[global] Instance Z_numpy : NumPy Z := {|
  np_zero := 0%Z;
  np_astype := λ _ _ x, x;
  np_arange := Z.of_nat;
  np_mul := Z.mul;
  np_add := Z.add;
  np_str := pretty;
  default_fillvals := λ _, (-999)%Z;
|}.

#[global] Instance Z_wrf : @WrfPython Z := {|
  getproj := λ _, Ok (PyObject "PolarStereographic(stand_lon=-45.0)");
  get_cartopy := λ _, Ok (PyObject "cartopy.crs.Stereographic");
  transform_point := λ _ x y, ((x * 10)%Z, (y * 10)%Z);
  to_datetime := foldr Z.add 0%Z;
|}.

(** An implementation in which conversions lose digits, for the theorems that
    assume elements pass through float64 unchanged: a conversion to float32
    or float64 keeps the 24, respectively 53, leading binary digits of an
    integer and clears the others (towards zero, where numpy rounds to
    nearest); the other conversions keep the value. *)
Definition keep_digits (digits x : Z) : Z :=
  let spare := (Z.log2 (Z.abs x) + 1 - digits)%Z in
  if (spare <=? 0)%Z then x
  else (Z.sgn x * Z.shiftl (Z.shiftr (Z.abs x) spare) spare)%Z.

Definition Z_rounding : NumPy Z := {|
  np_zero := 0%Z;
  np_astype := λ _ to x, match to with
                         | Float32 => keep_digits 24 x
                         | Float64 => keep_digits 53 x
                         | _ => x
                         end;
  np_arange := Z.of_nat;
  np_mul := Z.mul;
  np_add := Z.add;
  np_str := pretty;
  default_fillvals := λ _, (-999)%Z;
|}.

Definition field_attrs : gmap string (@attr_value Z) :=
  <["units" := AStr "m s-1"]>
    (<["coordinates" := AStr "XLONG XLAT XTIME"]> (<["FieldType" := ANum 104%Z]> ∅)).

Definition sample_dims : gmap string Dimension :=
  <["Time" := {| dim_size := 2; isunlimited := true |}]>
  (<["DateStrLen" := {| dim_size := 3; isunlimited := false |}]>
  (<["south_north" := {| dim_size := 2; isunlimited := false |}]>
  (<["west_east" := {| dim_size := 3; isunlimited := false |}]> ∅))).

Definition field (k : Z) : @NcVariable Z :=
  {| datatype := Float32; dimensions := ["Time"; "south_north"; "west_east"];
     var_data := (λ i, (k + Z.of_nat i)%Z) <$> seq 0 12;
     var_ncattrs := field_attrs |}.

Definition sample_src : @NcData Z :=
  {| nc_ncattrs :=
       <["DX" := ANum 3000%Z]> (<["DY" := ANum 1000%Z]>
         (list_to_map ((λ k, (k, ANum 7%Z)) <$>
            ["DT"; "CEN_LAT"; "CEN_LON"; "TRUELAT1"; "TRUELAT2"; "STAND_LON";
             "POLE_LAT"; "POLE_LON"])));
     nc_dimensions := sample_dims;
     nc_variables :=
       <["Times" := {| datatype := S1; dimensions := ["Time"; "DateStrLen"];
                       var_data := [1; 2; 3; 4; 5; 6]%Z; var_ncattrs := ∅ |}]>
       (<["SPDUV10MEAN" := field 100]>
       (<["V10MEAN" := field 200]> (<["U10MEAN" := field 300]> ∅))) |}.

Definition grid (k : Z) : @NcVariable Z :=
  {| datatype := Float32; dimensions := ["Time"; "south_north"; "west_east"];
     var_data := (λ i, (k + Z.of_nat i)%Z) <$> seq 0 6;
     var_ncattrs := <["units" := AStr "degree"]> ∅ |}.

Definition sample_coord : @NcData Z :=
  {| nc_ncattrs := ∅;
     nc_dimensions := <["Time" := {| dim_size := 1; isunlimited := true |}]> sample_dims;
     nc_variables := <["XLAT" := grid (-70)]> (<["XLONG" := grid (-120)]> ∅) |}.

Definition sample_files : gmap string (@NcData Z) :=
  <[src_path := sample_src]> (<[coord_path := sample_coord]> ∅).

(** The states of the run: after cell 3, and after each later stage. *)
Definition after (n : nat) : @nbstate Z := run_cells (take n cells) (fresh sample_files).


(** [ds[name].attrs.get(k)] for the dataset bound to [x]. *)
Definition attrs_get (x name k : string) (s : @nbstate Z)
    : result (option (@attr_value Z)) :=
  ds ← (load_xr x s).1; v ← xr_getitem ds name; Ok (xr_attrs v !! k).

(** The merged dataset of the run with every projection made a string, and
    nothing else done to it. *)
Definition stringified : result (@XrDataset Z) :=
  ds ← (load_xr "ds" (after 8)).1;
  for_each (λ ds my_var, stringify_projection my_var ds) ds my_vars.

(** * Properties *)

Section Properties.
Context {num : Type} {numpy : NumPy num} {wrf_python : @WrfPython num}.

Implicit Types (s : @nbstate num) (c : @NcData num) (d : @Dataset num).

(** ** Running statements: what a successful run tells *)

Lemma bind_Ok {A B} (m : M A) (f : A → M B) s b s' :
  (m ≫= f) s = (Ok b, s') ↔ ∃ a s1, m s = (Ok a, s1) ∧ f a s1 = (Ok b, s').
Proof.
  unfold mbind, M_bind. destruct (m s) as [[a|e] s1]; split.
  - eauto.
  - by intros (a' & s1' & [= -> ->] & ?).
  - done.
  - by intros (a' & s1' & [=] & ?).
Qed.

Lemma ret_Ok {A} (a b : A) s s' : mret (M := M) a s = (Ok b, s') ↔ a = b ∧ s' = s.
Proof. unfold mret, M_ret. naive_solver. Qed.

Lemma lift_Ok {A} (r : result A) s a s' : lift r s = (Ok a, s') ↔ r = Ok a ∧ s' = s.
Proof. unfold lift. naive_solver. Qed.

Lemma modify_Ok f s u s' : modify f s = (Ok u, s') ↔ s' = f s.
Proof. unfold modify. destruct u. naive_solver. Qed.

Lemma load_Ok x s v s' :
  load x s = (Ok v, s') ↔ globals s !! x = Some v ∧ s' = s.
Proof. unfold load. destruct (globals s !! x); naive_solver. Qed.

Lemma load_dataset_Ok x s d s' :
  load_dataset x s = (Ok d, s') ↔ globals s !! x = Some (VDataset d) ∧ s' = s.
Proof.
  unfold load_dataset. rewrite bind_Ok. setoid_rewrite load_Ok. split.
  - intros (v & s1 & [Hv ->] & Hm). destruct v;
      first [apply ret_Ok in Hm as [-> ->]; done | by apply lift_Ok in Hm as [? ?]].
  - intros [Hv ->]. eexists _, _. split; [done|]. by apply ret_Ok.
Qed.

Lemma load_array_Ok x s a s' :
  load_array x s = (Ok a, s') ↔ globals s !! x = Some (VArray a) ∧ s' = s.
Proof.
  unfold load_array. rewrite bind_Ok. setoid_rewrite load_Ok. split.
  - intros (v & s1 & [Hv ->] & Hm). destruct v;
      first [apply ret_Ok in Hm as [-> ->]; done | by apply lift_Ok in Hm as [? ?]].
  - intros [Hv ->]. eexists _, _. split; [done|]. by apply ret_Ok.
Qed.

Lemma load_xr_Ok x s ds s' :
  load_xr x s = (Ok ds, s') ↔ globals s !! x = Some (VXr ds) ∧ s' = s.
Proof.
  unfold load_xr. rewrite bind_Ok. setoid_rewrite load_Ok. split.
  - intros (v & s1 & [Hv ->] & Hm). destruct v;
      first [apply ret_Ok in Hm as [-> ->]; done | by apply lift_Ok in Hm as [? ?]].
  - intros [Hv ->]. eexists _, _. split; [done|]. by apply ret_Ok.
Qed.

Lemma store_Ok x v s u s' :
  store x v s = (Ok u, s') ↔
  s' = {| disk := disk s; stdout := stdout s; globals := <[x := v]> (globals s) |}.
Proof. unfold store. destruct u. naive_solver. Qed.

Lemma print_Ok l s u s' :
  print l s = (Ok u, s') ↔
  s' = {| disk := disk s; stdout := stdout s ++ [l]; globals := globals s |}.
Proof. unfold print. destruct u. naive_solver. Qed.

Lemma reading_Ok {A} d (f : NcData → result A) a :
  reading d f = Ok a ↔ ds_isopen d = true ∧ f (ds_data d) = Ok a.
Proof. unfold reading. destruct (ds_isopen d); naive_solver. Qed.

Lemma writing_Ok f d d' :
  writing f d = Ok d' ↔
  ds_isopen d = true ∧ ds_writable d = true ∧
  ∃ c', f (ds_data d) = Ok c' ∧ d' = with_data d c'.
Proof.
  unfold writing. destruct (ds_isopen d), (ds_writable d); simpl;
    try naive_solver.
  destruct (f (ds_data d)); simpl; naive_solver.
Qed.

Lemma update_dataset_Ok x f s u s' :
  update_dataset x f s = (Ok u, s') ↔
  ∃ d d', globals s !! x = Some (VDataset d) ∧ f d = Ok d' ∧
          s' = {| disk := disk s; stdout := stdout s;
                  globals := <[x := VDataset d']> (globals s) |}.
Proof.
  unfold update_dataset. split.
  - intros (d & s1 & [Hd ->]%load_dataset_Ok & H)%bind_Ok.
    apply bind_Ok in H as (d' & s2 & [Hf ->]%lift_Ok & H).
    apply store_Ok in H. eauto 10.
  - intros (d & d' & Hd & Hf & ->). apply bind_Ok. exists d, s.
    split; [by apply load_dataset_Ok|]. apply bind_Ok. exists d', s.
    split; [by apply lift_Ok|]. by apply store_Ok.
Qed.

Lemma update_xr_Ok x f s u s' :
  update_xr x f s = (Ok u, s') ↔
  ∃ ds ds', globals s !! x = Some (VXr ds) ∧ f ds = Ok ds' ∧
            s' = {| disk := disk s; stdout := stdout s;
                    globals := <[x := VXr ds']> (globals s) |}.
Proof.
  unfold update_xr. split.
  - intros (ds & s1 & [Hd ->]%load_xr_Ok & H)%bind_Ok.
    apply bind_Ok in H as (ds' & s2 & [Hf ->]%lift_Ok & H).
    apply store_Ok in H. eauto 10.
  - intros (ds & ds' & Hd & Hf & ->). apply bind_Ok. exists ds, s.
    split; [by apply load_xr_Ok|]. apply bind_Ok. exists ds', s.
    split; [by apply lift_Ok|]. by apply store_Ok.
Qed.

Lemma result_bind_Ok {A B} (r : result A) (f : A → result B) b :
  r ≫= f = Ok b ↔ ∃ a, r = Ok a ∧ f a = Ok b.
Proof. destruct r; simpl; naive_solver. Qed.

Lemma result_fmap_Ok {A B} (r : result A) (f : A → B) b :
  f <$> r = Ok b ↔ ∃ a, r = Ok a ∧ b = f a.
Proof. destruct r; simpl; naive_solver. Qed.

Lemma getitem_Ok {A} (m : gmap string A) k a :
  getitem m k = Ok a ↔ m !! k = Some a.
Proof. unfold getitem. destruct (m !! k); naive_solver. Qed.

End Properties.

(** ** Invariants of the cells, and the files they write *)

Section Files.
Context {num : Type} {numpy : NumPy num} {wrf_python : @WrfPython num}.
Implicit Types (s : @nbstate num) (c : @NcData num) (d : @Dataset num).
Implicit Types (I : @nbstate num → Prop) (files : gmap string (@NcData num)) (v : @pyvalue num).

Lemma preserves_weaken {A} I (m : M A) (φ ψ : A → Prop) :
  preserves I m φ → (∀ a, φ a → ψ a) → preserves I m ψ.
Proof. intros Hm Hi s r s' HI Hr. destruct (Hm s r s' HI Hr). naive_solver. Qed.

Lemma preserves_ret {A} I (a : A) (φ : A → Prop) : φ a → preserves I (mret a) φ.
Proof. intros Ha s r s' HI [= <- <-]. naive_solver. Qed.

Lemma preserves_bind {A B} I (m : M A) (f : A → M B) φ ψ :
  preserves I m φ → (∀ a, φ a → preserves I (f a) ψ) → preserves I (m ≫= f) ψ.
Proof.
  intros Hm Hf s r s' HI. unfold mbind, M_bind.
  destruct (m s) as [[a|e] s1] eqn:E.
  - destruct (Hm _ _ _ HI E) as [HI1 Ha]. intros Hfa. eapply Hf; eauto.
  - destruct (Hm _ _ _ HI E) as [HI1 Ha]. intros [= <- <-]. done.
Qed.

Lemma preserves_lift {A} I (r : result A) (φ : A → Prop) :
  (∀ a, r = Ok a → φ a) → preserves I (lift r) φ.
Proof. intros Hr s r' s' HI [= <- <-]. done. Qed.

Lemma preserves_try_except {A} I (m h : M A) e φ :
  preserves I m φ → preserves I h φ → preserves I (try_except m e h) φ.
Proof.
  intros Hm Hh s r s' HI. unfold try_except.
  destruct (m s) as [[a|e'] s1] eqn:E.
  - intros [= <- <-]. eapply Hm; done.
  - destruct (Hm _ _ _ HI E) as [HI1 _]. case_decide; [by apply Hh|].
    intros [= <- <-]. done.
Qed.

Lemma preserves_for_M {B} I (l : list B) (f : B → M unit) :
  (∀ b, b ∈ l → preserves I (f b) (λ _, True)) → preserves I (for_M l f) (λ _, True).
Proof.
  induction l as [|b l IH]; intros Hf; simpl.
  - by apply preserves_ret.
  - eapply preserves_bind; [apply Hf; left|]. intros _ _. apply IH.
    intros ??. apply Hf. by right.
Qed.

(** Statements that only look at the namespace. *)
Lemma preserves_load I x (φ : pyvalue → Prop) :
  (∀ s v, I s → globals s !! x = Some v → φ v) → preserves I (load x) φ.
Proof.
  intros Hφ s r s' HI. unfold load. intros Hr. injection Hr as <- <-.
  split; [done|].
  intros a Ha. destruct (globals s !! x) eqn:E; simplify_eq. eauto.
Qed.

Lemma preserves_load_dataset I x (φ : Dataset → Prop) :
  (∀ s d, I s → globals s !! x = Some (VDataset d) → φ d) →
  preserves I (load_dataset x) φ.
Proof.
  intros Hφ s r s' HI Hr. cbv [load_dataset mbind M_bind load mret M_ret lift] in Hr.
  destruct (globals s !! x) as [[]|] eqn:E; simplify_eq; naive_solver.
Qed.

Lemma preserves_load_array I x : preserves I (load_array x) (λ _, True).
Proof.
  intros s r s' HI Hr. cbv [load_array mbind M_bind load mret M_ret lift] in Hr.
  destruct (globals s !! x) as [[]|] eqn:E; simplify_eq; naive_solver.
Qed.

Lemma preserves_load_xr I x (φ : XrDataset → Prop) :
  (∀ s ds, I s → globals s !! x = Some (VXr ds) → φ ds) →
  preserves I (load_xr x) φ.
Proof.
  intros Hφ s r s' HI Hr. cbv [load_xr mbind M_bind load mret M_ret lift] in Hr.
  destruct (globals s !! x) as [[]|] eqn:E; simplify_eq; naive_solver.
Qed.

Lemma preserves_modify I f : (∀ s, I s → I (f s)) → preserves I (modify f) (λ _, True).
Proof. intros Hf s r s' HI [= <- <-]. auto. Qed.

Lemma preserves_store I x v :
  (∀ s, I s → I {| disk := disk s; stdout := stdout s;
                   globals := <[x := v]> (globals s) |}) →
  preserves I (store x v) (λ _, True).
Proof. intros Hf s r s' HI [= <- <-]. auto. Qed.

Lemma preserves_print I l :
  (∀ s, I s → I {| disk := disk s; stdout := stdout s ++ [l];
                   globals := globals s |}) →
  preserves I (print l) (λ _, True).
Proof. intros Hf s r s' HI [= <- <-]. auto. Qed.

(** ** Files: what the cells do to the disk *)

Lemma files_store files x v :
  value_ok v → preserves (only_test_nc files) (store x v) (λ _, True).
Proof.
  intros Hv. apply preserves_store. intros s [Hd Hg]. split; [done|].
  intros y d. simpl. destruct (decide (x = y)) as [->|].
  - rewrite lookup_insert_eq. intros [= ->]. done.
  - rewrite lookup_insert_ne by done. apply Hg.
Qed.

Lemma files_load_dataset files x :
  preserves (only_test_nc files) (load_dataset x) flags_ok.
Proof. apply preserves_load_dataset. intros s d [_ Hg]. apply Hg. Qed.

Lemma files_update_dataset files x f :
  preserves (only_test_nc files) (update_dataset x (writing f)) (λ _, True).
Proof.
  unfold update_dataset. eapply preserves_bind; [apply files_load_dataset|].
  intros d Hd. eapply preserves_bind.
  - apply (preserves_lift _ _ flags_ok). intros d' (_ & _ & c' & _ & ->)%writing_Ok. done.
  - intros d' Hd'. by apply files_store.
Qed.

Lemma files_Dataset_r files p :
  preserves (only_test_nc files) (Dataset_r p) flags_ok.
Proof.
  intros s r s' HI. unfold Dataset_r. destruct (disk s !! p); intros [= <- <-];
    (split; [done|]); intros a [= <-]. done.
Qed.

Lemma files_Dataset_w files p :
  preserves (only_test_nc files) (Dataset_w p true) flags_ok.
Proof. intros s r s' HI [= <- <-]. split; [done|]. intros a [= <-]. done. Qed.

Lemma files_close files x :
  preserves (only_test_nc files) (close x) (λ _, True).
Proof.
  unfold close. eapply preserves_bind; [apply files_load_dataset|].
  intros d Hd. destruct (ds_isopen d); [|by apply preserves_lift].
  apply preserves_modify. intros s [Hdisk Hg]. split; simpl.
  - destruct (ds_writable d) eqn:Ew, (ds_diskless d) eqn:El; simpl; try done.
    specialize (Hd Ew). congruence.
  - intros y d'. destruct (decide (x = y)) as [->|].
    + rewrite lookup_insert_eq. intros [= <-]. done.
    + rewrite lookup_insert_ne by done. apply Hg.
Qed.

Lemma files_print files l : preserves (only_test_nc files) (print l) (λ _, True).
Proof. apply preserves_print. intros s [??]. done. Qed.

Lemma files_write_netcdf files x :
  preserves (only_test_nc files) (write_netcdf x "test.nc") (λ _, True).
Proof.
  unfold write_netcdf. eapply preserves_bind.
  { apply (preserves_load_xr _ _ (λ _, True)). done. }
  intros ds _ s r s' [Hdisk Hg]. unfold on_disk. intros [= <- <-].
  split; [|done]. split; [|done]. intros p Hp. simpl. rewrite <- Hdisk by done.
  unfold to_netcdf. destruct (validate_attrs ds); [|done].
  destruct (encode_dataset ds); simpl; by rewrite lookup_insert_ne.
Qed.

Lemma files_read_disk {A} files (f : gmap string NcData → result A) :
  preserves (only_test_nc files) (on_disk (λ fs, (f fs, fs))) (λ _, True).
Proof. intros s r s' HI [= <- <-]. by destruct s. Qed.

Ltac files_known := fail.

Ltac files_leaf :=
  first
    [ apply files_update_dataset
    | apply files_store; first [done | by case_match]
    | apply files_close
    | apply files_print
    | apply files_write_netcdf
    | apply files_read_disk
    | apply preserves_load_array
    | apply (preserves_ret _ _ (λ _, True)); done
    | apply (preserves_lift _ _ (λ _, True)); done
    | eapply preserves_weaken; [apply files_load_dataset|done]
    | eapply preserves_weaken; [apply files_Dataset_r|done]
    | eapply preserves_weaken; [apply files_Dataset_w|done]
    | apply (preserves_load_xr _ _ (λ _, True)); done
    | apply (preserves_load _ _ (λ _, True)); done ].

Ltac files_step :=
  lazymatch goal with
  | |- preserves _ (_ ≫= _) _ =>
      eapply preserves_bind; [files_step | intros ? ?; files_step]
  | |- preserves _ (for_M _ _) _ => apply preserves_for_M; intros ? ?; files_step
  | |- preserves _ (try_except _ _ _) _ => apply preserves_try_except; files_step
  | |- preserves _ (let '(_, _) := ?p in _) _ => destruct p; files_step
  | |- preserves _ (match ?v with VInt _ => _ | _ => _ end) _ => destruct v; files_step
  | |- preserves _ (match ?v with ANum _ => _ | _ => _ end) _ => destruct v; files_step
  | |- _ => first [ apply files_load_dataset | apply files_Dataset_r
                  | apply files_Dataset_w | files_leaf | files_known ]
  end.

Lemma files_cell3 files : preserves (only_test_nc files) cell3 (λ _, True).
Proof. unfold cell3. files_step. Qed.

Lemma files_close_dst files : preserves (only_test_nc files) close_dst (λ _, True).
Proof. unfold close_dst, close_dst_body. files_step. Qed.

Ltac files_known ::= apply files_close_dst.

Lemma files_cell6 files : preserves (only_test_nc files) cell6 (λ _, True).
Proof.
  unfold cell6. files_step.
Qed.

Lemma files_copy_variable files from name :
  preserves (only_test_nc files) (copy_variable from name) (λ _, True).
Proof. unfold copy_variable. files_step. Qed.

Lemma files_cell8 files : preserves (only_test_nc files) cell8 (λ _, True).
Proof. unfold cell8, copy_coordinate. files_step. Qed.

Lemma files_cell9 files : preserves (only_test_nc files) cell9 (λ _, True).
Proof. unfold cell9, dimension_size, getattr. files_step. Qed.

Lemma files_cell10 files : preserves (only_test_nc files) cell10 (λ _, True).
Proof.
  unfold cell10, add_axis, load_int, load_num, load_tuple. files_step.
Qed.

Lemma files_cell13 files : preserves (only_test_nc files) cell13 (λ _, True).
Proof. unfold cell13, load_da_list. files_step. Qed.

Lemma files_cell17 files : preserves (only_test_nc files) cell17 (λ _, True).
Proof. unfold cell17, fix_attributes, update_xr. files_step. Qed.

Lemma files_cells files (cell : M unit) :
  cell ∈ cells → preserves (only_test_nc files) cell (λ _, True).
Proof.
  unfold cells. rewrite !elem_of_cons, elem_of_nil.
  intros [->|[->|[->|[->|[->|[->|[->|[->|[->|[->|[->|[->|[->|[->|[->|[]]]]]]]]]]]]]]]].
  - apply files_cell3.
  - apply files_cell6.
  - apply files_copy_variable.
  - apply files_cell8.
  - apply files_cell9.
  - apply files_cell10.
  - apply preserves_for_M. intros ??. apply files_copy_variable.
  - apply files_cell13.
  - apply files_close_dst.
  - apply files_write_netcdf.
  - unfold cell16. files_step.
  - apply files_cell17.
  - unfold cell18. files_step.
  - unfold cell20. files_step.
  - unfold cell21. files_step.
Qed.

Lemma trace_Forall (I : @nbstate num → Prop) (cs : list (M unit)) s :
  (∀ cell, cell ∈ cs → preserves I cell (λ _, True)) → I s → Forall I (trace cs s).
Proof.
  revert s. induction cs as [|cell cs IH]; intros s Hcs HI; simpl; [done|].
  assert (I (cell s).2) as HI'.
  { destruct (cell s) as [r s'] eqn:E. eapply (Hcs cell); [left|done|done]. }
  constructor; [done|]. apply IH; [|done]. intros ??. apply Hcs. by right.
Qed.

Lemma run_cells_app (cs1 cs2 : list (M unit)) s :
  run_cells (cs1 ++ cs2) s = run_cells cs2 (run_cells cs1 s).
Proof. unfold run_cells. by rewrite foldl_app. Qed.

Lemma outcomes_lookup (cs : list (M unit)) s i :
  outcomes cs s !! i = (λ cell : M unit, (cell (run_cells (take i cs) s)).1) <$> cs !! i.
Proof.
  revert s i. induction cs as [|cell cs IH]; intros s [|i]; simpl; try done.
Qed.

Lemma write_netcdf_written x path s s' :
  write_netcdf x path s = (Ok (), s') → is_Some (disk s' !! path).
Proof.
  unfold write_netcdf. intros (ds & s1 & [Hds ->]%load_xr_Ok & Hw)%bind_Ok.
  unfold on_disk, to_netcdf in Hw. destruct (validate_attrs ds); [|done].
  destruct (encode_dataset ds); [|done]. simplify_eq/=.
  rewrite lookup_insert_eq. eauto.
Qed.

Lemma tail_keeps_disk (cell : M unit) s :
  cell ∈ [cell18; cell20; cell21] → disk (cell s).2 = disk s.
Proof.
  intros Hc. destruct (cell s) as [r s'] eqn:E.
  assert (preserves (λ s', disk s' = disk s) cell (λ _, True)) as Hp.
  { rewrite !elem_of_cons, elem_of_nil in Hc. destruct Hc as [->|[->|[->|[]]]].
    - unfold cell18. eapply preserves_bind.
      + intros s1 r1 s1' Hd Hr. unfold on_disk in Hr. injection Hr as <- <-.
        split; [exact Hd | intros; exact I].
      + intros fs _. by apply preserves_print.
    - unfold cell20. eapply preserves_bind.
      + intros s1 r1 s1' Hd Hr. unfold on_disk in Hr. injection Hr as <- <-.
        split; [exact Hd | intros; exact I].
      + intros ds2 _. by apply preserves_store.
    - unfold cell21. eapply preserves_bind.
      + apply (preserves_load_xr _ _ (λ _, True)). done.
      + intros ds2 _. eapply preserves_bind.
        * apply (preserves_lift _ _ (λ _, True)). done.
        * intros ??. by apply preserves_ret. }
  by destruct (Hp s r s' eq_refl E).
Qed.

(** C6: from a fresh kernel, whatever the files: after every cell, each path
    other than test.nc holds what it held at the start (so no dst_tmp.nc
    appears), every dataset the notebook holds open for writing is diskless,
    and a cell 17 that returns leaves a file test.nc, which is still there at
    the end. *)
Theorem only_test_nc_written (files : gmap string (@NcData num)) :
  Forall (λ s, (∀ p, p ≠ "test.nc" → disk s !! p = files !! p) ∧
               disk s !! "dst_tmp.nc" = files !! "dst_tmp.nc" ∧
               (∀ d, globals s !! "dst" = Some (VDataset d) →
                     ds_writable d = true → ds_diskless d = true))
         (trace cells (fresh files)) ∧
  (outcomes cells (fresh files) !! 11 = Some (Ok ()) →
   is_Some (disk (run_cells cells (fresh files)) !! "test.nc")).
Proof.
  split.
  - eapply Forall_impl.
    + apply (trace_Forall (only_test_nc files)); [apply files_cells|].
      split; [done|]. intros x d. simpl. by rewrite lookup_empty.
    + intros s [Hd Hg]. split_and!; [done|by apply Hd|]. intros d. apply Hg.
  - rewrite outcomes_lookup.
    change cells with (take 11 cells ++ [cell17] ++ [cell18; cell20; cell21]) at 2 3.
    rewrite !run_cells_app. generalize (run_cells (take 11 cells) (fresh files)).
    intros s11 [= H17]. unfold run_cells. cbn [foldl].
    rewrite !tail_keeps_disk by (rewrite !elem_of_cons; auto).
    destruct (cell17 s11) as [r s12] eqn:E. simpl in H17. subst r. simpl.
    unfold cell17 in E. apply bind_Ok in E as (u & s' & _ & Hw).
    by apply write_netcdf_written in Hw.
Qed.

End Files.

(** ** The projected axes, and the guards *)

Section Axes.
Context {num : Type} {numpy : NumPy num} {wrf_python : @WrfPython num}.
Implicit Types (s : @nbstate num) (c : @NcData num) (d : @Dataset num).
Local Abbreviation ignores := (ignores (num := num)).

(** Taking a successful run apart, statement by statement. *)
Ltac inv1 :=
  match goal with
  | H : (_ ≫= _) _ = (Ok _, _) |- _ => apply bind_Ok in H as (? & ? & ? & ?)
  | H : mret _ _ = (Ok _, _) |- _ => apply ret_Ok in H as [? ?]
  | H : lift _ _ = (Ok _, _) |- _ => apply lift_Ok in H as [? ?]
  | H : load_dataset _ _ = (Ok _, _) |- _ => apply load_dataset_Ok in H as [? ?]
  | H : load_array _ _ = (Ok _, _) |- _ => apply load_array_Ok in H as [? ?]
  | H : load_xr _ _ = (Ok _, _) |- _ => apply load_xr_Ok in H as [? ?]
  | H : load _ _ = (Ok _, _) |- _ => apply load_Ok in H as [? ?]
  | H : store _ _ _ = (Ok _, _) |- _ => apply store_Ok in H
  | H : print _ _ = (Ok _, _) |- _ => apply print_Ok in H
  | H : update_dataset _ _ _ = (Ok _, _) |- _ =>
      apply update_dataset_Ok in H as (? & ? & ? & ? & ?)
  | H : update_xr _ _ _ = (Ok _, _) |- _ =>
      apply update_xr_Ok in H as (? & ? & ? & ? & ?)
  | H : reading _ _ = Ok _ |- _ => apply reading_Ok in H as [? ?]
  | H : writing _ _ = Ok _ |- _ => apply writing_Ok in H as (? & ? & ? & ? & ?)
  | H : getitem _ _ = Ok _ |- _ => apply getitem_Ok in H
  | H : _ ≫= _ = Ok _ |- _ => apply result_bind_Ok in H as (? & ? & ?)
  | H : _ <$> _ = Ok _ |- _ => apply result_fmap_Ok in H as (? & ? & ?)
  | H : Ok _ = Ok _ |- _ => injection H as ?
  end.

Ltac inv_run := repeat (inv1; subst; cbn [disk stdout globals] in *).

Lemma getattr_Ok x a s v s' :
  getattr x a s = (Ok v, s') ↔
  ∃ d, globals s !! x = Some (VDataset d) ∧ ds_isopen d = true ∧
       nc_ncattrs (ds_data d) !! a = Some v ∧ s' = s.
Proof.
  unfold getattr. split.
  - intros Hr. inv_run. destruct (nc_ncattrs _ !! a) eqn:E; naive_solver.
  - intros (d & Hd & Ho & Ha & ->). apply bind_Ok. exists d, s.
    split; [by apply load_dataset_Ok|]. apply lift_Ok. split; [|done].
    apply reading_Ok. by rewrite Ha.
Qed.

Lemma dimension_size_Ok x a s n s' :
  dimension_size x a s = (Ok n, s') ↔
  ∃ d dim, globals s !! x = Some (VDataset d) ∧ ds_isopen d = true ∧
       nc_dimensions (ds_data d) !! a = Some dim ∧ n = dim_size dim ∧ s' = s.
Proof.
  unfold dimension_size. split.
  - intros Hr. inv_run. naive_solver.
  - intros (d & dim & Hd & Ho & Ha & -> & ->). apply bind_Ok. exists d, s.
    split; [by apply load_dataset_Ok|]. apply lift_Ok. split; [|done].
    apply reading_Ok. split; [done|]. apply result_fmap_Ok. exists dim.
    split; [by apply getitem_Ok|done].
Qed.

Lemma load_int_Ok x s n s' :
  load_int x s = (Ok n, s') ↔ globals s !! x = Some (VInt n) ∧ s' = s.
Proof.
  unfold load_int. rewrite bind_Ok. setoid_rewrite load_Ok. split.
  - intros (v & s1 & [Hv ->] & Hm). destruct v;
      first [apply ret_Ok in Hm as [-> ->]; done | by apply lift_Ok in Hm as [? ?]].
  - intros [Hv ->]. eexists _, _. split; [done|]. by apply ret_Ok.
Qed.

Lemma load_num_Ok x s y s' :
  load_num x s = (Ok y, s') ↔ globals s !! x = Some (VAttr (ANum y)) ∧ s' = s.
Proof.
  unfold load_num. rewrite bind_Ok. setoid_rewrite load_Ok. split.
  - intros (v & s1 & [Hv ->] & Hm). destruct v as [|[]| | | | |];
      first [apply ret_Ok in Hm as [-> ->]; done | by apply lift_Ok in Hm as [? ?]].
  - intros [Hv ->]. eexists _, _. split; [done|]. by apply ret_Ok.
Qed.

Lemma load_tuple_Ok x s p s' :
  load_tuple x s = (Ok p, s') ↔ globals s !! x = Some (VTuple p.1 p.2) ∧ s' = s.
Proof.
  unfold load_tuple. rewrite bind_Ok. setoid_rewrite load_Ok. split.
  - intros (v & s1 & [Hv ->] & Hm). destruct v;
      first [apply ret_Ok in Hm as [<- ->]; done | by apply lift_Ok in Hm as [? ?]].
  - intros [Hv ->]. eexists _, _. split; [done|]. apply ret_Ok. by destruct p.
Qed.

Ltac inv2 :=
  match goal with
  | H : getattr _ _ _ = (Ok _, _) |- _ => apply getattr_Ok in H as (? & ? & ? & ? & ?)
  | H : dimension_size _ _ _ = (Ok _, _) |- _ =>
      apply dimension_size_Ok in H as (? & ? & ? & ? & ? & ? & ?)
  | H : load_int _ _ = (Ok _, _) |- _ => apply load_int_Ok in H as [? ?]
  | H : load_num _ _ = (Ok _, _) |- _ => apply load_num_Ok in H as [? ?]
  | H : load_tuple _ _ = (Ok _, _) |- _ => apply load_tuple_Ok in H as [? ?]
  | _ => inv1
  end.

Ltac inv_run2 := repeat (inv2; subst; cbn [disk stdout globals] in *).

(** ** A name a statement does not look at *)

Lemma ignores_ret {A} x (a : A) : ignores x (mret a).
Proof. done. Qed.

Lemma ignores_lift {A} x (r : result A) : ignores x (lift r).
Proof. done. Qed.

Lemma ignores_bind {A B} x (m : M A) (f : A → M B) :
  ignores x m → (∀ a, ignores x (f a)) → ignores x (m ≫= f).
Proof.
  intros Hm Hf v s. unfold mbind, M_bind. rewrite Hm.
  destruct (m s) as [[a|e] s1]; simpl; [apply Hf|done].
Qed.

Lemma ignores_load x y : x ≠ y → ignores x (load y).
Proof.
  intros Hxy v s. unfold load. simpl. by rewrite lookup_insert_ne.
Qed.

Lemma ignores_store x y w : x ≠ y → ignores x (store y w).
Proof.
  intros Hxy v s. unfold store, set_global. simpl. do 2 f_equal.
  by apply insert_insert_ne.
Qed.

Ltac ignores_step :=
  lazymatch goal with
  | |- ignores _ (_ ≫= _) => apply ignores_bind; [ignores_step | intros ?; ignores_step]
  | |- ignores _ (mret _) => apply ignores_ret
  | |- ignores _ (lift _) => apply ignores_lift
  | |- ignores _ (load _) => apply ignores_load; done
  | |- ignores _ (store _ _) => apply ignores_store; done
  | |- ignores _ (let '(_, _) := ?p in _) => destruct p; ignores_step
  | |- ignores _ (match ?v with VInt _ => _ | _ => _ end) => destruct v; ignores_step
  | |- ignores _ (match ?v with ANum _ => _ | _ => _ end) => destruct v; ignores_step
  | |- ignores _ (load_dataset _) => unfold load_dataset; ignores_step
  | |- ignores _ (load_array _) => unfold load_array; ignores_step
  | |- ignores _ (load_int _) => unfold load_int; ignores_step
  | |- ignores _ (load_num _) => unfold load_num; ignores_step
  | |- ignores _ (load_tuple _) => unfold load_tuple; ignores_step
  | |- ignores _ (update_dataset _ _) => unfold update_dataset; ignores_step
  | |- ignores _ (add_axis _ _ _) => unfold add_axis; ignores_step
  end.

Lemma cell10_ignores_dx : ignores "dx" cell10.
Proof. unfold cell10. ignores_step. Qed.

Lemma axis_points_lookup n dy x0 i :
  i < n → nd_flat (axis_points n dy x0) !! i = Some (np_add (np_mul (np_arange i) dy) x0).
Proof.
  intros Hi. unfold axis_points. simpl. rewrite list_lookup_fmap.
  by rewrite lookup_seq_lt.
Qed.

Lemma cell9_Ok s s9 :
  cell9 s = (Ok (), s9) →
  ∃ d wx wy dy,
    globals s !! "dst" = Some (VDataset d) ∧ ds_isopen d = true ∧
    nc_dimensions (ds_data d) !! "west_east" = Some wx ∧
    nc_dimensions (ds_data d) !! "south_north" = Some wy ∧
    nc_ncattrs (ds_data d) !! "DY" = Some dy ∧
    globals s9 !! "dst" = Some (VDataset d) ∧
    globals s9 !! "nx" = Some (VInt (dim_size wx)) ∧
    globals s9 !! "ny" = Some (VInt (dim_size wy)) ∧
    globals s9 !! "dy" = Some (VAttr dy).
Proof.
  unfold cell9. intros Hr. inv_run2. simplify_map_eq. eauto 15.
Qed.

(** C10: the two projected axes.  With [dy] the DY attribute of the
    assembled dataset and (x0, y0) the transformed corner point, entry [i] of
    west_east_points is [i * dy + x0] and entry [j] of south_north_points is
    [j * dy + y0], in numpy's float32 arithmetic; and cell 10 does not look
    at the name [dx]: binding it to any other value changes neither what the
    cell returns nor the state it leaves, up to that binding. *)
Theorem axes_use_dy s s9 s10 :
  cell9 s = (Ok (), s9) → cell10 s9 = (Ok (), s10) →
  ∃ d dy proj lon lat wx wy we sn,
    globals s !! "dst" = Some (VDataset d) ∧
    nc_ncattrs (ds_data d) !! "DY" = Some (ANum dy) ∧
    nc_dimensions (ds_data d) !! "west_east" = Some wx ∧
    nc_dimensions (ds_data d) !! "south_north" = Some wy ∧
    get_cartopy (ds_data d) = Ok proj ∧
    first_element "XLONG" (ds_data d) = Ok lon ∧
    first_element "XLAT" (ds_data d) = Ok lat ∧
    globals s10 !! "west_east_points" = Some (VArray we) ∧
    globals s10 !! "south_north_points" = Some (VArray sn) ∧
    nd_shape we = [dim_size wx] ∧ nd_shape sn = [dim_size wy] ∧
    (∀ i, i < dim_size wx →
       nd_flat we !! i
       = Some (np_add (np_mul (np_arange i) dy) (transform_point proj lon lat).1)) ∧
    (∀ j, j < dim_size wy →
       nd_flat sn !! j
       = Some (np_add (np_mul (np_arange j) dy) (transform_point proj lon lat).2)) ∧
    ∀ v, cell10 (set_global "dx" v s9) = (Ok (), set_global "dx" v s10).
Proof.
  intros (d & wx & wy & dy & Hd & Ho & Hwx & Hwy & Hdy & Hd9 & Hnx & Hny & Hdy9)%cell9_Ok H10.
  assert (∀ v, cell10 (set_global "dx" v s9) = (Ok (), set_global "dx" v s10)) as Hdx.
  { intros v. by rewrite cell10_ignores_dx, H10. }
  unfold cell10, add_axis in H10.
  repeat (inv2; subst; cbn [disk stdout globals] in *; simplify_map_eq).
  match goal with
  | H : get_cartopy _ = Ok ?p, H1 : first_element "XLONG" _ = Ok ?lon,
    H2 : first_element "XLAT" _ = Ok ?lat,
    H3 : nc_ncattrs _ !! "DY" = Some (ANum ?y) |- _ =>
      exists d, y, p, lon, lat, wx, wy
  end.
  destruct (transform_point _ _ _) as [px py] eqn:Etp. simplify_eq/=.
  eexists _, _. split_and!; try done.
  - intros i Hi. rewrite axis_points_lookup by done. congruence.
  - intros j Hj. rewrite axis_points_lookup by done. congruence.
Qed.














End Axes.

Ltac inv1 :=
  match goal with
  | H : (_ ≫= _) _ = (Ok _, _) |- _ => apply bind_Ok in H as (? & ? & ? & ?)
  | H : mret _ _ = (Ok _, _) |- _ => apply ret_Ok in H as [? ?]
  | H : lift _ _ = (Ok _, _) |- _ => apply lift_Ok in H as [? ?]
  | H : load_dataset _ _ = (Ok _, _) |- _ => apply load_dataset_Ok in H as [? ?]
  | H : load_array _ _ = (Ok _, _) |- _ => apply load_array_Ok in H as [? ?]
  | H : load_xr _ _ = (Ok _, _) |- _ => apply load_xr_Ok in H as [? ?]
  | H : load _ _ = (Ok _, _) |- _ => apply load_Ok in H as [? ?]
  | H : store _ _ _ = (Ok _, _) |- _ => apply store_Ok in H
  | H : print _ _ = (Ok _, _) |- _ => apply print_Ok in H
  | H : update_dataset _ _ _ = (Ok _, _) |- _ =>
      apply update_dataset_Ok in H as (? & ? & ? & ? & ?)
  | H : update_xr _ _ _ = (Ok _, _) |- _ =>
      apply update_xr_Ok in H as (? & ? & ? & ? & ?)
  | H : reading _ _ = Ok _ |- _ => apply reading_Ok in H as [? ?]
  | H : writing _ _ = Ok _ |- _ => apply writing_Ok in H as (? & ? & ? & ? & ?)
  | H : getitem _ _ = Ok _ |- _ => apply getitem_Ok in H
  | H : _ ≫= _ = Ok _ |- _ => apply result_bind_Ok in H as (? & ? & ?)
  | H : _ <$> _ = Ok _ |- _ => apply result_fmap_Ok in H as (? & ? & ?)
  | H : Ok _ = Ok _ |- _ => injection H as ?
  end.

Ltac inv_run := repeat (inv1; subst; cbn [disk stdout globals] in *).


Ltac inv2 :=
  match goal with
  | H : getattr _ _ _ = (Ok _, _) |- _ => apply getattr_Ok in H as (? & ? & ? & ? & ?)
  | H : dimension_size _ _ _ = (Ok _, _) |- _ =>
      apply dimension_size_Ok in H as (? & ? & ? & ? & ? & ? & ?)
  | H : load_int _ _ = (Ok _, _) |- _ => apply load_int_Ok in H as [? ?]
  | H : load_num _ _ = (Ok _, _) |- _ => apply load_num_Ok in H as [? ?]
  | H : load_tuple _ _ = (Ok _, _) |- _ => apply load_tuple_Ok in H as [? ?]
  | _ => inv1
  end.

Ltac inv_run2 := repeat (inv2; subst; cbn [disk stdout globals] in *).

(** ** The attribute fix *)

Section Fix.
Context {num : Type} {numpy : NumPy num} {wrf_python : @WrfPython num}.
Implicit Types (s : @nbstate num) (c : @NcData num) (d : @Dataset num).
Implicit Types (ds : @XrDataset num) (v : @XrVariable num).

(** ** The attribute fix *)

Lemma xr_variables_set_attrs k a ds :
  xr_variables (xr_set_attrs k a ds) = alter (with_attrs a) k (xr_variables ds).
Proof.
  unfold xr_variables, xr_set_attrs. simpl. apply map_eq. intros i.
  rewrite lookup_union, !lookup_alter, lookup_union.
  destruct (decide (k = i)) as [->|]; [|by rewrite lookup_union].
  by destruct (coords ds !! i), (data_vars ds !! i).
Qed.

Lemma xr_set_attrs_twice k a b ds :
  xr_set_attrs k b (xr_set_attrs k a ds) = xr_set_attrs k b ds.
Proof.
  unfold xr_set_attrs. simpl. rewrite !alter_alter_eq. f_equal; by apply alter_ext.
Qed.

Lemma fix_one_Ok k ds ds' :
  fix_one k ds = Ok ds' ↔
  ∃ v p, xr_variables ds !! k = Some v ∧ xr_attrs v !! "projection" = Some p ∧
         is_Some (xr_attrs v !! "coordinates") ∧
         ds' = xr_set_attrs k (delete "coordinates"
                 (<["projection" := AStr (py_str p)]> (xr_attrs v))) ds.
Proof.
  unfold fix_one, stringify_projection, pop_coordinates, xr_getitem. split.
  - intros Hr. repeat (inv1; subst). 
    rewrite xr_variables_set_attrs, lookup_alter_eq in *.
    simplify_map_eq. eexists _, _. split_and!; [done..|].
    apply xr_set_attrs_twice.
  - intros (v & p & Hv & Hp & [co Hco] & ->). apply result_bind_Ok.
    eexists. split.
    + apply result_bind_Ok. exists v. split; [by apply getitem_Ok|].
      apply result_bind_Ok. exists p. split; [by apply getitem_Ok|].
      apply result_bind_Ok. exists v. split; [by apply getitem_Ok|]. done.
    + apply result_bind_Ok. eexists. split.
      { apply getitem_Ok. rewrite xr_variables_set_attrs, lookup_alter_eq, Hv. done. }
      apply result_bind_Ok. exists co. split.
      { apply getitem_Ok. simpl. by rewrite lookup_insert_ne. }
      by rewrite xr_set_attrs_twice.
Qed.

Lemma fix_all_spec l ds ds' :
  NoDup l → fix_all l ds = Ok ds' →
  attrs ds' = attrs ds ∧
  (∀ k, k ∉ l → data_vars ds' !! k = data_vars ds !! k ∧
                coords ds' !! k = coords ds !! k) ∧
  (∀ k, k ∈ l →
     ∃ v p, xr_variables ds !! k = Some v ∧
            xr_attrs v !! "projection" = Some p ∧
            is_Some (xr_attrs v !! "coordinates") ∧
            data_vars ds' !! k
            = with_attrs (fix_attrs p (xr_attrs v)) <$> data_vars ds !! k ∧
            coords ds' !! k
            = with_attrs (fix_attrs p (xr_attrs v)) <$> coords ds !! k).
Proof.
  intros Hnd. unfold fix_all. revert ds.
  induction Hnd as [|k l Hk Hnd IH]; intros ds Hr.
  - simpl in Hr. simplify_eq. split_and!; [done|by intros k _|].
    intros k Hk. by apply elem_of_nil in Hk.
  - simpl in Hr. apply result_bind_Ok in Hr as (ds1 & H1 & Hr).
    apply fix_one_Ok in H1 as (v & p & Hv & Hp & Hco & ->).
    destruct (IH _ Hr) as (Ha & Hout & Hin). split_and!.
    + by rewrite Ha.
    + intros k' Hk'. apply not_elem_of_cons in Hk' as [Hne Hk'].
      destruct (Hout k' Hk') as [-> ->]. simpl. by rewrite !lookup_alter_ne.
    + intros k' [->|Hk']%elem_of_cons.
      * destruct (Hout k Hk) as [-> ->]. simpl. rewrite !lookup_alter_eq.
        exists v, p. done.
      * destruct (Hin k' Hk') as (v' & p' & Hv' & Hp' & Hco' & -> & ->).
        assert (k ≠ k') by (intros ->; done).
        rewrite xr_variables_set_attrs, lookup_alter_ne in Hv' by done.
        simpl. rewrite !lookup_alter_ne by done. exists v', p'. done.
Qed.

Lemma fix_all_succeeds l ds :
  NoDup l →
  (∀ k, k ∈ l → ∃ v, xr_variables ds !! k = Some v ∧
                     is_Some (xr_attrs v !! "projection") ∧
                     is_Some (xr_attrs v !! "coordinates")) →
  ∃ ds', fix_all l ds = Ok ds'.
Proof.
  intros Hnd. unfold fix_all. revert ds.
  induction Hnd as [|k l Hk Hnd IH]; intros ds Hall.
  - by eexists.
  - destruct (Hall k) as (v & Hv & [p Hp] & Hco); [left|].
    destruct (IH (xr_set_attrs k (fix_attrs p (xr_attrs v)) ds)) as [ds' Hds'].
    { intros k' Hk'. assert (k ≠ k') by (intros ->; done).
      rewrite xr_variables_set_attrs, lookup_alter_ne by done.
      apply Hall. by right. }
    exists ds'. simpl. apply result_bind_Ok. eexists. split; [|done].
    apply fix_one_Ok. eauto 10.
Qed.

Lemma set_global_id x w s : globals s !! x = Some w → set_global x w s = s.
Proof. intros Hx. destruct s. unfold set_global. simpl in *. by rewrite insert_id. Qed.

Lemma set_global_twice x w w' s :
  set_global x w (set_global x w' s) = set_global x w s.
Proof. unfold set_global. simpl. by rewrite insert_insert_eq. Qed.

Lemma fix_loop_Ok l s s' ds :
  globals s !! "ds" = Some (VXr ds) →
  for_M l (λ my_var, update_xr "ds" (stringify_projection my_var);;
                     update_xr "ds" (pop_coordinates my_var)) s = (Ok (), s')
  ↔ ∃ ds', fix_all l ds = Ok ds' ∧ s' = set_global "ds" (VXr ds') s.
Proof.
  unfold fix_all. revert s ds. induction l as [|k l IH]; intros s ds Hds; simpl.
  - rewrite ret_Ok. split.
    + intros [_ ->]. exists ds. by rewrite set_global_id.
    + intros (ds' & [= <-] & ->). by rewrite set_global_id.
  - split.
    + intros Hr. apply bind_Ok in Hr as ([] & s1 & H1 & Hr).
      apply bind_Ok in H1 as ([] & s0 & H0 & H1).
      apply update_xr_Ok in H0 as (ds0 & ds1 & Hds0 & Hf0 & ->).
      apply update_xr_Ok in H1 as (ds1' & ds2 & Hds1 & Hf1 & ->).
      simpl in Hds1. rewrite lookup_insert_eq in Hds1. simplify_eq.
      apply (IH _ ds2) in Hr as (ds' & Hall & ->);
        [|simpl; by rewrite lookup_insert_eq].
      exists ds'. split.
      * apply result_bind_Ok. exists ds2. split; [|done].
        unfold fix_one. by rewrite Hf0.
      * unfold set_global. simpl. by rewrite !insert_insert_eq.
    + intros (ds' & Hall & ->). apply result_bind_Ok in Hall as (ds2 & H1 & Hall).
      unfold fix_one in H1. apply result_bind_Ok in H1 as (ds1 & Hf0 & Hf1).
      apply bind_Ok. exists (), (set_global "ds" (VXr ds2) s). split.
      * apply bind_Ok. exists (), (set_global "ds" (VXr ds1) s). split.
        -- apply update_xr_Ok. eauto.
        -- apply update_xr_Ok. exists ds1, ds2. split_and!; [|done|].
           ++ simpl. by rewrite lookup_insert_eq.
           ++ unfold set_global. simpl. by rewrite insert_insert_eq.
      * apply (IH _ ds2); [simpl; by rewrite lookup_insert_eq|].
        exists ds'. split; [done|]. by rewrite set_global_twice.
Qed.

Lemma NoDup_my_vars : NoDup my_vars.
Proof. unfold my_vars. repeat constructor; set_solver. Qed.

Lemma fix_attributes_Ok s s' :
  fix_attributes s = (Ok (), s') ↔
  ∃ ds ds', globals s !! "ds" = Some (VXr ds) ∧ fix_all my_vars ds = Ok ds' ∧
            s' = set_global "ds" (VXr ds') s.
Proof.
  unfold fix_attributes. split.
  - intros Hr. assert (∃ ds, globals s !! "ds" = Some (VXr ds)) as [ds Hds].
    { unfold my_vars in Hr. simpl in Hr.
      apply bind_Ok in Hr as ([] & s1 & H1 & _).
      apply bind_Ok in H1 as ([] & s0 & H0 & _).
      apply update_xr_Ok in H0 as (ds0 & ds1 & Hds0 & _). eauto. }
    exists ds. destruct (proj1 (fix_loop_Ok _ _ _ ds Hds) Hr) as (ds' & ? & ?).
    eauto.
  - intros (ds & ds' & Hds & Hall & ->). apply (fix_loop_Ok _ _ _ ds); eauto.
Qed.

Lemma write_netcdf_Ok x path s s' :
  write_netcdf x path s = (Ok (), s') ↔
  ∃ ds, globals s !! x = Some (VXr ds) ∧
        to_netcdf ds path (disk s) = (Ok (), disk s') ∧
        stdout s' = stdout s ∧ globals s' = globals s.
Proof.
  unfold write_netcdf. split.
  - intros (ds & s1 & [Hds ->]%load_xr_Ok & Hw)%bind_Ok. exists ds.
    unfold on_disk in Hw. destruct (to_netcdf ds path (disk s)) as [r fs] eqn:E.
    simplify_eq/=. done.
  - intros (ds & Hds & Hw & Ho & Hg). apply bind_Ok. exists ds, s.
    split; [by apply load_xr_Ok|]. unfold on_disk. rewrite Hw. simpl.
    destruct s'. simpl in *. by subst.
Qed.

Lemma fix_all_getitem l ds ds' name :
  NoDup l → fix_all l ds = Ok ds' → name ∈ l →
  ∃ v p, xr_getitem ds name = Ok v ∧
         xr_attrs v !! "projection" = Some p ∧
         is_Some (xr_attrs v !! "coordinates") ∧
         xr_getitem ds' name = Ok (with_attrs (fix_attrs p (xr_attrs v)) v).
Proof.
  intros Hnd Hall Hin. destruct (fix_all_spec _ _ _ Hnd Hall) as (_ & _ & Hl).
  destruct (Hl name Hin) as (v & p & Hv & Hp & Hco & Hd & Hc).
  exists v, p. unfold xr_getitem. rewrite !getitem_Ok. split_and!; try done.
  unfold xr_variables in *. rewrite lookup_union, Hd, Hc.
  rewrite lookup_union in Hv.
  destruct (coords ds !! name), (data_vars ds !! name);
    cbv [union option_union union_with option_union_with] in *; by simplify_eq/=.
Qed.

(** C2, as the code has it: the loop of the fix changes two attributes of
    each variable of my_vars and nothing else.  For every name in my_vars
    the variable had a projection and a coordinates attribute; afterwards
    projection holds the string form of the old value, coordinates is gone,
    and every other attribute, the dimensions and the data are what they
    were.  Variables outside my_vars, the dataset's own attributes, the disk
    and every other name of the notebook are untouched. *)
Theorem fix_changes_projection_and_coordinates s s' :
  fix_attributes s = (Ok (), s') →
  ∃ ds ds',
    globals s !! "ds" = Some (VXr ds) ∧ globals s' !! "ds" = Some (VXr ds') ∧
    (∀ name, name ∈ my_vars →
       ∃ v v' p, xr_getitem ds name = Ok v ∧ xr_getitem ds' name = Ok v' ∧
         xr_attrs v !! "projection" = Some p ∧
         is_Some (xr_attrs v !! "coordinates") ∧
         xr_attrs v' !! "projection" = Some (AStr (py_str p)) ∧
         xr_attrs v' !! "coordinates" = None ∧
         (∀ k, k ≠ "projection" → k ≠ "coordinates" →
               xr_attrs v' !! k = xr_attrs v !! k) ∧
         xr_dims v' = xr_dims v ∧ xr_values v' = xr_values v) ∧
    (∀ name, name ∉ my_vars →
       xr_variables ds' !! name = xr_variables ds !! name) ∧
    attrs ds' = attrs ds ∧
    disk s' = disk s ∧
    (∀ x, x ≠ "ds" → globals s' !! x = globals s !! x).
Proof.
  intros (ds & ds' & Hds & Hall & ->)%fix_attributes_Ok. exists ds, ds'.
  pose proof NoDup_my_vars as Hnd.
  destruct (fix_all_spec _ _ _ Hnd Hall) as (Ha & Hout & _).
  split_and!; try done.
  - simpl. by rewrite lookup_insert_eq.
  - intros name Hin.
    destruct (fix_all_getitem _ _ _ _ Hnd Hall Hin) as (v & p & Hv & Hp & Hco & Hv').
    eexists v, _, p. split_and!; try done; unfold fix_attrs; simpl.
    + by rewrite lookup_delete_ne, lookup_insert_eq.
    + by rewrite lookup_delete_eq.
    + intros k ??. by rewrite lookup_delete_ne, lookup_insert_ne.
  - intros name Hn. destruct (Hout name Hn) as [Hd Hc].
    unfold xr_variables. by rewrite !lookup_union, Hd, Hc.
  - intros x Hx. simpl. by rewrite lookup_insert_ne.
Qed.

(** C4: what cell 17 writes.  The dataset handed to to_netcdf is the one the
    loop leaves, and in it the attributes of each variable of my_vars are
    exactly the ones it had, with projection replaced by its str() and
    coordinates removed. *)
Theorem written_attributes s s' :
  cell17 s = (Ok (), s') →
  ∃ ds ds',
    globals s !! "ds" = Some (VXr ds) ∧ globals s' !! "ds" = Some (VXr ds') ∧
    to_netcdf ds' "test.nc" (disk s) = (Ok (), disk s') ∧
    ∀ name, name ∈ my_vars →
      ∃ v v' p, xr_getitem ds name = Ok v ∧ xr_getitem ds' name = Ok v' ∧
        xr_attrs v !! "projection" = Some p ∧
        xr_attrs v'
        = delete "coordinates" (<["projection" := AStr (py_str p)]> (xr_attrs v)).
Proof.
  unfold cell17. intros ([] & s1 & Hfix & Hw)%bind_Ok.
  apply fix_attributes_Ok in Hfix as (ds & ds' & Hds & Hall & ->).
  apply write_netcdf_Ok in Hw as (ds'' & Hds'' & Hw & _ & Hg).
  simpl in Hds'', Hw, Hg. rewrite lookup_insert_eq in Hds''. simplify_eq.
  exists ds, ds''. split_and!; try done.
  - rewrite Hg. by rewrite lookup_insert_eq.
  - intros name Hin.
    destruct (fix_all_getitem _ _ _ _ NoDup_my_vars Hall Hin)
      as (v & p & Hv & Hp & Hco & Hv').
    eexists v, _, p. split_and!; done.
Qed.

End Fix.

(** ** The copy stage *)

Section Copy.
Context {num : Type} {numpy : NumPy num} {wrf_python : @WrfPython num}.
Implicit Types (s : @nbstate num) (c : @NcData num) (d : @Dataset num).
Implicit Types (D : gmap string Dimension) (w : @NcVariable num).
Implicit Types (Q : @NcData num → Prop) (src : @NcData num).
Local Abbreviation bound := (bound (num := num)).

(** ** The assembled dataset: what each call does to it *)

Lemma shape_of_Ok D names shape :
  shape_of D names = Ok shape ↔
  Forall2 (λ n m, ∃ dim, D !! n = Some dim ∧ dim_size dim = m) names shape.
Proof.
  unfold shape_of. destruct (mapM _ names) as [l|] eqn:E.
  - apply mapM_Some in E. split.
    + intros [= <-]. eapply Forall2_impl; [done|]. simpl. intros n m Hn.
      destruct (D !! n); naive_solver.
    + intros HF. f_equal. revert E. generalize l. clear l.
      induction HF as [|n m names shape (dim & Hd & Hm) HF IH]; intros l E.
      * by inversion E.
      * inversion E as [|???? Hx E']; subst. rewrite Hd in Hx. simplify_eq/=.
        f_equal. by apply IH.
  - split; [done|]. intros HF. exfalso.
    assert (mapM (λ n, dim_size <$> D !! n) names = Some shape) as E'; [|congruence].
    apply mapM_Some. eapply Forall2_impl; [done|]. simpl.
    intros n m (dim & -> & <-). done.
Qed.

Lemma shape_of_ext D D' names :
  Forall (λ n, D' !! n = D !! n) names → shape_of D' names = shape_of D names.
Proof.
  intros HF. unfold shape_of.
  assert (mapM (λ n, dim_size <$> D' !! n) names
          = mapM (λ n, dim_size <$> D !! n) names) as ->; [|done].
  induction HF as [|n names Hn HF IH]; [done|]. simpl. by rewrite Hn, IH.
Qed.

(** Writing an array leaves alone the dimensions it does not span, never
    changes what kind a dimension is, and sets the ones it spans to the
    array's extents. *)
Lemma fit_dims_frame D names shape D' n :
  fit_dims D names shape = Ok D' → n ∉ names → D' !! n = D !! n.
Proof.
  revert D shape. induction names as [|k names IH]; intros D [|m shape] Hf Hn;
    simpl in Hf; try done.
  - by simplify_eq.
  - apply not_elem_of_cons in Hn as [Hne Hn].
    destruct (D !! k) as [dim|] eqn:Ek; [|done].
    destruct (isunlimited dim).
    + case_decide; [|done]. rewrite (IH _ _ Hf Hn). by rewrite lookup_insert_ne.
    + case_decide; [|done]. by apply (IH _ _ Hf).
Qed.

Lemma fit_dims_kind D names shape D' n :
  fit_dims D names shape = Ok D' →
  match D !! n with
  | Some dim => ∃ dim', D' !! n = Some dim' ∧ same_kind dim dim'
  | None => D' !! n = None
  end.
Proof.
  revert D shape. induction names as [|k names IH]; intros D [|m shape] Hf;
    simpl in Hf; try done.
  - simplify_eq. destruct (D' !! n); [|done]. eexists. by split.
  - destruct (D !! k) as [dim|] eqn:Ek; [|done].
    destruct (isunlimited dim) eqn:Eu.
    + case_decide; [|done]. specialize (IH _ _ Hf).
      destruct (decide (k = n)) as [->|Hne].
      * rewrite lookup_insert_eq in IH. rewrite Ek.
        destruct IH as (dim' & -> & Hk & Hs). eexists. split; [done|].
        split; simpl in *; congruence.
      * by rewrite lookup_insert_ne in IH.
    + case_decide; [|done]. by apply (IH _ _ Hf).
Qed.

Lemma fit_dims_sizes (F : string → nat) D names shape D' :
  fit_dims D names shape = Ok D' →
  Forall2 (λ n m, F n = m) names shape →
  Forall2 (λ n m, ∃ dim, D' !! n = Some dim ∧ dim_size dim = m) names shape.
Proof.
  revert D shape. induction names as [|k names IH]; intros D [|m shape] Hf HF;
    simpl in Hf; try done.
  inversion HF as [|???? Hk HF']; subst.
  assert (∃ D1, fit_dims D1 names shape = Ok D' ∧
                ∃ dim, D1 !! k = Some dim ∧ dim_size dim = F k) as (D1 & Hf1 & Hk1).
  { destruct (D !! k) as [dim|] eqn:Ek; [|done]. destruct (isunlimited dim).
    - case_decide; [|done]. eexists. split; [done|]. rewrite lookup_insert_eq. eauto.
    - case_decide; [|done]. eexists. split; [done|]. eauto. }
  specialize (IH _ _ Hf1 HF'). constructor; [|done].
  destruct (decide (k ∈ names)) as [Hin|Hout].
  - apply list_elem_of_lookup in Hin as [i Hi].
    destruct (Forall2_lookup_l _ _ _ _ _ IH Hi) as (m & Hm & dim & Hd & Hs).
    destruct (Forall2_lookup_l _ _ _ _ _ HF' Hi) as (m' & Hm' & HF1).
    exists dim. split; [done|]. congruence.
  - rewrite (fit_dims_frame _ _ _ _ _ Hf1 Hout). done.
Qed.

Lemma createVariable_Ok n dt dims c c' :
  createVariable n dt dims c = Ok c' ↔
  nc_variables c !! n = None ∧
  ∃ shape, shape_of (nc_dimensions c) dims = Ok shape ∧
    c' = {| nc_ncattrs := nc_ncattrs c; nc_dimensions := nc_dimensions c;
            nc_variables :=
              <[n := {| datatype := dt; dimensions := dims;
                        var_data := replicate (prod_list shape) (default_fillvals dt);
                        var_ncattrs := ∅ |}]> (nc_variables c) |}.
Proof.
  unfold createVariable. destruct (nc_variables c !! n); [naive_solver|].
  rewrite result_bind_Ok. naive_solver.
Qed.

Lemma assign_all_Ok n a c c' :
  assign_all n a c = Ok c' ↔
  ∃ w D', nc_variables c !! n = Some w ∧
    fit_dims (nc_dimensions c) (dimensions w) (nd_shape a) = Ok D' ∧
    map_Forall (λ k w', k = n ∨ Forall (λ x, nc_dimensions c !! x = D' !! x)
                                       (dimensions w')) (nc_variables c) ∧
    c' = {| nc_ncattrs := nc_ncattrs c; nc_dimensions := D';
            nc_variables :=
              <[n := {| datatype := datatype w; dimensions := dimensions w;
                        var_data := cast_to (datatype w) a;
                        var_ncattrs := var_ncattrs w |}]> (nc_variables c) |}.
Proof.
  unfold assign_all. rewrite result_bind_Ok. setoid_rewrite getitem_Ok.
  setoid_rewrite result_bind_Ok. split.
  - intros (w & Hw & D' & HD & Hc). case_decide; [|done]. simplify_eq. eauto 10.
  - intros (w & D' & Hw & HD & HF & ->). exists w. split; [done|]. exists D'.
    split; [done|]. by rewrite decide_True.
Qed.

Lemma setncatts_Ok (atts old new : gmap string (@attr_value num)) :
  setncatts atts old = Ok new ↔
  map_Forall (λ _ x, serializable x = true) atts ∧ new = atts ∪ old.
Proof. unfold setncatts. case_decide; naive_solver. Qed.

Lemma var_setncatts_Ok n atts c c' :
  var_setncatts n atts c = Ok c' ↔
  ∃ w, nc_variables c !! n = Some w ∧
    map_Forall (λ _ x, serializable x = true) atts ∧
    c' = {| nc_ncattrs := nc_ncattrs c; nc_dimensions := nc_dimensions c;
            nc_variables :=
              <[n := {| datatype := datatype w; dimensions := dimensions w;
                        var_data := var_data w;
                        var_ncattrs := atts ∪ var_ncattrs w |}]> (nc_variables c) |}.
Proof.
  unfold var_setncatts. rewrite result_bind_Ok. setoid_rewrite getitem_Ok.
  setoid_rewrite result_bind_Ok. setoid_rewrite setncatts_Ok. naive_solver.
Qed.

Lemma nc_step_other n c c' k :
  nc_step n c c' → k ≠ n → nc_variables c' !! k = nc_variables c !! k.
Proof.
  intros [dt dims (_ & shape & _ & ->)%createVariable_Ok
         |a (w & D' & _ & _ & _ & ->)%assign_all_Ok
         |atts (w & _ & _ & ->)%var_setncatts_Ok] Hk;
    simpl; by rewrite lookup_insert_ne.
Qed.

Lemma nc_step_ncattrs n c c' : nc_step n c c' → nc_ncattrs c' = nc_ncattrs c.
Proof.
  by intros [dt dims (_ & shape & _ & ->)%createVariable_Ok
            |a (w & D' & _ & _ & _ & ->)%assign_all_Ok
            |atts (w & _ & _ & ->)%var_setncatts_Ok].
Qed.

Lemma same_kind_refl dim : same_kind dim dim.
Proof. by split. Qed.

Lemma same_kind_trans dim1 dim2 dim3 :
  same_kind dim1 dim2 → same_kind dim2 dim3 → same_kind dim1 dim3.
Proof. unfold same_kind. intros [H1 H2] [H3 H4]. split; [congruence|]. intros ?.
  rewrite H4; [by apply H2|congruence].
Qed.

Lemma nc_step_kind n c c' k dim :
  nc_step n c c' → nc_dimensions c !! k = Some dim →
  ∃ dim', nc_dimensions c' !! k = Some dim' ∧ same_kind dim dim'.
Proof.
  intros [dt dims (_ & shape & _ & ->)%createVariable_Ok
         |a (w & D' & _ & HD & _ & ->)%assign_all_Ok
         |atts (w & _ & _ & ->)%var_setncatts_Ok] Hk; simpl.
  - exists dim. split; [done|apply same_kind_refl].
  - pose proof (fit_dims_kind _ _ _ _ k HD) as Hkind. by rewrite Hk in Hkind.
  - exists dim. split; [done|apply same_kind_refl].
Qed.

Lemma nc_step_spanned n c c' k w :
  nc_step n c c' → k ≠ n → nc_variables c !! k = Some w →
  Forall (λ x, nc_dimensions c' !! x = nc_dimensions c !! x) (dimensions w).
Proof.
  intros [dt dims (_ & shape & _ & ->)%createVariable_Ok
         |a (w' & D' & _ & HD & HF & ->)%assign_all_Ok
         |atts (w' & _ & _ & ->)%var_setncatts_Ok] Hk Hw; simpl;
    try (by apply Forall_true).
  destruct (HF k w Hw) as [?|HF']; [done|].
  eapply Forall_impl; [done|]. naive_solver.
Qed.

Lemma read_all_Ok name c a :
  read_all name c = Ok a ↔
  ∃ w shape, nc_variables c !! name = Some w ∧
             shape_of (nc_dimensions c) (dimensions w) = Ok shape ∧
             a = {| nd_dtype := datatype w; nd_shape := shape; nd_flat := var_data w |}.
Proof.
  unfold read_all. rewrite result_bind_Ok. setoid_rewrite getitem_Ok.
  setoid_rewrite result_bind_Ok. naive_solver.
Qed.

Lemma copied_stable src name names :
  name ∉ names → stable names (copied src name).
Proof.
  intros Hn n c c' Hin (w & a & Hs & Hc & Hrs & Hrc) Hstep.
  assert (name ≠ n) as Hne by (intros ->; done).
  exists w, a. split_and!; [done| |done|].
  - by rewrite (nc_step_other _ _ _ _ Hstep).
  - apply read_all_Ok in Hrc as (w' & shape & Hw' & Hsh & ->). simplify_eq.
    apply read_all_Ok. exists w, shape. split_and!; [|  |done].
    + by rewrite (nc_step_other _ _ _ _ Hstep).
    + rewrite <- Hsh. apply shape_of_ext. by eapply nc_step_spanned.
Qed.

Lemma ncattrs_stable (A : gmap string (@attr_value num)) names :
  stable names (λ c, nc_ncattrs c = A).
Proof. intros n c c' _ <- Hstep. by apply nc_step_ncattrs in Hstep. Qed.

Lemma dims_copied_stable src names : stable names (dims_copied src).
Proof.
  intros n c c' _ Hd Hstep k dim Hk. destruct (Hd k dim Hk) as (dim1 & H1 & Hk1).
  destruct (nc_step_kind _ _ _ _ _ Hstep H1) as (dim2 & H2 & Hk2).
  exists dim2. split; [done|]. by eapply same_kind_trans.
Qed.

(** The three calls that copy a variable make it a copy. *)
Lemma copy_establishes src name w a c c1 c2 c3 :
  nc_variables src !! name = Some w → read_all name src = Ok a →
  createVariable name (datatype w) (dimensions w) c = Ok c1 →
  assign_all name a c1 = Ok c2 →
  var_setncatts name (var_ncattrs w) c2 = Ok c3 →
  copied src name c3.
Proof.
  intros Hw Ha (Hnone & shape & Hshape & ->)%createVariable_Ok
    (w1 & D' & Hw1 & HD & HF & ->)%assign_all_Ok
    (w2 & Hw2 & Hser & ->)%var_setncatts_Ok.
  simpl in *. rewrite lookup_insert_eq in Hw1, Hw2. simplify_eq/=.
  apply read_all_Ok in Ha as (w' & shape_s & Hw' & Hsh & ->). simplify_eq.
  exists w, {| nd_dtype := datatype w; nd_shape := shape_s; nd_flat := var_data w |}.
  assert (cast_to (datatype w)
            {| nd_dtype := datatype w; nd_shape := shape_s; nd_flat := var_data w |}
          = var_data w) as Hcast.
  { unfold cast_to. simpl. by rewrite decide_True. }
  assert ({| datatype := datatype w; dimensions := dimensions w;
             var_data := cast_to (datatype w)
               {| nd_dtype := datatype w; nd_shape := shape_s; nd_flat := var_data w |};
             var_ncattrs := var_ncattrs w ∪ ∅ |} = w) as Heq.
  { rewrite Hcast, (right_id_L ∅ (∪)). by destruct w. }
  split_and!; [done| | |].
  - simpl. rewrite lookup_insert_eq. by rewrite Heq.
  - apply read_all_Ok. eauto.
  - apply read_all_Ok. simpl. rewrite lookup_insert_eq, Heq.
    exists w, shape_s. split_and!; [done| |done]. simpl in HD.
    apply shape_of_Ok.
    eapply (fit_dims_sizes (λ n, default 0 (dim_size <$> nc_dimensions src !! n)));
      [done|].
    apply shape_of_Ok in Hsh. eapply Forall2_impl; [done|]. simpl.
    intros n m (dim & -> & <-). done.
Qed.

(** ** Invariants of the assembled dataset through the cells *)

Lemma pres_dst_update Q g :
  (∀ c c', Q c → g c = Ok c' → Q c') →
  preserves (dst_inv Q) (update_dataset "dst" (writing g)) (λ _, True).
Proof.
  intros Hg. unfold update_dataset.
  eapply (preserves_bind _ _ _ (λ d, Q (ds_data d))).
  { apply preserves_load_dataset. intros s d HI Hd. by apply HI. }
  intros d HQ. eapply (preserves_bind _ _ _ (λ d, Q (ds_data d))).
  { apply preserves_lift. intros d' (_ & _ & c' & Hc & ->)%writing_Ok. simpl. eauto. }
  intros d' HQ'. apply preserves_store. intros s HI d''. simpl.
  rewrite lookup_insert_eq. by intros [= <-].
Qed.

Lemma pres_dst_store Q x v :
  x ≠ "dst" → preserves (dst_inv Q) (store x v) (λ _, True).
Proof.
  intros Hx. apply preserves_store. intros s HI d. simpl.
  rewrite lookup_insert_ne by done. apply HI.
Qed.

Lemma pres_bound_store x v y v' :
  x ≠ y → preserves (bound x v) (store y v') (λ _, True).
Proof.
  intros Hx. apply preserves_store. intros s HI. unfold bound. simpl.
  by rewrite lookup_insert_ne.
Qed.

Lemma pres_Dataset_r (I : @nbstate num → Prop) p :
  preserves I (Dataset_r p) (λ _, True).
Proof.
  intros s r s' HI. unfold Dataset_r. destruct (disk s !! p); by intros [= <- <-].
Qed.

Lemma pres_load_dataset (I : @nbstate num → Prop) x :
  preserves I (load_dataset x) (λ _, True).
Proof. by apply preserves_load_dataset. Qed.

Ltac pres_go leaf :=
  lazymatch goal with
  | |- preserves _ (_ ≫= _) _ =>
      eapply preserves_bind; [pres_go leaf | intros ? ?; pres_go leaf]
  | |- preserves _ (for_M _ _) _ => apply preserves_for_M; intros ? ?; pres_go leaf
  | |- preserves _ (try_except _ _ _) _ => apply preserves_try_except; pres_go leaf
  | |- preserves _ (let '(_, _) := ?p in _) _ => destruct p; pres_go leaf
  | |- preserves _ (match ?v with VInt _ => _ | _ => _ end) _ => destruct v; pres_go leaf
  | |- preserves _ (match ?v with ANum _ => _ | _ => _ end) _ => destruct v; pres_go leaf
  | |- preserves _ (load_int _) _ => unfold load_int; pres_go leaf
  | |- preserves _ (load_num _) _ => unfold load_num; pres_go leaf
  | |- preserves _ (load_tuple _) _ => unfold load_tuple; pres_go leaf
  | |- preserves _ (load_da_list _) _ => unfold load_da_list; pres_go leaf
  | |- preserves _ (getattr _ _) _ => unfold getattr; pres_go leaf
  | |- preserves _ (dimension_size _ _) _ => unfold dimension_size; pres_go leaf
  | |- preserves _ (add_axis _ _ _) _ => unfold add_axis; pres_go leaf
  | |- preserves _ (copy_variable _ _) _ => unfold copy_variable; pres_go leaf
  | |- preserves _ (copy_coordinate _) _ => unfold copy_coordinate; pres_go leaf
  | |- _ =>
      first [ leaf
            | apply pres_load_dataset
            | apply pres_Dataset_r
            | apply preserves_load_array
            | apply (preserves_load_xr _ _ (λ _, True)); done
            | apply (preserves_load _ _ (λ _, True)); done
            | apply (preserves_lift _ _ (λ _, True)); done
            | apply (preserves_ret _ _ (λ _, True)); done ]
  end.

Ltac dst_leaf Hst :=
  first
    [ apply pres_dst_store; done
    | apply pres_dst_update; intros ? ? ? ?;
      eapply Hst; [ | eassumption
                    | first [ eapply step_create; eassumption
                            | eapply step_assign; eassumption
                            | eapply step_attrs; eassumption ] ];
      first [ eassumption | set_solver ] ].

Lemma dst_copy_variable Q names from n :
  stable names Q → n ∈ names →
  preserves (dst_inv Q) (copy_variable from n) (λ _, True).
Proof. intros Hst Hn. pres_go ltac:(dst_leaf Hst). Qed.

Lemma dst_copy_coordinate Q names n :
  stable names Q → n ∈ names →
  preserves (dst_inv Q) (copy_coordinate n) (λ _, True).
Proof. intros Hst Hn. unfold copy_coordinate. pres_go ltac:(dst_leaf Hst). Qed.

Lemma dst_cell8 Q names :
  stable names Q → "XLAT" ∈ names → "XLONG" ∈ names →
  preserves (dst_inv Q) cell8 (λ _, True).
Proof.
  intros Hst H1 H2. unfold cell8. eapply preserves_bind; [apply pres_Dataset_r|].
  intros cf _. eapply preserves_bind; [by apply pres_dst_store|]. intros _ _.
  simpl. eapply preserves_bind; [|intros _ _; eapply preserves_bind;
    [|intros _ _; by apply preserves_ret]].
  - pres_go ltac:(dst_leaf Hst).
  - pres_go ltac:(dst_leaf Hst).
Qed.

Lemma dst_cell9 Q : preserves (dst_inv Q) cell9 (λ _, True).
Proof. unfold cell9. pres_go ltac:(apply pres_dst_store; done). Qed.

Lemma dst_cell10 Q names :
  stable names Q → "south_north" ∈ names → "west_east" ∈ names →
  preserves (dst_inv Q) cell10 (λ _, True).
Proof. intros Hst H1 H2. unfold cell10. pres_go ltac:(dst_leaf Hst). Qed.

Lemma pres_bound_modify_dst x v (f : Dataset → Dataset) d :
  x ≠ "dst" →
  preserves (bound x v)
    (modify (λ s, {| disk := disk s; stdout := stdout s;
                     globals := <["dst" := VDataset (f d)]> (globals s) |}))
    (λ _, True).
Proof.
  intros Hx. apply preserves_modify. intros s HI. unfold bound. simpl.
  by rewrite lookup_insert_ne.
Qed.

Ltac bound_leaf :=
  first [ apply pres_bound_store; done
        | apply preserves_print; done
        | unfold update_dataset; eapply preserves_bind;
          [ apply pres_load_dataset
          | intros ? ?; eapply preserves_bind;
            [ apply (preserves_lift _ _ (λ _, True)); done
            | intros ? ?; apply pres_bound_store; done ] ] ].

Lemma bound_close x v y : x ≠ y → preserves (bound x v) (close y) (λ _, True).
Proof.
  intros Hx. unfold close. eapply preserves_bind; [apply pres_load_dataset|].
  intros d _. destruct (ds_isopen d).
  - apply preserves_modify. intros s HI. unfold bound. simpl.
    by rewrite lookup_insert_ne.
  - by apply preserves_lift.
Qed.

Lemma bound_close_dst x v : x ≠ "dst" → preserves (bound x v) close_dst (λ _, True).
Proof.
  intros Hx. unfold close_dst, close_dst_body. apply preserves_try_except.
  - eapply preserves_bind; [by apply preserves_print|]. intros _ _.
    by apply bound_close.
  - by apply preserves_ret.
Qed.

Lemma bound_src_copy_variable v n :
  preserves (bound "src" v) (copy_variable "src" n) (λ _, True).
Proof. pres_go bound_leaf. Qed.

Lemma bound_src_cell8 v : preserves (bound "src" v) cell8 (λ _, True).
Proof. unfold cell8. pres_go bound_leaf. Qed.

Lemma bound_src_cell9 v : preserves (bound "src" v) cell9 (λ _, True).
Proof. unfold cell9. pres_go bound_leaf. Qed.

Lemma bound_src_cell10 v : preserves (bound "src" v) cell10 (λ _, True).
Proof. unfold cell10. pres_go bound_leaf. Qed.

Lemma Dataset_r_Ok p s d s' :
  Dataset_r p s = (Ok d, s') ↔
  ∃ c, disk s !! p = Some c ∧ s' = s ∧
       d = {| ds_path := p; ds_writable := false; ds_diskless := false;
              ds_isopen := true; ds_data := c |}.
Proof. unfold Dataset_r. destruct (disk s !! p); naive_solver. Qed.

Lemma same_kind_created dim : same_kind dim (created dim).
Proof. destruct dim as [n []]; by split. Qed.

Lemma create_dims_loop (l : list (string * Dimension)) s s' d :
  for_M l (λ '(name, dimension),
    update_dataset "dst" (writing (createDimension name (size_argument dimension)))) s
  = (Ok (), s') →
  globals s !! "dst" = Some (VDataset d) →
  ∃ d', globals s' !! "dst" = Some (VDataset d') ∧
    ds_isopen d' = ds_isopen d ∧ ds_writable d' = ds_writable d ∧
    nc_ncattrs (ds_data d') = nc_ncattrs (ds_data d) ∧
    nc_variables (ds_data d') = nc_variables (ds_data d) ∧
    nc_dimensions (ds_data d) ⊆ nc_dimensions (ds_data d') ∧
    (∀ k dim, (k, dim) ∈ l →
       ∃ dim', nc_dimensions (ds_data d') !! k = Some dim' ∧ same_kind dim dim') ∧
    (∀ x, x ≠ "dst" → globals s' !! x = globals s !! x).
Proof.
  revert s d. induction l as [|[k dim] l IH]; intros s d Hr Hd; simpl in Hr.
  - apply ret_Ok in Hr as [_ ->]. exists d. split_and!; try done.
    intros k dim Hin. by apply elem_of_nil in Hin.
  - apply bind_Ok in Hr as ([] & s1 & H1 & Hr).
    apply update_dataset_Ok in H1 as (d0 & d1 & Hd0 & Hw & ->).
    rewrite Hd in Hd0. injection Hd0 as <-.
    apply writing_Ok in Hw as (Ho & Hwr & c' & Hc & ->).
    unfold createDimension in Hc.
    destruct (nc_dimensions (ds_data d) !! k) eqn:Ek; [done|].
    injection Hc as <-.
    edestruct IH as (d' & Hd' & Ho' & Hw' & Ha' & Hv' & Hsub & Hall & Hfr);
      [exact Hr|simpl; by rewrite lookup_insert_eq|].
    exists d'. simpl in *. split_and!; try done.
    + etrans; [|done]. by apply insert_subseteq.
    + intros k' dim' [[= -> ->]|Hin]%elem_of_cons; [|by apply Hall].
      exists (created dim). split; [|apply same_kind_created].
      eapply lookup_weaken; [|done]. by rewrite lookup_insert_eq.
    + intros x Hx. rewrite Hfr by done. by rewrite lookup_insert_ne.
Qed.

Lemma cell6_Ok s s6 :
  cell6 s = (Ok (), s6) →
  ∃ src dsrc d6,
    disk s !! src_path = Some src ∧
    globals s6 !! "src" = Some (VDataset dsrc) ∧
    ds_data dsrc = src ∧ ds_isopen dsrc = true ∧
    globals s6 !! "dst" = Some (VDataset d6) ∧
    ds_isopen d6 = true ∧ ds_writable d6 = true ∧
    nc_ncattrs (ds_data d6) = nc_ncattrs src ∧
    nc_variables (ds_data d6) = ∅ ∧
    dims_copied src (ds_data d6).
Proof.
  unfold cell6. intros Hr.
  apply bind_Ok in Hr as (dsrc & s1 & (src & Hsrc & -> & ->)%Dataset_r_Ok & Hr).
  apply bind_Ok in Hr as ([] & s2 & ->%store_Ok & Hr).
  apply bind_Ok in Hr as ([] & s3 & Hclose & Hr).
  assert (bound "src" (VDataset {| ds_path := src_path; ds_writable := false;
            ds_diskless := false; ds_isopen := true; ds_data := src |}) s3) as Hb.
  { eapply (bound_close_dst "src"); [done| |done]. unfold bound. simpl.
    by rewrite lookup_insert_eq. }
  clear Hclose. unfold bound in Hb.
  apply bind_Ok in Hr as (d0 & s4 & Hw & Hr). unfold Dataset_w in Hw. simplify_eq.
  repeat (inv1; subst; cbn [disk stdout globals] in * ).
  simplify_map_eq.
  match goal with
  | H : for_M _ _ _ = _ |- _ =>
      eapply create_dims_loop in H as
        (d' & Hd' & Ho' & Hw' & Ha' & Hv' & Hsub & Hall & Hfr);
        [|simpl; by rewrite lookup_insert_eq]
  end.
  match goal with H : nc_setncatts _ _ = Ok _ |- _ =>
    unfold nc_setncatts in H; apply result_bind_Ok in H as (? & [? ->]%setncatts_Ok & ?)
  end. simplify_eq. simpl in *.
  exists src, {| ds_path := src_path; ds_writable := false; ds_diskless := false;
                 ds_isopen := true; ds_data := src |}, d'.
  split_and!; try done.
  - rewrite Hfr by done. by simplify_map_eq.
  - rewrite Ha'. by rewrite (right_id_L ∅ (∪)).
  - intros k dim Hk. apply Hall. by apply elem_of_map_to_list.
Qed.

Lemma copy_variable_copied from n s s1 dsrc :
  from ≠ "dst" → copy_variable from n s = (Ok (), s1) →
  globals s !! from = Some (VDataset dsrc) →
  ∃ d1, globals s1 !! "dst" = Some (VDataset d1) ∧
        copied (ds_data dsrc) n (ds_data d1) ∧
        (∀ x, x ≠ "dst" → globals s1 !! x = globals s !! x).
Proof.
  intros Hfrom Hr Hsrc. unfold copy_variable in Hr.
  repeat (inv1; subst; cbn [disk stdout globals] in * ).
  repeat match goal with
  | H : <[_ := _]> _ !! "dst" = Some _ |- _ => rewrite lookup_insert_eq in H
  end.
  simplify_eq. simpl in *.
  eexists. split_and!.
  - by rewrite lookup_insert_eq.
  - simpl. by eapply copy_establishes.
  - intros y Hy. by rewrite !lookup_insert_ne.
Qed.

Lemma preserved {A} (I : @nbstate num → Prop) (m : M A) φ s r s' :
  preserves I m φ → I s → m s = (r, s') → I s'.
Proof. intros Hp HI Hr. by destruct (Hp s r s' HI Hr). Qed.

Lemma copy_loop_copied l :
  NoDup l → ∀ s s' dsrc,
  for_M l (copy_variable "src") s = (Ok (), s') →
  globals s !! "src" = Some (VDataset dsrc) →
  (∀ name, name ∈ l → dst_inv (copied (ds_data dsrc) name) s') ∧
  (l ≠ [] → ∃ d, globals s' !! "dst" = Some (VDataset d)) ∧
  globals s' !! "src" = Some (VDataset dsrc).
Proof.
  induction 1 as [|n l Hn Hnd IH]; intros s s' dsrc Hr Hsrc; simpl in Hr.
  - apply ret_Ok in Hr as [_ ->]. split_and!; [|done|done].
    intros name Hin. by apply elem_of_nil in Hin.
  - apply bind_Ok in Hr as ([] & s1 & H1 & Hr).
    destruct (copy_variable_copied "src" _ _ _ _ ltac:(done) H1 Hsrc)
      as (d1 & Hd1 & Hc1 & Hfr).
    assert (globals s1 !! "src" = Some (VDataset dsrc)) as Hsrc1.
    { by rewrite Hfr. }
    destruct (IH _ _ _ Hr Hsrc1) as (Hall & Hex & Hsrc').
    split_and!; [|..|done].
    + intros name [->|Hin]%elem_of_cons; [|by apply Hall].
      eapply (preserved (dst_inv (copied (ds_data dsrc) n))); [| |exact Hr].
      * apply preserves_for_M. intros n' Hn'.
        eapply dst_copy_variable; [by apply copied_stable|done].
      * intros d Hd. by simplify_eq.
    + intros _. destruct l as [|n' l'].
      * simpl in Hr. apply ret_Ok in Hr as [_ ->]. eauto.
      * by apply Hex.
Qed.

(** C3: the copy stage.  When cells 6 to 11 have run, the assembled dataset
    [dst] has every dimension of the source file under its name, of the same
    kind (unlimited or not) and, when not unlimited, of the same length; it
    has the source's global attributes; and for Times and for every name in
    my_vars its variable is the source's variable: the same datatype,
    dimension names, data and attributes, and read as the same array, so
    also of the same shape along unlimited dimensions. *)
Theorem copy_stage_faithful s s' :
  (cell6;; cell7;; cell8;; cell9;; cell10;; cell11) s = (Ok (), s') →
  ∃ src dst,
    disk s !! src_path = Some src ∧
    globals s' !! "dst" = Some (VDataset dst) ∧
    (∀ name dimension, nc_dimensions src !! name = Some dimension →
       ∃ dimension', nc_dimensions (ds_data dst) !! name = Some dimension' ∧
         isunlimited dimension' = isunlimited dimension ∧
         (isunlimited dimension = false →
          dim_size dimension' = dim_size dimension)) ∧
    nc_ncattrs (ds_data dst) = nc_ncattrs src ∧
    ∀ name, name ∈ "Times" :: my_vars →
      ∃ variable a,
        nc_variables src !! name = Some variable ∧
        nc_variables (ds_data dst) !! name = Some variable ∧
        read_all name src = Ok a ∧ read_all name (ds_data dst) = Ok a.
Proof.
  intros Hr.
  apply bind_Ok in Hr as ([] & s6 & H6 & Hr).
  apply bind_Ok in Hr as ([] & s7 & H7 & Hr).
  apply bind_Ok in Hr as ([] & s8 & H8 & Hr).
  apply bind_Ok in Hr as ([] & s9 & H9 & Hr).
  apply bind_Ok in Hr as ([] & s10 & H10 & H11).
  apply cell6_Ok in H6
    as (src & dsrc & d6 & Hsrc & Hb6 & <- & Hopen & Hd6 & Ho6 & Hw6 & Ha6 & Hv6 & Hdims6).
  destruct (copy_variable_copied "src" _ _ _ _ ltac:(done) H7 Hb6)
    as (d7 & Hd7 & Hc7 & Hfr7).
  (* the source stays bound *)
  assert (bound "src" (VDataset dsrc) s10) as Hb10.
  { eapply (preserved _ cell10); [apply bound_src_cell10| |done].
    eapply (preserved _ cell9); [apply bound_src_cell9| |done].
    eapply (preserved _ cell8); [apply bound_src_cell8| |done].
    unfold bound. by rewrite Hfr7. }
  (* what holds of dst after cell 6 and is kept by every later call *)
  set (names := ["Times"; "XLAT"; "XLONG"; "south_north"; "west_east"] ++ my_vars).
  set (Q := λ c : @NcData num,
         nc_ncattrs c = nc_ncattrs (ds_data dsrc) ∧ dims_copied (ds_data dsrc) c).
  assert (stable names Q) as Hst.
  { intros n c c' Hn [HQ2 HQ3] Hstep. split.
    - by eapply (ncattrs_stable _ names).
    - by eapply (dims_copied_stable _ names). }
  assert (stable (tail names) (copied (ds_data dsrc) "Times")) as HstT.
  { apply copied_stable. unfold names, my_vars. set_solver. }
  destruct (copy_loop_copied my_vars NoDup_my_vars _ _ _ H11 Hb10)
    as (Hall & [dst Hdst] & _); [done|].
  assert (∀ P, stable names P → dst_inv P s6 → dst_inv P s') as Hkeep.
  { intros P HP HP6.
    eapply (preserved _ cell11); [|  |done].
    { apply preserves_for_M. intros n Hn. eapply dst_copy_variable; [done|].
      unfold names. set_solver. }
    eapply (preserved _ cell10); [eapply dst_cell10; [done|..]| |done];
      [unfold names; set_solver..|].
    eapply (preserved _ cell9); [apply dst_cell9| |done].
    eapply (preserved _ cell8); [eapply dst_cell8; [done|..]| |done];
      [unfold names; set_solver..|].
    eapply (preserved _ cell7); [|done|done].
    eapply dst_copy_variable; [done|]. unfold names. set_solver. }
  assert (dst_inv (copied (ds_data dsrc) "Times") s') as HT.
  { eapply (preserved _ cell11); [|  |done].
    { apply preserves_for_M. intros n Hn. eapply dst_copy_variable; [done|].
      unfold names. set_solver. }
    eapply (preserved _ cell10); [eapply dst_cell10; [done|..]| |done];
      [unfold names; set_solver..|].
    eapply (preserved _ cell9); [apply dst_cell9| |done].
    eapply (preserved _ cell8); [eapply dst_cell8; [done|..]| |done];
      [unfold names; set_solver..|].
    intros d Hd. rewrite Hd7 in Hd. by injection Hd as <-. }
  assert (dst_inv Q s6) as HQ6.
  { intros d Hd. rewrite Hd6 in Hd. injection Hd as <-. by split. }
  destruct (Hkeep Q Hst HQ6 dst Hdst) as [HA HD].
  exists (ds_data dsrc), dst. split_and!; [done|done| |done|].
  - intros name dimension Hdim. destruct (HD name dimension Hdim) as (dim' & ? & ? & ?).
    eauto.
  - intros name [->|Hin]%elem_of_cons.
    + by apply HT.
    + by apply (Hall name Hin).
Qed.

End Copy.

(** ** The coordinate grids *)

Section Coordinates.
Context {num : Type} {numpy : NumPy num} {wrf_python : @WrfPython num}.
Implicit Types (s : @nbstate num) (c : @NcData num) (d : @Dataset num).
Implicit Types (D : gmap string Dimension) (w : @NcVariable num).

(** ** The coordinate grids *)

Lemma holds_stable name w shape names :
  name ∉ names → stable names (holds name w shape).
Proof.
  intros Hn n c c' Hin [Hw Hs] Hstep.
  assert (name ≠ n) as Hne by (intros ->; done). split.
  - by rewrite (nc_step_other _ _ _ _ Hstep).
  - rewrite <- Hs. apply shape_of_ext. by eapply nc_step_spanned.
Qed.

Lemma index0_replicate (shape : list nat) (l : list num) T inner t :
  shape = T :: inner → length l = prod_list inner → t < T →
  index0 shape (mjoin (replicate T l)) t = l.
Proof.
  intros -> Hl Ht. unfold index0. simpl. rewrite <- Hl. clear Hl. revert t Ht.
  induction T as [|T IH]; intros t Ht; [lia|]. simpl.
  destruct t as [|t].
  - rewrite drop_0. by rewrite take_app_length.
  - replace (S t * length l) with (length l + t * length l) by lia.
    rewrite drop_app_add'; [|done]. apply IH. lia.
Qed.

Lemma round_trip dt (l : list num) shape shape' :
  exact_in_float64 dt l →
  cast_to dt {| nd_dtype := Float64; nd_shape := shape;
                nd_flat := cast_to Float64 {| nd_dtype := dt; nd_shape := shape';
                                              nd_flat := l |} |} = l.
Proof.
  intros Hex. unfold cast_to. simpl. destruct (decide (dt = Float64)) as [->|Hne].
  - by rewrite decide_True.
  - rewrite decide_False by done. rewrite <- list_fmap_compose.
    rewrite <- (list_fmap_id l) at 2. apply list_fmap_ext. intros i x Hx.
    apply Hex. by eapply list_elem_of_lookup_2.
Qed.

Lemma first_time_Ok (a b : @ndarray num) :
  first_time a = Ok b →
  ∃ t inner, nd_shape a = t :: inner ∧ t ≠ 0 ∧
    b = {| nd_dtype := nd_dtype a; nd_shape := inner;
           nd_flat := index0 (nd_shape a) (nd_flat a) 0 |}.
Proof.
  unfold first_time. destruct (nd_shape a) as [|t inner] eqn:E; [done|].
  repeat case_decide; try done. intros [= <-]. eauto.
Qed.

Lemma fill_from_Ok (dest src b : @ndarray num) :
  fill_from dest src = Ok b →
  ∃ t inner, nd_shape dest = t :: inner ∧ nd_shape src = inner ∧
    b = {| nd_dtype := nd_dtype dest; nd_shape := nd_shape dest;
           nd_flat := mjoin (replicate t (cast_to (nd_dtype dest) src)) |}.
Proof.
  unfold fill_from. destruct (nd_shape dest) as [|t inner] eqn:E; [done|].
  repeat case_decide; try done.
  - intros [= <-]. eauto.
  - by destruct (broadcastable_rev _ _).
Qed.

Lemma fit_dims_same D names shape D' :
  shape_of D names = Ok shape → fit_dims D names shape = Ok D' →
  shape_of D' names = Ok shape.
Proof.
  intros Hs Hf. apply shape_of_Ok.
  eapply (fit_dims_sizes (λ n, default 0 (dim_size <$> D !! n))); [done|].
  apply shape_of_Ok in Hs. eapply Forall2_impl; [done|]. simpl.
  intros n m (dim & -> & <-). done.
Qed.

Lemma copy_coordinate_Ok name s s1 dcf :
  copy_coordinate name s = (Ok (), s1) →
  globals s !! "coord_file" = Some (VDataset dcf) →
  ∃ d1 v T inner shape_c,
    globals s1 !! "dst" = Some (VDataset d1) ∧
    nc_variables (ds_data dcf) !! name = Some v ∧
    shape_of (nc_dimensions (ds_data dcf)) (dimensions v) = Ok shape_c ∧
    tail shape_c = inner ∧ hd 0 shape_c ≠ 0 ∧
    holds name
      {| datatype := datatype v; dimensions := dimensions v;
         var_data :=
           cast_to (datatype v)
             {| nd_dtype := Float64; nd_shape := T :: inner;
                nd_flat := mjoin (replicate T (cast_to Float64
                  {| nd_dtype := datatype v; nd_shape := inner;
                     nd_flat := index0 shape_c (var_data v) 0 |})) |};
         var_ncattrs := var_ncattrs v |}
      (T :: inner) (ds_data d1) ∧
    (∀ y, y ≠ "dst" → y ≠ "correct_shape_arr" → globals s1 !! y = globals s !! y).
Proof.
  intros Hr Hcf. unfold copy_coordinate in Hr.
  repeat (inv1; subst; cbn [disk stdout globals] in * ).
  simplify_map_eq.
  repeat match goal with
  | H : createVariable _ _ _ _ = Ok _ |- _ =>
      apply createVariable_Ok in H as (? & ? & ? & ?)
  | H : read_all _ _ = Ok _ |- _ => apply read_all_Ok in H as (? & ? & ? & ? & ?)
  | H : first_time _ = Ok _ |- _ => apply first_time_Ok in H as (? & ? & ? & ? & ?)
  | H : fill_from _ _ = Ok _ |- _ => apply fill_from_Ok in H as (? & ? & ? & ? & ?)
  end.
  simplify_map_eq.
  repeat match goal with
  | H : assign_all _ _ _ = Ok _ |- _ =>
      apply assign_all_Ok in H as (? & ? & ? & ? & ? & ?)
  | H : var_setncatts _ _ _ = Ok _ |- _ =>
      apply var_setncatts_Ok in H as (? & ? & ? & ?)
  end.
  simplify_map_eq.
  eexists _, _, _, _, _. split_and!; try done.
  split; simpl.
  - rewrite lookup_insert_eq. by rewrite (right_id_L ∅ (∪)).
  - by eapply fit_dims_same.
  - intros y ? ?. by rewrite !lookup_insert_ne.
Qed.

Lemma exact_in_slice dt (l : list num) shape t :
  exact_in_float64 dt l → exact_in_float64 dt (index0 shape l t).
Proof.
  intros Hex x Hx. apply Hex. unfold index0 in Hx.
  by apply subseteq_take, subseteq_drop in Hx.
Qed.

Lemma filled_data dt T shape shape' (l : list num) :
  exact_in_float64 dt l →
  cast_to dt {| nd_dtype := Float64; nd_shape := shape;
                nd_flat := mjoin (replicate T (cast_to Float64
                  {| nd_dtype := dt; nd_shape := shape'; nd_flat := l |})) |}
  = mjoin (replicate T l).
Proof.
  intros Hex. unfold cast_to. simpl. destruct (decide (dt = Float64)) as [->|Hne].
  - by rewrite decide_True.
  - rewrite decide_False by done. induction T as [|T IH]; [done|]. simpl.
    rewrite fmap_app, IH. f_equal. rewrite <- list_fmap_compose.
    rewrite <- (list_fmap_id l) at 2. apply list_fmap_ext. intros i x Hx.
    apply Hex. by eapply list_elem_of_lookup_2.
Qed.

Lemma first_slice_length c k w T inner :
  well_formed c → nc_variables c !! k = Some w →
  shape_of (nc_dimensions c) (dimensions w) = Ok (T :: inner) → T ≠ 0 →
  length (index0 (T :: inner) (var_data w) 0) = prod_list inner.
Proof.
  intros Hwf Hw Hs HT. unfold index0. simpl. rewrite drop_0, length_take.
  rewrite (Hwf _ _ _ Hw Hs). simpl. destruct T; [done|]. simpl. lia.
Qed.

(** C9.  When cell 8 has run, [XLAT] and [XLONG] of [dst] are constant along
    the time axis: every entry along the first axis is the entry of index 0
    of the coordinate file's variable.  The coordinate file is taken to be
    well formed, and the elements of its two variables to pass unchanged
    through the float64 array the cell builds, as the values of the
    variable's type do. *)
Theorem coordinates_constant_in_time s s' cf :
  cell8 s = (Ok (), s') →
  disk s !! coord_path = Some cf →
  well_formed cf →
  (∀ name v, name ∈ ["XLAT"; "XLONG"] → nc_variables cf !! name = Some v →
     exact_in_float64 (datatype v) (var_data v)) →
  ∃ dst, globals s' !! "dst" = Some (VDataset dst) ∧
    ∀ name, name ∈ ["XLAT"; "XLONG"] →
      ∃ v w shape_c T inner,
        nc_variables cf !! name = Some v ∧
        shape_of (nc_dimensions cf) (dimensions v) = Ok shape_c ∧
        nc_variables (ds_data dst) !! name = Some w ∧
        shape_of (nc_dimensions (ds_data dst)) (dimensions w) = Ok (T :: inner) ∧
        tail shape_c = inner ∧
        ∀ t, t < T →
          index0 (T :: inner) (var_data w) t = index0 shape_c (var_data v) 0.
Proof.
  intros Hr Hcf Hwf Hex. unfold cell8 in Hr.
  apply bind_Ok in Hr as (d0 & s0 & (c0 & Hc0 & -> & ->)%Dataset_r_Ok & Hr).
  rewrite Hcf in Hc0. injection Hc0 as <-.
  apply bind_Ok in Hr as (? & s1 & Hs1%store_Ok & Hr). subst s1.
  simpl in Hr.
  apply bind_Ok in Hr as ([] & s2 & H1 & Hr).
  apply bind_Ok in Hr as ([] & s3 & H2 & Hr).
  apply ret_Ok in Hr as [_ <-].
  pose proof H1 as H1'. pose proof H2 as H2'.
  eapply copy_coordinate_Ok in H1' as
    (d1 & v1 & T1 & inner1 & sc1 & Hd1 & Hv1 & Hsc1 & Ht1 & Hh1 & Hold1 & Hg1);
    [|by simpl; rewrite lookup_insert_eq].
  eapply copy_coordinate_Ok in H2' as
    (d2 & v2 & T2 & inner2 & sc2 & Hd2 & Hv2 & Hsc2 & Ht2 & Hh2 & Hold2 & Hg2);
    [|by rewrite Hg1; [simpl; rewrite lookup_insert_eq|done..]].
  simpl in Hv1, Hsc1, Hv2, Hsc2.
  exists d2. split; [done|]. intros name Hname.
  match type of Hold1 with holds _ ?w _ _ => set (w1 := w) in * end.
  assert (holds "XLAT" w1 (T1 :: inner1) (ds_data d2)) as [Hw1 Hs1].
  { assert (dst_inv (holds "XLAT" w1 (T1 :: inner1)) s2) as Hinv.
    { intros d Hd. rewrite Hd1 in Hd. by injection Hd as <-. }
    assert (stable ["XLONG"] (holds "XLAT" w1 (T1 :: inner1))) as Hst.
    { apply holds_stable. set_solver. }
    assert ("XLONG" ∈ ["XLONG"]) as Hin by set_solver.
    destruct (dst_copy_coordinate _ _ _ Hst Hin s2 _ _ Hinv H2) as [Hinv' _].
    by apply Hinv'. }
  destruct Hold2 as [Hw2 Hs2].
  assert (∀ (v : NcVariable) sc inner T, nc_variables cf !! name = Some v →
    shape_of (nc_dimensions cf) (dimensions v) = Ok sc → tail sc = inner →
    hd 0 sc ≠ 0 → ∀ t, t < T →
    index0 (T :: inner) (cast_to (datatype v)
      {| nd_dtype := Float64; nd_shape := T :: inner;
         nd_flat := mjoin (replicate T (cast_to Float64
           {| nd_dtype := datatype v; nd_shape := inner;
              nd_flat := index0 sc (var_data v) 0 |})) |}) t
    = index0 sc (var_data v) 0) as Hslice.
  { intros v sc inner T Hv Hsc Htl Hhd t Ht.
    rewrite filled_data by (by eapply exact_in_slice, Hex).
    destruct sc as [|Tc inner']; simpl in *; [done|]. subst inner'.
    apply (index0_replicate _ _ T inner); [done| |done].
    by eapply (first_slice_length cf name). }
  apply elem_of_cons in Hname as [->|Hname]; [|apply list_elem_of_singleton in Hname as ->].
  - eexists v1, _, sc1, T1, inner1. split_and!; try done. intros t Ht. simpl.
    by apply Hslice.
  - eexists v2, _, sc2, T2, inner2. split_and!; try done. intros t Ht. simpl.
    by apply Hslice.
Qed.

End Coordinates.

(** ** Dicts, dimension sizes, and splitting strings *)

Section Dicts.
Context {num : Type} {numpy : NumPy num} {wrf_python : @WrfPython num}.
Implicit Types (s : @nbstate num) (c : @NcData num) (d : @Dataset num).
Implicit Types (ds : @XrDataset num) (v : @XrVariable num).

(** ** Loops over dicts *)

Lemma for_each_Ok_app {A B} (f : A → B → result A) a l1 l2 :
  for_each f a (l1 ++ l2) = for_each f a l1 ≫= λ a', for_each f a' l2.
Proof.
  revert a. induction l1 as [|x l1 IH]; intros a; simpl; [done|].
  destruct (f a x); simpl; [apply IH|done].
Qed.

Lemma map_traverse_Ok {A B} (f : A → result B) (m : gmap string A) m' :
  map_traverse f m = Ok m' ↔
  ∀ k, option_Forall2 (λ a b, f a = Ok b) (m !! k) (m' !! k).
Proof.
  unfold map_traverse. revert m'.
  apply (map_fold_weak_ind (λ r m, ∀ m', r = Ok m' ↔
    ∀ k, option_Forall2 (λ a b, f a = Ok b) (m !! k) (m' !! k))).
  - intros m'. split.
    + intros [= <-] k. rewrite !lookup_empty. constructor.
    + intros Hk. f_equal. apply map_eq. intros k. specialize (Hk k).
      rewrite lookup_empty in *. by inversion Hk.
  - intros i x m0 r Hi IH m'. split.
    + intros (m1 & Hr & (b & Hb & [= <-])%result_bind_Ok)%result_bind_Ok k.
      destruct (decide (i = k)) as [->|Hne].
      * rewrite !lookup_insert_eq. by constructor.
      * rewrite !lookup_insert_ne by done. by apply IH.
    + intros Hk. pose proof (Hk i) as Hii. rewrite lookup_insert_eq in Hii.
      inversion Hii as [? b Hb Hx Hm'|]; subst.
      apply result_bind_Ok. exists (delete i m'). split.
      * apply IH. intros k. destruct (decide (i = k)) as [->|Hne].
        -- rewrite lookup_delete_eq, Hi. constructor.
        -- rewrite lookup_delete_ne by done. specialize (Hk k).
           by rewrite lookup_insert_ne in Hk.
      * apply result_bind_Ok. exists b. split; [done|]. f_equal.
        rewrite insert_delete_eq. by apply insert_id.
Qed.

(** ** Dimension sizes *)

Lemma add_size_Ok (m : gmap string nat) kn m' :
  add_size m kn = Ok m' →
  m' = <[kn.1 := kn.2]> m ∧ m ⊆ m'.
Proof.
  unfold add_size. destruct (m !! kn.1) as [n'|] eqn:E.
  - case_decide; [|done]. intros [= <-]. subst n'.
    by rewrite insert_id.
  - intros [= <-]. split; [done|]. by apply insert_subseteq.
Qed.

Lemma add_sizes_Ok (m : gmap string nat) p m' :
  add_sizes m p = Ok m' →
  m ⊆ m' ∧ Forall2 (λ k n, m' !! k = Some n) p.1 p.2 ∧
  ∀ k, is_Some (m' !! k) → is_Some (m !! k) ∨ k ∈ p.1.
Proof.
  unfold add_sizes. destruct p as [l1 l2]. simpl. case_decide as Hlen; [|done].
  revert l2 m Hlen. induction l1 as [|k l1 IH]; intros [|n l2] m Hlen Hr;
    simplify_eq/=.
  - split_and!; [done|constructor|auto].
  - apply result_bind_Ok in Hr as (m1 & [-> Hsub]%add_size_Ok & Hr). simpl in *.
    destruct (IH _ _ Hlen Hr) as (Hsub' & HF & Hdom). split_and!.
    + by etrans.
    + constructor; [|done].
      eapply lookup_weaken; [|done]. by rewrite lookup_insert_eq.
    + intros k' Hk'. destruct (Hdom k' Hk') as [Hin|Hin].
      * destruct (decide (k = k')) as [->|Hne]; [right; left|].
        left. by rewrite lookup_insert_ne in Hin.
      * right. by right.
Qed.

Lemma calculate_dimensions_Ok (vars : gmap string (@XrVariable num)) dims :
  calculate_dimensions vars = Ok dims →
  (∀ n v, vars !! n = Some v →
     Forall2 (λ k n, dims !! k = Some n) (xr_dims v) (nd_shape (xr_values v))) ∧
  (∀ k, is_Some (dims !! k) → ∃ n v, vars !! n = Some v ∧ k ∈ xr_dims v).
Proof.
  unfold calculate_dimensions. intros Hr.
  assert ((∀ n p, (sizes <$> vars) !! n = Some p →
             Forall2 (λ k n, dims !! k = Some n) p.1 p.2) ∧
          (∀ k, is_Some (dims !! k) →
             ∃ n p, (sizes <$> vars) !! n = Some p ∧ k ∈ p.1)) as [H1 H2].
  { revert dims Hr.
    apply (map_fold_weak_ind (λ r (m : gmap string (list string * list nat)),
      ∀ dims, r = Ok dims →
        (∀ n p, m !! n = Some p → Forall2 (λ k n, dims !! k = Some n) p.1 p.2) ∧
        (∀ k, is_Some (dims !! k) → ∃ n p, m !! n = Some p ∧ k ∈ p.1))).
    - intros dims [= <-]. split; [by intros ?? ?%lookup_empty_Some|].
      intros k [? ?%lookup_empty_Some]. done.
    - intros i x m r Hi IH dims (m0 & Hr & Hadd)%result_bind_Ok.
      destruct (IH _ Hr) as [IH1 IH2].
      apply add_sizes_Ok in Hadd as (Hsub & HF & Hdom). split.
      + intros n p Hn. destruct (decide (i = n)) as [->|Hne].
        * rewrite lookup_insert_eq in Hn. by simplify_eq.
        * rewrite lookup_insert_ne in Hn by done.
          eapply Forall2_impl; [by eapply IH1|]. simpl. intros k' n' Hk'.
          by eapply lookup_weaken.
      + intros k Hk. destruct (Hdom k Hk) as [Hin|Hin].
        * destruct (IH2 k Hin) as (n & p & Hn & Hp). exists n, p. split; [|done].
          rewrite lookup_insert_ne; [done|]. intros ->. congruence.
        * exists i, x. by rewrite lookup_insert_eq. }
  split.
  - intros n v Hv. apply (H1 n (sizes v)). by rewrite lookup_fmap, Hv.
  - intros k Hk. destruct (H2 k Hk) as (n & p & Hn & Hp).
    rewrite lookup_fmap in Hn. destruct (vars !! n) as [v|] eqn:E; [|done].
    simplify_eq/=. eauto.
Qed.

Lemma sizes_alter (a : gmap string (@attr_value num)) k
    (vars : gmap string (@XrVariable num)) :
  sizes <$> alter (with_attrs a) k vars = sizes <$> vars.
Proof.
  apply map_eq. intros i. rewrite !lookup_fmap.
  destruct (decide (k = i)) as [->|Hne].
  - rewrite lookup_alter_eq. by destruct (vars !! i).
  - by rewrite lookup_alter_ne.
Qed.

(** ** [' '.join] and [split] *)

Lemma app_String a (x y : string) : String a x +:+ y = String a (x +:+ y).
Proof. done. Qed.

Lemma app_empty_r (x : string) : x +:+ "" = x.
Proof. induction x as [|a x IH]; [done|]. by rewrite app_String, IH. Qed.

Lemma app_snoc (x : string) a (y : string) :
  (x +:+ String a "") +:+ y = x +:+ String a y.
Proof. induction x as [|b x IH]; [done|]. by rewrite !app_String, IH. Qed.

Lemma split_go_word (w cur rest : string) :
  no_space w = true → split_go cur (w +:+ rest) = split_go (cur +:+ w) rest.
Proof.
  revert cur. induction w as [|a w IH]; intros cur Hw.
  - by rewrite app_empty_r.
  - simpl in Hw. apply andb_true_iff in Hw as [Ha Hw].
    rewrite app_String. simpl. apply negb_true_iff in Ha. rewrite Ha.
    rewrite IH by done. by rewrite app_snoc.
Qed.

Lemma split_join (l : list string) :
  Forall nice_name l → py_split (join " " l) = l.
Proof.
  unfold py_split, join. induction 1 as [|x l [Hx Hs] Hl IH]; [done|].
  destruct l as [|y l].
  - simpl. rewrite <- (app_empty_r x) at 1. rewrite split_go_word by done. simpl.
    unfold flush. by rewrite decide_False.
  - change (String.concat " " (x :: y :: l))
      with (x +:+ " " +:+ String.concat " " (y :: l)).
    rewrite split_go_word by done. rewrite app_String.
    cbn [split_go Ascii.is_space].
    change ("" +:+ x) with x.
    change ("" +:+ String.concat " " (y :: l)) with (String.concat " " (y :: l)).
    rewrite IH. unfold flush. by rewrite decide_False.
Qed.

End Dicts.

(** ** Writing a dataset and reading it back *)

Section RoundTrip.
Context {num : Type} {numpy : NumPy num} {wrf_python : @WrfPython num}.
Implicit Types (s : @nbstate num) (c : @NcData num) (d : @Dataset num).
Implicit Types (ds : @XrDataset num) (v : @XrVariable num).

(** ** Writing a dataset and reading it back *)

Lemma attached_coords ds dims v k :
  k ∈ attached ds dims v → is_Some (coords ds !! k) ∧ dims !! k = None.
Proof.
  unfold attached, non_dim_coords.
  intros [_ [Hd Hin]%list_elem_of_filter]%list_elem_of_filter.
  apply elem_of_elements, elem_of_dom in Hin. done.
Qed.

Lemma encode_dataset_Ok ds file :
  encode_dataset ds = Ok file ↔
  ∃ dims dvs,
    calculate_dimensions (xr_variables ds) = Ok dims ∧
    Forall nice_name (elements (dom (coords ds))) ∧
    Forall (λ k, Exists (λ v, k ∈ attached ds dims v) (map_to_list (data_vars ds)).*2)
           (non_dim_coords ds dims) ∧
    map_traverse (encode_var ds dims) (data_vars ds) = Ok dvs ∧
    file = {| nc_ncattrs := attrs ds;
              nc_dimensions := (λ n, {| dim_size := n; isunlimited := false |}) <$> dims;
              nc_variables := (plain_var <$> coords ds) ∪ dvs |}.
Proof.
  unfold encode_dataset. rewrite result_bind_Ok. split.
  - intros (dims & Hd & Hr). case_decide as Hc; [|done]. destruct Hc.
    apply result_bind_Ok in Hr as (dvs & Hdv & [= <-]). by exists dims, dvs.
  - intros (dims & dvs & Hd & Hn & Ha & Hdv & ->). exists dims. split; [done|].
    rewrite decide_True by done. by rewrite Hdv.
Qed.

Lemma encode_var_Ok ds dims v w :
  encode_var ds dims v = Ok w ↔
  datatype w = nd_dtype (xr_values v) ∧ dimensions w = xr_dims v ∧
  var_data w = nd_flat (xr_values v) ∧
  ((attached ds dims v = [] ∧ var_ncattrs w = xr_attrs v) ∨
   (attached ds dims v ≠ [] ∧ xr_attrs v !! "coordinates" = None ∧
    var_ncattrs w = <["coordinates" := AStr (join " " (attached ds dims v))]>
                      (xr_attrs v))).
Proof.
  unfold encode_var. rewrite result_bind_Ok. split.
  - intros (atts & Ha & [= <-]). simpl. split_and!; try done.
    case_decide; [left; by simplify_eq|]. right.
    destruct (xr_attrs v !! "coordinates"); by simplify_eq.
  - intros (? & ? & ? & Hc). destruct w; simplify_eq/=.
    destruct Hc as [[He ->]|(Hne & Hco & ->)]; eexists; split; try done.
    + by rewrite decide_True.
    + rewrite decide_False by done. by rewrite Hco.
Qed.

Lemma decode_shape (vars : gmap string (@XrVariable num)) dims n v :
  calculate_dimensions vars = Ok dims → vars !! n = Some v →
  shape_of ((λ n, {| dim_size := n; isunlimited := false |}) <$> dims) (xr_dims v)
  = Ok (nd_shape (xr_values v)).
Proof.
  intros [Hd _]%calculate_dimensions_Ok Hv. apply shape_of_Ok.
  eapply Forall2_impl; [by eapply Hd|]. simpl. intros k m Hk.
  eexists. rewrite lookup_fmap, Hk. done.
Qed.

Lemma decode_encoded ds dims dvs file :
  calculate_dimensions (xr_variables ds) = Ok dims →
  Forall nice_name (elements (dom (coords ds))) →
  map_traverse (encode_var ds dims) (data_vars ds) = Ok dvs →
  file = {| nc_ncattrs := attrs ds;
            nc_dimensions := (λ n, {| dim_size := n; isunlimited := false |}) <$> dims;
            nc_variables := (plain_var <$> coords ds) ∪ dvs |} →
  (∀ k v, xr_variables ds !! k = Some v → xr_attrs v !! "coordinates" = None) →
  ∀ k, option_Forall2
         (λ fv v, decode_var file fv = Ok v ∧
                  default [] (coordinates_attr (nc_variables file) fv) = listed ds dims k)
         (nc_variables file !! k) (xr_variables ds !! k).
Proof.
  intros Hd Hnice Hdv -> Hnoco k. simpl. unfold xr_variables, listed.
  rewrite !lookup_union, lookup_fmap.
  pose proof (proj1 (map_traverse_Ok _ _ _) Hdv k) as Hk.
  assert (∀ v fv, xr_variables ds !! k = Some v →
    datatype fv = nd_dtype (xr_values v) → dimensions fv = xr_dims v →
    var_data fv = nd_flat (xr_values v) → var_ncattrs fv = xr_attrs v →
    decode_var {| nc_ncattrs := attrs ds;
                  nc_dimensions := (λ n, {| dim_size := n; isunlimited := false |}) <$> dims;
                  nc_variables := (plain_var <$> coords ds) ∪ dvs |} fv = Ok v ∧
    default [] (coordinates_attr ((plain_var <$> coords ds) ∪ dvs) fv) = []) as Hplain.
  { intros v fv Hv H1 H2 H3 H4. unfold decode_var, coordinates_attr. simpl.
    rewrite H2, (decode_shape _ _ _ _ Hd Hv). simpl.
    rewrite H4, (Hnoco _ _ Hv). split; [|done]. f_equal.
    destruct v as [? [] ?]. simpl in *. by subst. }
  destruct (coords ds !! k) as [v|] eqn:Ec; simpl.
  - assert (xr_variables ds !! k = Some v) as Hv.
    { apply lookup_union_Some_raw. by left. }
    destruct (dvs !! k), (data_vars ds !! k); simpl; constructor;
      by apply Hplain.
  - inversion Hk as [v w Henc Ev Ew|Ev Ew]; simpl; constructor.
    assert (xr_variables ds !! k = Some v) as Hv.
    { apply lookup_union_Some_raw. by right. }
    apply encode_var_Ok in Henc as (H1 & H2 & H3 & [[He H4]|(Hne & Hco & H4)]).
    { rewrite He. by apply Hplain. }
    assert (Forall nice_name (attached ds dims v)) as Hn.
    { apply Forall_forall. intros n [Hn _]%attached_coords.
      rewrite Forall_forall in Hnice. apply Hnice.
      by apply elem_of_elements, elem_of_dom. }
    assert (coordinates_attr ((plain_var <$> coords ds) ∪ dvs) w
            = Some (attached ds dims v)) as Hca.
    { unfold coordinates_attr. rewrite H4, lookup_insert_eq.
      rewrite split_join by done. rewrite decide_True; [done|].
      apply Forall_forall. intros n [[cv Hcv] _]%attached_coords.
      rewrite lookup_union, lookup_fmap, Hcv. simpl.
      by destruct (dvs !! n). }
    split; [|by rewrite Hca]. unfold decode_var. simpl.
    rewrite H2, (decode_shape _ _ _ _ Hd Hv). simpl. rewrite Hca, H4.
    rewrite delete_insert_id by done. f_equal.
    destruct v as [? [] ?]. simpl in *. by subst.
Qed.

Lemma open_written ds file path (files : gmap string NcData) :
  encode_dataset ds = Ok file → plain_dataset ds →
  files !! path = Some file → open_dataset path files = Ok ds.
Proof.
  intros (dims & dvs & Hd & Hnice & Hatt & Hdv & Hfile)%encode_dataset_Ok
    (Hga & Hnoco & Hdata) Hpath.
  pose proof (decode_encoded _ _ _ _ Hd Hnice Hdv Hfile Hnoco) as Hdec.
  assert (nc_ncattrs file = attrs ds) as Hfa by (by subst file).
  assert (dom (nc_dimensions file) = dom dims) as Hfd.
  { subst file. simpl. by rewrite dom_fmap_L. }
  unfold open_dataset. rewrite Hpath. simpl.
  rewrite decide_False by (rewrite Hfa, Hga; by intros [? ?]).
  assert (map_traverse (decode_var file) (nc_variables file) = Ok (xr_variables ds))
    as ->.
  { apply map_traverse_Ok. intros k. specialize (Hdec k).
    destruct Hdec as [fv v [Hfv _]|]; by constructor. }
  simpl.
  assert (∀ k v, coords ds !! k = Some v → k ∈ coord_names file) as Hin.
  { intros k v Hk. unfold coord_names. destruct (dims !! k) as [m|] eqn:Em.
    { apply elem_of_union_r. rewrite Hfd. by apply elem_of_dom. }
    apply elem_of_union_l, elem_of_union_list.
    assert (k ∈ non_dim_coords ds dims) as Hnd.
    { unfold non_dim_coords. apply list_elem_of_filter. split; [done|].
      by apply elem_of_elements, elem_of_dom. }
    rewrite Forall_forall in Hatt. apply Hatt, Exists_exists in Hnd as (w & Hw & Hkw).
    apply list_elem_of_fmap in Hw as ([n w'] & -> & Hn%elem_of_map_to_list).
    simpl in *. destruct (Hdata _ _ Hn) as [Hcn _].
    specialize (Hdec n). unfold xr_variables in Hdec.
    rewrite (lookup_union_r (coords ds)) in Hdec by done. rewrite Hn in Hdec.
    inversion Hdec as [fv ? [_ Hl] Efv|]; subst.
    exists (list_to_set (listed ds dims n)). split.
    - apply list_elem_of_fmap. exists fv. rewrite Hl. split; [done|].
      apply list_elem_of_fmap. exists (n, fv). split; [done|].
      by apply elem_of_map_to_list.
    - apply elem_of_list_to_set. unfold listed. by rewrite Hcn, Hn. }
  assert (∀ k v, data_vars ds !! k = Some v → k ∉ coord_names file) as Hout.
  { intros k v Hk. destruct (Hdata _ _ Hk) as [Hck Hdim]. unfold coord_names.
    intros [Hl|Hr]%elem_of_union.
    - apply elem_of_union_list in Hl as (X & HX & HkX).
      apply list_elem_of_fmap in HX as (fv & -> & Hfv).
      apply list_elem_of_fmap in Hfv as ([n fv'] & -> & Hn%elem_of_map_to_list).
      simpl in *. specialize (Hdec n). rewrite Hn in Hdec.
      inversion Hdec as [? v' [_ Hl] Efv Ev|]; subst. rewrite Hl in HkX.
      apply elem_of_list_to_set in HkX. unfold listed in HkX.
      destruct (coords ds !! n); [by apply elem_of_nil in HkX|].
      destruct (data_vars ds !! n); [|by apply elem_of_nil in HkX].
      apply attached_coords in HkX as [[? ?] _]. congruence.
    - rewrite Hfd in Hr. apply elem_of_dom in Hr.
      apply calculate_dimensions_Ok in Hd as [_ Hd].
      destruct (Hd k Hr) as (n & v' & Hn & Hkn). by eapply Hdim. }
  destruct ds as [dv cs ga]. simpl in *. do 2 f_equal.
  - apply map_eq. intros k. apply option_eq. intros v.
    rewrite map_lookup_filter_Some. simpl. unfold xr_variables. simpl. split.
    + intros [[Hc|[_ Hv]]%lookup_union_Some_raw Hni]; [|done].
      destruct Hni. by eapply Hin.
    + intros Hv. split; [|by eapply Hout].
      apply lookup_union_Some_raw. right. split; [|done]. by eapply Hdata.
  - apply map_eq. intros k. apply option_eq. intros v.
    rewrite map_lookup_filter_Some. simpl. unfold xr_variables. simpl. split.
    + intros [[Hc|[_ Hv]]%lookup_union_Some_raw Hni]; [done|].
      by destruct (Hout _ _ Hv).
    + intros Hv. split; [|by eapply Hin].
      apply lookup_union_Some_raw. by left.
  - done.
Qed.

End RoundTrip.

(** ** wrf.getvar and xr.merge *)

Section Merge.
Context {num : Type} {numpy : NumPy num} {wrf_python : @WrfPython num}.
Implicit Types (s : @nbstate num) (c : @NcData num) (d : @Dataset num).
Implicit Types (ds : @XrDataset num) (v : @XrVariable num).

(** ** wrf.getvar and xr.merge *)

Lemma latlon_coord_Ok c name x :
  latlon_coord c name = Ok x →
  xr_dims x = ["south_north"; "west_east"] ∧ xr_attrs x = ∅.
Proof.
  unfold latlon_coord.
  intros (w & _ & (shape & _ & Hr)%result_bind_Ok)%result_bind_Ok.
  case_decide as Hd; [|done]. destruct shape as [|[|t] inner]; try done.
  case_decide; [|done]. injection Hr as <-. simpl. by rewrite Hd.
Qed.

Lemma extract_times_Ok c x :
  extract_times c = Ok x → xr_dims x = ["Time"] ∧ xr_attrs x = ∅.
Proof.
  unfold extract_times.
  intros (w & _ & (shape & _ & Hr)%result_bind_Ok)%result_bind_Ok.
  destruct (dimensions w) as [|d1 [|d2 [|d3 l]]]; try done;
    repeat (case_match; try done); by simplify_eq.
Qed.

Lemma getvar_Ok dst name da :
  getvar dst name ALL_TIMES = Ok da →
  ∃ w a proj xlong xlat times,
    nc_variables (ds_data dst) !! name = Some w ∧
    read_all name (ds_data dst) = Ok a ∧
    dimensions w = wrf_dims ∧
    (name ∉ ["XLONG"; "XLAT"; "Time"] ++ wrf_dims) ∧
    getproj (ds_data dst) = Ok proj ∧
    latlon_coord (ds_data dst) "XLONG" = Ok xlong ∧
    latlon_coord (ds_data dst) "XLAT" = Ok xlat ∧
    extract_times (ds_data dst) = Ok times ∧
    da = {| da_name := name;
            da_variable :=
              {| xr_dims := dimensions w; xr_values := a;
                 xr_attrs := <["projection" := AObj proj]> (var_ncattrs w) |};
            da_coords := [("XLONG", xlong); ("XLAT", xlat); ("Time", times)] |}.
Proof.
  unfold getvar. intros [_ Hr]%reading_Ok.
  apply result_bind_Ok in Hr as (w & Hw & Hr).
  destruct (nc_variables (ds_data dst) !! name) as [w'|] eqn:Hw'; [|done].
  injection Hw as ->.
  apply result_bind_Ok in Hr as (a & Ha & Hr).
  case_decide as Hc; [|done]. destruct Hc as (Hd & Hn & _).
  apply result_bind_Ok in Hr as (proj & Hp & Hr).
  apply result_bind_Ok in Hr as (xlong & Hx & Hr).
  apply result_bind_Ok in Hr as (xlat & Hy & Hr).
  apply result_bind_Ok in Hr as (times & Ht & [= <-]).
  by exists w, a, proj, xlong, xlat, times.
Qed.

Lemma merge_var_Ok (m : gmap string (@XrVariable num)) k v m' :
  merge_var m k v = Ok m' → m' = m ∪ {[k := v]}.
Proof.
  unfold merge_var. destruct (m !! k) as [w|] eqn:E.
  - case_decide; [|by case_decide]. intros [= <-]. apply map_eq. intros i.
    rewrite lookup_union. destruct (decide (k = i)) as [->|Hne].
    + by rewrite E, lookup_singleton_eq.
    + rewrite lookup_singleton_ne by done. by destruct (m !! i).
  - intros [= <-]. by apply insert_union_singleton_r.
Qed.

Lemma merge_coords_Ok (l : list (string * @XrVariable num)) m m' :
  for_each (λ m '(k, v), merge_var m k v) m l = Ok m' → m' = m ∪ list_to_map l.
Proof.
  revert m. induction l as [|[k v] l IH]; intros m; simpl.
  - intros [= <-]. by rewrite (right_id_L ∅ (∪)).
  - intros (m1 & ->%merge_var_Ok & ->%IH)%result_bind_Ok.
    by rewrite <- (assoc_L (∪)), <- insert_union_singleton_l.
Qed.

Lemma merge_one_Ok ds da ds' :
  merge_one ds da = Ok ds' →
  coords ds' = coords ds ∪ list_to_map (da_coords da) ∧
  data_vars ds' = data_vars ds ∪ {[da_name da := da_variable da]} ∧
  attrs ds' = attrs ds ∧
  ∃ dims, calculate_dimensions (xr_variables ds') = Ok dims.
Proof.
  unfold merge_one. case_decide; [done|].
  intros (cs & ->%merge_coords_Ok & Hr)%result_bind_Ok.
  apply result_bind_Ok in Hr as (dv & ->%merge_var_Ok & Hr).
  apply result_bind_Ok in Hr as (dims & Hd & [= <-]). simpl. eauto.
Qed.

Lemma xr_merge_Ok (das : list (@DataArray num)) ds0 ds :
  for_each merge_one ds0 das = Ok ds →
  coords ds = coords ds0 ∪ list_to_map (das ≫= da_coords) ∧
  data_vars ds
  = data_vars ds0 ∪ list_to_map ((λ da, (da_name da, da_variable da)) <$> das) ∧
  attrs ds = attrs ds0 ∧
  (das ≠ [] → ∃ dims, calculate_dimensions (xr_variables ds) = Ok dims).
Proof.
  revert ds0. induction das as [|da das IH]; intros ds0; simpl.
  - intros [= <-]. by rewrite !(right_id_L ∅ (∪)).
  - intros (ds1 & (Hc & Hd & Ha & Hdim)%merge_one_Ok & Hr)%result_bind_Ok.
    destruct (IH _ Hr) as (Hc' & Hd' & Ha' & Hdim'). split_and!.
    + by rewrite Hc', Hc, list_to_map_app, (assoc_L (∪)).
    + by rewrite Hd', Hd, <- (assoc_L (∪)), <- insert_union_singleton_l.
    + congruence.
    + intros _. destruct das as [|da' das]; [|by apply Hdim'].
      simpl in Hr. by simplify_eq.
Qed.

Lemma getvar_loop l : ∀ s s' acc dst,
  globals s !! "da_list" = Some (VDataArrays acc) →
  globals s !! "dst" = Some (VDataset dst) →
  for_M l (λ my_var,
    dst ← load_dataset "dst";
    da ← lift (getvar dst my_var ALL_TIMES);
    da_list ← load_da_list "da_list";
    store "da_list" (VDataArrays (da_list ++ [da]))) s = (Ok (), s') →
  ∃ das, Forall2 (λ name da, getvar dst name ALL_TIMES = Ok da) l das ∧
         s' = set_global "da_list" (VDataArrays (acc ++ das)) s.
Proof.
  induction l as [|name l IH]; intros s s' acc dst Hacc Hdst Hr; simpl in Hr.
  - apply ret_Ok in Hr as [_ <-]. exists []. split; [constructor|].
    by rewrite (right_id_L [] (++)), set_global_id.
  - apply bind_Ok in Hr as ([] & s1 & H1 & Hr).
    apply bind_Ok in H1 as (dst' & ? & [Hd ->]%load_dataset_Ok & H1).
    rewrite Hdst in Hd. injection Hd as <-.
    apply bind_Ok in H1 as (da & ? & [Hda ->]%lift_Ok & H1).
    apply bind_Ok in H1 as (acc' & ? & Hl & H1).
    unfold load_da_list in Hl.
    apply bind_Ok in Hl as (val & ? & [Hx ->]%load_Ok & Hl).
    rewrite Hacc in Hx. injection Hx as <-. apply ret_Ok in Hl as [<- ->].
    apply store_Ok in H1. fold (set_global "da_list" (VDataArrays (acc ++ [da])) s) in H1.
    subst s1.
    destruct (IH (set_global "da_list" (VDataArrays (acc ++ [da])) s) s'
                (acc ++ [da]) dst) as (das & HF & ->); [| |exact Hr|].
    { simpl. by rewrite lookup_insert_eq. }
    { simpl. by rewrite lookup_insert_ne. }
    exists (da :: das). split; [by constructor|].
    by rewrite set_global_twice, <- (assoc_L (++)).
Qed.

Lemma cell13_Ok s s' :
  cell13 s = (Ok (), s') →
  ∃ dst das ds,
    globals s !! "dst" = Some (VDataset dst) ∧
    Forall2 (λ name da, getvar dst name ALL_TIMES = Ok da) my_vars das ∧
    xr_merge das = Ok ds ∧
    s' = set_global "ds" (VXr ds) (set_global "da_list" (VDataArrays das) s).
Proof.
  unfold cell13. intros ([] & s0 & ->%store_Ok & Hr)%bind_Ok.
  apply bind_Ok in Hr as ([] & s1 & Hloop & Hr).
  assert (∃ dst, globals s !! "dst" = Some (VDataset dst)) as [dst Hdst].
  { unfold my_vars in Hloop. simpl in Hloop.
    apply bind_Ok in Hloop as ([] & ? & H1 & _).
    apply bind_Ok in H1 as (dst & ? & [Hd ->]%load_dataset_Ok & _).
    simpl in Hd. rewrite lookup_insert_ne in Hd by done. eauto. }
  eapply (getvar_loop _ _ _ [] dst) in Hloop as (das & HF & ->);
    [|by simpl; rewrite lookup_insert_eq|by simpl; rewrite lookup_insert_ne].
  apply bind_Ok in Hr as (das' & ? & Hl & Hr). unfold load_da_list in Hl.
  apply bind_Ok in Hl as (val & ? & [Hx ->]%load_Ok & Hl).
  simpl in Hx. rewrite lookup_insert_eq in Hx. injection Hx as <-.
  apply ret_Ok in Hl as [<- ->].
  apply bind_Ok in Hr as (ds & ? & [Hm ->]%lift_Ok & ->%store_Ok).
  exists dst, das, ds. split_and!; try done.
  unfold set_global. simpl. by rewrite insert_insert_eq.
Qed.

Lemma cell13_merged s s' :
  cell13 s = (Ok (), s') →
  ∃ dst ds, globals s !! "dst" = Some (VDataset dst) ∧
            globals s' !! "ds" = Some (VXr ds) ∧
            merged_from (ds_data dst) ds.
Proof.
  intros (dst & das & ds & Hdst & HF & Hm & ->)%cell13_Ok.
  exists dst, ds. split; [done|]. split; [by simpl; rewrite lookup_insert_eq|].
  unfold my_vars in HF.
  apply Forall2_cons_inv_l in HF as (da1 & das1 & H1 & HF & ->).
  apply Forall2_cons_inv_l in HF as (da2 & das2 & H2 & HF & ->).
  apply Forall2_cons_inv_l in HF as (da3 & das3 & H3 & HF & ->).
  apply Forall2_nil_inv_l in HF as ->.
  apply getvar_Ok in H1 as (w1 & a1 & proj & xlong & xlat & times & Hw1 & Ha1
                            & Hd1 & Hn1 & Hp & Hx & Hy & Ht & ->).
  apply getvar_Ok in H2 as (w2 & a2 & proj2 & xlong2 & xlat2 & times2 & Hw2 & Ha2
                            & Hd2 & Hn2 & Hp2 & Hx2 & Hy2 & Ht2 & ->).
  apply getvar_Ok in H3 as (w3 & a3 & proj3 & xlong3 & xlat3 & times3 & Hw3 & Ha3
                            & Hd3 & Hn3 & Hp3 & Hx3 & Hy3 & Ht3 & ->).
  rewrite Hp in Hp2, Hp3. rewrite Hx in Hx2, Hx3. rewrite Hy in Hy2, Hy3.
  rewrite Ht in Ht2, Ht3.
  injection Hp2 as <-. injection Hp3 as <-. injection Hx2 as <-. injection Hx3 as <-.
  injection Hy2 as <-. injection Hy3 as <-. injection Ht2 as <-. injection Ht3 as <-.
  apply xr_merge_Ok in Hm as (Hc & Hv & Ha & Hdim). simpl in Hc, Hv, Ha.
  rewrite (left_id_L ∅ (∪)) in Hc, Hv.
  apply latlon_coord_Ok in Hx as [Hx1 Hx2]. apply latlon_coord_Ok in Hy as [Hy1 Hy2].
  apply extract_times_Ok in Ht as [Ht1 Ht2].
  unfold merged_from. split_and!.
  - done.
  - rewrite Hc, !dom_insert_L, dom_empty_L. set_solver.
  - rewrite Hv, !dom_insert_L, dom_empty_L. unfold my_vars. set_solver.
  - intros k cv Hk. rewrite Hc in Hk.
    assert (∀ x, x ∈ [xlong; xlat; times] →
                 xr_attrs x = ∅ ∧ xr_dims x ⊆ wrf_dims) as Hall.
    { intros x Hin. unfold wrf_dims.
      repeat (apply elem_of_cons in Hin as [->|Hin]);
        [rewrite Hx1|rewrite Hy1|rewrite Ht1|by apply elem_of_nil in Hin];
        (split; [done|]); intros y; rewrite !elem_of_cons; tauto. }
    repeat (apply lookup_insert_Some in Hk as [[<- <-]|[_ Hk]];
            [apply Hall; rewrite !elem_of_cons; tauto|]).
    by apply lookup_empty_Some in Hk.
  - intros k Hk. unfold my_vars in Hk. rewrite Hv.
    repeat (apply elem_of_cons in Hk as [->|Hk]).
    + exists w1, a1, proj. split_and!; try done. rewrite lookup_insert_eq.
      by rewrite Hd1.
    + exists w2, a2, proj. split_and!; try done.
      rewrite lookup_insert_ne, lookup_insert_eq by done. by rewrite Hd2.
    + exists w3, a3, proj. split_and!; try done.
      rewrite !lookup_insert_ne, lookup_insert_eq by done. by rewrite Hd3.
    + by apply elem_of_nil in Hk.
  - by apply Hdim.
Qed.

(** C7.  When cell 13 has run, [wrf.getvar] was called on the assembled
    dataset [dst] with [ALL_TIMES] for every name of [my_vars], in order, and
    returned a DataArray of that name; [ds] is the merge of these, and its
    data variables are exactly the names of [my_vars], each the variable of
    the DataArray requested under that name: one per field. *)
Theorem getvar_for_each_field s s' :
  cell13 s = (Ok (), s') →
  ∃ dst da_list ds,
    globals s !! "dst" = Some (VDataset dst) ∧
    Forall2 (λ name da, getvar dst name ALL_TIMES = Ok da ∧ da_name da = name ∧
                        data_vars ds !! name = Some (da_variable da))
            my_vars da_list ∧
    xr_merge da_list = Ok ds ∧
    globals s' !! "ds" = Some (VXr ds) ∧
    dom (data_vars ds) = list_to_set my_vars ∧
    size (data_vars ds) = length my_vars.
Proof.
  intros (dst & das & ds & Hdst & HF & Hm & ->)%cell13_Ok.
  exists dst, das, ds.
  assert (dom (data_vars ds) = list_to_set my_vars ∧
          Forall2 (λ name da, getvar dst name ALL_TIMES = Ok da ∧ da_name da = name ∧
                              data_vars ds !! name = Some (da_variable da))
                  my_vars das) as [Hdom HF'].
  { pose proof Hm as (_ & Hv & _)%xr_merge_Ok. unfold my_vars in *.
    apply Forall2_cons_inv_l in HF as (da1 & das1 & H1 & HF & ->).
    apply Forall2_cons_inv_l in HF as (da2 & das2 & H2 & HF & ->).
    apply Forall2_cons_inv_l in HF as (da3 & das3 & H3 & HF & ->).
    apply Forall2_nil_inv_l in HF as ->.
    assert (da_name da1 = "SPDUV10MEAN" ∧ da_name da2 = "V10MEAN"
            ∧ da_name da3 = "U10MEAN") as (E1 & E2 & E3).
    { apply getvar_Ok in H1 as (? & ? & ? & ? & ? & ? & ? & ? & ? & ? & ? & ? & ? & ? & ->).
      apply getvar_Ok in H2 as (? & ? & ? & ? & ? & ? & ? & ? & ? & ? & ? & ? & ? & ? & ->).
      apply getvar_Ok in H3 as (? & ? & ? & ? & ? & ? & ? & ? & ? & ? & ? & ? & ? & ? & ->).
      done. }
    simpl in Hv. rewrite E1, E2, E3, (left_id_L ∅ (∪)) in Hv. split.
    - rewrite Hv, !dom_insert_L, dom_empty_L. set_solver.
    - constructor; [|constructor; [|constructor; [|constructor]]];
        (split_and!; [done|done|rewrite Hv]).
      + by rewrite lookup_insert_eq.
      + rewrite lookup_insert_ne by done. by rewrite lookup_insert_eq.
      + rewrite !lookup_insert_ne by done. by rewrite lookup_insert_eq. }
  split_and!; try done.
  - simpl. by rewrite lookup_insert_eq.
  - rewrite <- size_dom, Hdom. apply size_list_to_set, NoDup_my_vars.
Qed.

End Merge.

(** ** The first write, the fix, and the round trip *)

Section Write.
Context {num : Type} {numpy : NumPy num} {wrf_python : @WrfPython num}.
Implicit Types (s : @nbstate num) (c : @NcData num) (d : @Dataset num).
Implicit Types (ds : @XrDataset num) (v : @XrVariable num).

(** ** The attributes the copy loop stores *)

Lemma checked_stable name names : name ∉ names → stable names (checked name).
Proof.
  intros Hn n c c' Hin Hc Hstep w Hw. apply Hc.
  rewrite <- (nc_step_other _ _ _ _ Hstep); [done|]. by intros ->.
Qed.

Lemma copy_variable_checked from n s s1 :
  copy_variable from n s = (Ok (), s1) → dst_inv (checked n) s1.
Proof.
  intros Hr. unfold copy_variable in Hr.
  repeat (inv1; subst; cbn [disk stdout globals] in * ).
  repeat match goal with
  | H : <[_ := _]> _ !! "dst" = Some _ |- _ => rewrite lookup_insert_eq in H
  end.
  simplify_eq. simpl in *.
  repeat match goal with
  | H : createVariable _ _ _ _ = Ok _ |- _ =>
      apply createVariable_Ok in H as (? & ? & ? & ?)
  | H : assign_all _ _ _ = Ok _ |- _ =>
      apply assign_all_Ok in H as (? & ? & ? & ? & ? & ?)
  | H : var_setncatts _ _ _ = Ok _ |- _ =>
      apply var_setncatts_Ok in H as (? & ? & ? & ?)
  end.
  subst. simpl in *. intros d Hd w Hw. simpl in Hd. rewrite lookup_insert_eq in Hd.
  simplify_eq. simpl in *. rewrite !lookup_insert_eq in *. simplify_eq. simpl.
  by rewrite (right_id_L ∅ (∪)).
Qed.

Lemma copy_loop_checked l :
  NoDup l → ∀ s s',
  for_M l (copy_variable "src") s = (Ok (), s') →
  ∀ name, name ∈ l → dst_inv (checked name) s'.
Proof.
  induction 1 as [|n l Hn Hnd IH]; intros s s' Hr name Hin; simpl in Hr.
  - by apply elem_of_nil in Hin.
  - apply bind_Ok in Hr as ([] & s1 & H1 & Hr).
    apply elem_of_cons in Hin as [->|Hin]; [|by eapply IH].
    eapply (preserved (dst_inv (checked n))); [| |exact Hr].
    + apply preserves_for_M. intros n' Hn'.
      eapply dst_copy_variable; [by apply checked_stable|done].
    + by eapply copy_variable_checked.
Qed.

(** ** What [to_netcdf] raises *)

Lemma result_bind_Raise {A B} (r : result A) (f : A → result B) e :
  r ≫= f = Raise e ↔ r = Raise e ∨ ∃ a, r = Ok a ∧ f a = Raise e.
Proof. destruct r; simpl; naive_solver. Qed.

Lemma add_sizes_Raise (m : gmap string nat) p e :
  add_sizes m p = Raise e → e = ValueError.
Proof.
  unfold add_sizes. case_decide; [|by intros [= <-]].
  generalize (zip p.1 p.2). intros l. revert m.
  induction l as [|kn l IH]; intros m; simpl; [done|].
  intros [Hr|(m' & _ & Hr)]%result_bind_Raise; [|by eapply IH].
  unfold add_size in Hr. destruct (m !! kn.1); [|done].
  case_decide; [done|]. by injection Hr as <-.
Qed.

Lemma calculate_dimensions_Raise (vars : gmap string (@XrVariable num)) e :
  calculate_dimensions vars = Raise e → e = ValueError.
Proof.
  unfold calculate_dimensions. revert e.
  apply (map_fold_weak_ind (λ r (m : gmap string (list string * list nat)),
    ∀ e, r = Raise e → e = ValueError)); [done|].
  intros i x m r Hi IH e [Hr|(m' & _ & Hr)]%result_bind_Raise; [by apply IH|].
  by eapply add_sizes_Raise.
Qed.

Lemma map_traverse_Raise {A B} (f : A → result B) (m : gmap string A) e e0 :
  (∀ a e, f a = Raise e → e = e0) → map_traverse f m = Raise e → e = e0.
Proof.
  intros Hf. unfold map_traverse. revert e.
  apply (map_fold_weak_ind (λ r (m : gmap string A),
    ∀ e, r = Raise e → e = e0)); [done|].
  intros i x m0 r Hi IH e [Hr|(m' & _ & Hr)]%result_bind_Raise; [by apply IH|].
  apply result_bind_Raise in Hr as [Hr|(b & _ & Hr)]; [by eapply Hf|done].
Qed.

Lemma encode_dataset_Raise ds e :
  encode_dataset ds = Raise e → e = ValueError ∨ e = NotModelled.
Proof.
  unfold encode_dataset.
  intros [Hr|(dims & _ & Hr)]%result_bind_Raise.
  { left. by eapply calculate_dimensions_Raise. }
  case_decide; [|right; by injection Hr as <-].
  apply result_bind_Raise in Hr as [Hr|(b & _ & Hr)]; [|done].
  left. eapply map_traverse_Raise; [|done]. intros v e'. unfold encode_var.
  intros [Hr'|(? & _ & Hr')]%result_bind_Raise; [|done].
  case_decide; [done|]. destruct (xr_attrs v !! "coordinates"); [|done].
  by injection Hr' as <-.
Qed.

Lemma to_netcdf_TypeError ds path (files : gmap string NcData) :
  (to_netcdf ds path files).1 = Raise TypeError ↔ ¬ attrs_serializable ds.
Proof.
  unfold to_netcdf, validate_attrs, attrs_serializable.
  case_decide as Hs; simpl.
  - split; [|done]. destruct (encode_dataset ds) as [file|e] eqn:E; [done|].
    simpl. intros [= ->]. by destruct (encode_dataset_Raise _ _ E).
  - done.
Qed.

Lemma to_netcdf_unserializable ds path (files : gmap string NcData) :
  ¬ attrs_serializable ds → to_netcdf ds path files = (Raise TypeError, files).
Proof.
  intros Hs. unfold to_netcdf, validate_attrs. by rewrite decide_False.
Qed.

Lemma map_traverse_succeeds {A B} (f : A → result B) (m : gmap string A) :
  (∀ k a, m !! k = Some a → ∃ b, f a = Ok b) → ∃ m', map_traverse f m = Ok m'.
Proof.
  unfold map_traverse.
  apply (map_fold_weak_ind (λ r (m : gmap string A),
    (∀ k a, m !! k = Some a → ∃ b, f a = Ok b) → ∃ m', r = Ok m')); [by eauto|].
  intros i x m0 r Hi IH Hall. destruct IH as [m' ->].
  { intros k a Hk. apply (Hall k). rewrite lookup_insert_ne; [done|].
    intros ->. congruence. }
  destruct (Hall i x) as [b Hb]; [by rewrite lookup_insert_eq|].
  simpl. rewrite Hb. simpl. eauto.
Qed.

(** ** The dataset after the fix *)

Lemma fix_all_sizes l ds ds' :
  fix_all l ds = Ok ds' →
  sizes <$> xr_variables ds' = sizes <$> xr_variables ds.
Proof.
  unfold fix_all. revert ds. induction l as [|k l IH]; intros ds; simpl.
  - by intros [= <-].
  - intros (ds1 & (v & p & _ & _ & _ & ->)%fix_one_Ok & Hr)%result_bind_Ok.
    rewrite (IH _ Hr), xr_variables_set_attrs. apply sizes_alter.
Qed.

Lemma my_vars_no_coords c ds k :
  merged_from c ds → k ∈ my_vars → coords ds !! k = None.
Proof.
  intros (_ & Hdom & _) Hk. apply not_elem_of_dom. rewrite Hdom.
  unfold my_vars in Hk. intros Hin.
  repeat (apply elem_of_cons in Hk as [->|Hk]); set_solver.
Qed.

Lemma fixed_merged c ds ds' :
  merged_from c ds → fix_all my_vars ds = Ok ds' →
  attrs ds' = ∅ ∧ coords ds' = coords ds ∧
  dom (data_vars ds') = list_to_set my_vars ∧
  (∀ k v', data_vars ds' !! k = Some v' →
     k ∈ my_vars ∧ xr_dims v' = wrf_dims ∧
     ∃ w proj, nc_variables c !! k = Some w ∧
       xr_attrs v' = fix_attrs (AObj proj)
                       (<["projection" := AObj proj]> (var_ncattrs w))) ∧
  ∃ dims, calculate_dimensions (xr_variables ds') = Ok dims.
Proof.
  intros Hm Hfix. pose proof Hm as (Ha & Hdc & Hdv & Hco & Hvars & dims & Hdims).
  destruct (fix_all_spec _ _ _ NoDup_my_vars Hfix) as (Ha' & Hout & Hin).
  assert (coords ds' = coords ds) as Hc.
  { apply map_eq. intros k. destruct (decide (k ∈ my_vars)) as [Hk|Hk].
    - destruct (Hin k Hk) as (v & p & _ & _ & _ & _ & ->).
      by rewrite (my_vars_no_coords _ _ _ Hm Hk).
    - by apply Hout. }
  assert (dom (data_vars ds') = dom (data_vars ds)) as Hd.
  { apply set_eq. intros k. rewrite !elem_of_dom.
    destruct (decide (k ∈ my_vars)) as [Hk|Hk].
    - destruct (Hin k Hk) as (v & p & _ & _ & _ & -> & _). by rewrite fmap_is_Some.
    - by destruct (Hout k Hk) as [-> _]. }
  split_and!; [congruence|done|congruence| |].
  - intros k v' Hv'.
    assert (k ∈ my_vars) as Hk.
    { apply (elem_of_list_to_set (C := gset string)). rewrite <- Hdv, <- Hd.
      by apply elem_of_dom. }
    destruct (Hin k Hk) as (v & p & Hv & Hp & _ & Hdv' & _).
    destruct (Hvars k Hk) as (w & a & proj & Hw & _ & Hdk).
    unfold xr_variables in Hv.
    rewrite (lookup_union_r (coords ds)) in Hv by (by eapply my_vars_no_coords).
    rewrite Hdk in Hv, Hdv'. simplify_eq/=. rewrite lookup_insert_eq in Hp.
    simplify_eq. split_and!; eauto.
  - exists dims. unfold calculate_dimensions in *.
    by rewrite (fix_all_sizes _ _ _ Hfix).
Qed.

Lemma fixed_attrs_serializable (p : pyobject) (a : gmap string (@attr_value num)) :
  map_Forall (λ _ x, serializable x = true) a →
  map_Forall (λ _ x, serializable x = true)
             (fix_attrs (AObj p) (<["projection" := AObj p]> a)).
Proof.
  intros Ha k x. unfold fix_attrs.
  intros [_ Hk]%lookup_delete_Some.
  apply lookup_insert_Some in Hk as [[_ <-]|[Hne Hk]]; [done|].
  rewrite lookup_insert_ne in Hk by done. by eapply Ha.
Qed.

Lemma fixed_variables c ds ds' :
  merged_from c ds → fix_all my_vars ds = Ok ds' →
  ∀ k v, xr_variables ds' !! k = Some v →
    xr_attrs v !! "coordinates" = None ∧ xr_dims v ⊆ wrf_dims ∧
    ((∀ n, n ∈ my_vars → checked n c) →
     map_Forall (λ _ x, serializable x = true) (xr_attrs v)).
Proof.
  intros Hm Hfix k v Hv.
  destruct (fixed_merged _ _ _ Hm Hfix) as (_ & Hc & _ & Hdv & _).
  destruct Hm as (_ & _ & _ & Hco & _).
  apply lookup_union_Some_raw in Hv as [Hv|[_ Hv]].
  - rewrite Hc in Hv. destruct (Hco _ _ Hv) as [-> ?]. split_and!; [done|done|].
    intros _. apply map_Forall_empty.
  - destruct (Hdv _ _ Hv) as (Hk & -> & w & proj & Hw & ->). split_and!.
    + unfold fix_attrs. apply lookup_delete_eq.
    + done.
    + intros Hch. apply fixed_attrs_serializable. by apply (Hch k).
Qed.

Lemma fixed_plain c ds ds' :
  merged_from c ds → fix_all my_vars ds = Ok ds' → plain_dataset ds'.
Proof.
  intros Hm Hfix.
  destruct (fixed_merged _ _ _ Hm Hfix) as (Ha & Hc & _ & Hdv & _).
  split_and!.
  - by rewrite Ha.
  - intros k v Hv. by destruct (fixed_variables _ _ _ Hm Hfix _ _ Hv).
  - intros k v Hv. destruct (Hdv _ _ Hv) as (Hk & _). split.
    + rewrite Hc. by eapply my_vars_no_coords.
    + intros n v' Hv' Hin.
      destruct (fixed_variables _ _ _ Hm Hfix _ _ Hv') as (_ & Hsub & _).
      apply Hsub in Hin. unfold my_vars, wrf_dims in *.
      repeat (apply elem_of_cons in Hk as [->|Hk]); set_solver.
Qed.

Lemma fixed_written c ds ds' :
  merged_from c ds → (∀ n, n ∈ my_vars → checked n c) →
  fix_all my_vars ds = Ok ds' →
  attrs_serializable ds' ∧ ∃ file, encode_dataset ds' = Ok file.
Proof.
  intros Hm Hch Hfix.
  destruct (fixed_merged _ _ _ Hm Hfix) as (Ha & Hc & Hd & Hdv & dims & Hdims).
  split.
  { split; [rewrite Ha; apply map_Forall_empty|].
    intros k v Hv. by apply (fixed_variables _ _ _ Hm Hfix _ _ Hv). }
  destruct (map_traverse_succeeds (encode_var ds' dims) (data_vars ds'))
    as [dvs Hdvs].
  { intros k v Hv. unfold encode_var.
    destruct (fixed_variables _ _ _ Hm Hfix k v) as (-> & _).
    { apply lookup_union_Some_raw. right. split; [|done].
      rewrite Hc. eapply my_vars_no_coords; [done|]. by apply (Hdv _ _ Hv). }
    case_decide; simpl; eauto. }
  eexists. apply encode_dataset_Ok. exists dims, dvs. split_and!; try done.
  - apply Forall_forall. intros k Hk%elem_of_elements.
    rewrite Hc in Hk. destruct Hm as (_ & Hdc & _). rewrite Hdc in Hk.
    assert (k = "XLONG" ∨ k = "XLAT" ∨ k = "Time") as [->|[->| ->]]
      by set_solver; by split.
  - apply Forall_forall. intros k Hk. apply Exists_exists.
    assert (is_Some (data_vars ds' !! "SPDUV10MEAN")) as [v Hv].
    { apply elem_of_dom. rewrite Hd. unfold my_vars. set_solver. }
    exists v. split.
    { apply list_elem_of_fmap. exists ("SPDUV10MEAN", v). split; [done|].
      by apply elem_of_map_to_list. }
    unfold attached. apply list_elem_of_filter. split; [|done].
    unfold non_dim_coords in Hk.
    apply list_elem_of_filter in Hk as [_ [cv Hcv]%elem_of_elements%elem_of_dom].
    exists cv. split; [done|]. destruct (Hdv _ _ Hv) as (_ & -> & _).
    apply (fixed_variables _ _ _ Hm Hfix k). apply lookup_union_Some_raw. by left.
Qed.

Lemma to_netcdf_Ok ds path (files files' : gmap string NcData) :
  to_netcdf ds path files = (Ok (), files') ↔
  attrs_serializable ds ∧
  ∃ file, encode_dataset ds = Ok file ∧ files' = <[path := file]> files.
Proof.
  unfold to_netcdf, validate_attrs, attrs_serializable.
  case_decide as Hs; simpl; [|naive_solver].
  destruct (encode_dataset ds) as [file|e]; naive_solver.
Qed.

Lemma write_netcdf_run x path s ds :
  globals s !! x = Some (VXr ds) →
  write_netcdf x path s
  = ((to_netcdf ds path (disk s)).1,
     {| disk := (to_netcdf ds path (disk s)).2; stdout := stdout s;
        globals := globals s |}).
Proof.
  intros Hx. unfold write_netcdf, load_xr, load, on_disk.
  cbv [mbind M_bind mret M_ret lift]. by rewrite Hx.
Qed.

(** C1 (amended).  When cells 11 and 13 have run, [ds] is bound to a dataset
    in which every variable of [my_vars] has a [projection] attribute that is
    a library object.  In any state in which [ds] is still that dataset, the
    first call [ds.to_netcdf('test.nc')] raises TypeError and changes
    nothing; and once the fix loop has run, the same call returns and
    [test.nc] is written.  The call raises TypeError if and only if some
    attribute of the dataset or of one of its variables is not a number, a
    string, an ndarray or a list or tuple of numbers and strings. *)
Theorem first_write_raises_TypeError s s13 :
  (cell11;; cell13) s = (Ok (), s13) →
  ∃ ds,
    globals s13 !! "ds" = Some (VXr ds) ∧
    (∀ name, name ∈ my_vars →
       ∃ v p, data_vars ds !! name = Some v ∧
              xr_attrs v !! "projection" = Some (AObj p)) ∧
    (∀ s15, globals s15 !! "ds" = Some (VXr ds) →
       cell15 s15 = (Raise TypeError, s15)) ∧
    (∀ s16 s17, globals s16 !! "ds" = Some (VXr ds) →
       fix_attributes s16 = (Ok (), s17) →
       ∃ s', write_netcdf "ds" "test.nc" s17 = (Ok (), s') ∧
             cell17 s16 = (Ok (), s') ∧ is_Some (disk s' !! "test.nc")) ∧
    ∀ (ds0 : @XrDataset num) path (files : gmap string (@NcData num)),
      (to_netcdf ds0 path files).1 = Raise TypeError ↔ ¬ attrs_serializable ds0.
Proof.
  intros ([] & s11 & H11 & H13)%bind_Ok.
  pose proof (copy_loop_checked _ NoDup_my_vars _ _ H11) as Hch.
  apply cell13_merged in H13 as (dst & ds & Hdst & Hds & Hm).
  assert (∀ n, n ∈ my_vars → checked n (ds_data dst)) as Hch'.
  { intros n Hn. by apply (Hch n Hn). }
  pose proof Hm as (_ & _ & _ & _ & Hvars & _).
  exists ds. split_and!; [done| | | |].
  - intros name Hn. destruct (Hvars name Hn) as (w & a & proj & _ & _ & Hv).
    eexists _, proj. split; [done|]. simpl. by rewrite lookup_insert_eq.
  - intros s15 H15. unfold cell15. rewrite (write_netcdf_run _ _ _ ds) by done.
    rewrite to_netcdf_unserializable; [by destruct s15|].
    intros [_ Hs]. destruct (Hvars "SPDUV10MEAN") as (w & a & proj & _ & _ & Hv).
    { unfold my_vars. set_solver. }
    assert (xr_variables ds !! "SPDUV10MEAN" = Some
      {| xr_dims := wrf_dims; xr_values := a;
         xr_attrs := <["projection" := AObj proj]> (var_ncattrs w) |}) as Hx.
    { apply lookup_union_Some_raw. right. split; [|done].
      eapply my_vars_no_coords; [done|]. unfold my_vars. set_solver. }
    specialize (Hs _ _ Hx "projection" (AObj proj)). simpl in Hs.
    rewrite lookup_insert_eq in Hs. by specialize (Hs eq_refl).
  - intros s16 s17 H16 (ds0 & ds' & Hds0 & Hfix & ->)%fix_attributes_Ok.
    rewrite H16 in Hds0. injection Hds0 as <-.
    destruct (fixed_written _ _ _ Hm Hch' Hfix) as (Hser & file & Henc).
    assert (write_netcdf "ds" "test.nc" (set_global "ds" (VXr ds') s16)
            = (Ok (), {| disk := <["test.nc" := file]> (disk s16);
                         stdout := stdout s16;
                         globals := <["ds" := VXr ds']> (globals s16) |})) as Hw.
    { rewrite (write_netcdf_run _ _ _ ds') by (by simpl; rewrite lookup_insert_eq).
      simpl. assert (to_netcdf ds' "test.nc" (disk s16)
                     = (Ok (), <["test.nc" := file]> (disk s16))) as ->; [|done].
      apply to_netcdf_Ok. eauto. }
    eexists. split; [exact Hw|]. split.
    + unfold cell17. apply bind_Ok. eexists (), _. split; [|exact Hw].
      apply fix_attributes_Ok. eauto.
    + simpl. by rewrite lookup_insert_eq.
  - intros. apply to_netcdf_TypeError.
Qed.

(** C5.  When cell 13 has run and cell 17, in a state in which [ds] is still
    the merged dataset, has fixed the attributes and written [test.nc], then
    cell 20, run on that file, binds [ds2] to a dataset with the dimension
    names and sizes of the dataset that was written, and with exactly the
    names of [my_vars] as its data variables. *)
Theorem reopened_structure s s13 s16 s17 :
  cell13 s = (Ok (), s13) →
  globals s16 !! "ds" = globals s13 !! "ds" →
  cell17 s16 = (Ok (), s17) →
  ∃ ds' ds2 dims,
    globals s17 !! "ds" = Some (VXr ds') ∧
    (∀ s18, disk s18 = disk s17 →
       cell20 s18 = (Ok (), set_global "ds2" (VXr ds2) s18)) ∧
    calculate_dimensions (xr_variables ds') = Ok dims ∧
    calculate_dimensions (xr_variables ds2) = Ok dims ∧
    dom (data_vars ds2) = list_to_set my_vars.
Proof.
  intros (dst & ds & Hdst & Hds & Hm)%cell13_merged H16 H17.
  rewrite Hds in H16. unfold cell17 in H17.
  apply bind_Ok in H17 as ([] & s16' & Hfix & Hw).
  apply fix_attributes_Ok in Hfix as (ds0 & ds' & Hds0 & Hfix & ->).
  rewrite H16 in Hds0. injection Hds0 as <-.
  apply write_netcdf_Ok in Hw as (ds'' & Hds' & Hw & _ & Hg).
  simpl in Hds'. rewrite lookup_insert_eq in Hds'. injection Hds' as <-.
  apply to_netcdf_Ok in Hw as (_ & file & Henc & Hdisk). simpl in Hdisk.
  destruct (fixed_merged _ _ _ Hm Hfix) as (_ & _ & Hd & _ & dims & Hdims).
  exists ds', ds', dims. split_and!; try done.
  - rewrite Hg. simpl. by rewrite lookup_insert_eq.
  - intros s18 H18.
    assert (open_dataset "test.nc" (disk s18) = Ok ds') as Hopen.
    { apply (open_written ds' file); [done|by eapply fixed_plain|].
      by rewrite H18, Hdisk, lookup_insert_eq. }
    unfold cell20, on_disk. cbv [mbind M_bind mret M_ret store]. simpl.
    by rewrite Hopen.
Qed.

End Write.

(** ** What cell 6 leaves *)

Section Restart.
Context {num : Type} {numpy : NumPy num} {wrf_python : @WrfPython num}.
Implicit Types (s : @nbstate num) (c : @NcData num) (d : @Dataset num).

Lemma create_dims_exact (l : list (string * Dimension)) s s' d :
  for_M l (λ '(name, dimension),
    update_dataset "dst" (writing (createDimension name (size_argument dimension)))) s
  = (Ok (), s') →
  globals s !! "dst" = Some (VDataset d) →
  ∃ d', globals s' !! "dst" = Some (VDataset d') ∧
    ds_path d' = ds_path d ∧ ds_diskless d' = ds_diskless d ∧
    nc_dimensions (ds_data d')
    = (created <$> list_to_map l) ∪ nc_dimensions (ds_data d) ∧
    ∀ k, k ∈ l.*1 → nc_dimensions (ds_data d) !! k = None.
Proof.
  revert s d. induction l as [|[k dim] l IH]; intros s d Hr Hd; simpl in Hr.
  - apply ret_Ok in Hr as [_ ->]. exists d. split_and!; try done.
    + change (list_to_map []) with (∅ : gmap string Dimension).
      by rewrite fmap_empty, (left_id_L ∅ (∪)).
    + intros k Hin. by apply elem_of_nil in Hin.
  - apply bind_Ok in Hr as ([] & s1 & H1 & Hr).
    apply update_dataset_Ok in H1 as (d0 & d1 & Hd0 & Hw & ->).
    rewrite Hd in Hd0. injection Hd0 as <-.
    apply writing_Ok in Hw as (Ho & Hwr & c' & Hc & ->).
    unfold createDimension in Hc.
    destruct (nc_dimensions (ds_data d) !! k) eqn:Ek; [done|].
    injection Hc as <-.
    edestruct IH as (d' & Hd' & Hp' & Hl' & Hdims & Hnone);
      [exact Hr|simpl; by rewrite lookup_insert_eq|].
    exists d'. simpl in *. split_and!; try done.
    + rewrite Hdims. simpl. rewrite fmap_insert.
      assert ((list_to_map l : gmap string Dimension) !! k = None) as Hk.
      { apply not_elem_of_list_to_map. intros Hin. specialize (Hnone k Hin).
        by rewrite lookup_insert_eq in Hnone. }
      rewrite <- insert_union_l. rewrite insert_union_r; [done|].
      by rewrite lookup_fmap, Hk.
    + intros k' [->|Hin]%elem_of_cons; [done|].
      specialize (Hnone k' Hin). apply lookup_insert_None in Hnone. tauto.
Qed.

(** X1.  What cell 6 leaves when it returns: [dst] is a new, open, diskless
    dataset for the path dst_tmp.nc, with the global attributes of the source
    file, with exactly the dimensions of the source file, each as
    [createDimension] makes it from its [size_argument] (an unlimited one
    empty), and without variables. *)
Theorem cell6_starts_afresh s s' :
  cell6 s = (Ok (), s') →
  ∃ src dst,
    disk s !! src_path = Some src ∧
    globals s' !! "dst" = Some (VDataset dst) ∧
    ds_path dst = "dst_tmp.nc" ∧ ds_diskless dst = true ∧ ds_isopen dst = true ∧
    nc_ncattrs (ds_data dst) = nc_ncattrs src ∧
    nc_dimensions (ds_data dst) = created <$> nc_dimensions src ∧
    nc_variables (ds_data dst) = ∅.
Proof.
  intros Hr.
  pose proof Hr as (src & dsrc & d6 & Hsrc & _ & _ & _ & Hd6 & Ho6 & _ & Ha6 & Hv6 & _)%cell6_Ok.
  exists src, d6. split_and!; try done.
  all: unfold cell6 in Hr;
    apply bind_Ok in Hr as (dsrc' & s1 & (src' & Hsrc' & -> & ->)%Dataset_r_Ok & Hr);
    rewrite Hsrc in Hsrc'; injection Hsrc' as <-;
    apply bind_Ok in Hr as ([] & s2 & ->%store_Ok & Hr);
    apply bind_Ok in Hr as ([] & s3 & Hclose & Hr);
    assert (bound "src" (VDataset {| ds_path := src_path; ds_writable := false;
              ds_diskless := false; ds_isopen := true; ds_data := src |}) s3) as Hb
      by (eapply (bound_close_dst "src"); [done| |done]; unfold bound; simpl;
          by rewrite lookup_insert_eq);
    clear Hclose; unfold bound in Hb;
    apply bind_Ok in Hr as (d0 & s4 & Hw & Hr); unfold Dataset_w in Hw;
    injection Hw as <- <-;
    apply bind_Ok in Hr as ([] & s5 & ->%store_Ok & Hr);
    apply bind_Ok in Hr as (dsrc1 & ? & [Hs1 ->]%load_dataset_Ok & Hr);
    apply bind_Ok in Hr as (atts & ? & [Hatts ->]%lift_Ok & Hr);
    apply bind_Ok in Hr as ([] & s6 & Hupd & Hr);
    apply update_dataset_Ok in Hupd as (d0 & d1 & Hd0 & Hw & ->);
    simpl in Hd0; rewrite lookup_insert_eq in Hd0; injection Hd0 as <-;
    apply writing_Ok in Hw as (_ & _ & c' & Hc & ->);
    unfold nc_setncatts in Hc;
    apply result_bind_Ok in Hc as (atts' & _ & [= <-]);
    apply bind_Ok in Hr as (dsrc2 & ? & [Hs2 ->]%load_dataset_Ok & Hr);
    apply bind_Ok in Hr as (dims & ? & [Hdims ->]%lift_Ok & Hr);
    simpl in Hs2; rewrite !lookup_insert_ne in Hs2 by done; rewrite Hb in Hs2;
    injection Hs2 as <-; apply reading_Ok in Hdims as [_ [= <-]];
    eapply create_dims_exact in Hr as (d' & Hd' & Hp' & Hl' & Hdm & _);
      [|simpl; by rewrite lookup_insert_eq];
    rewrite Hd6 in Hd'; injection Hd' as <-; simpl in *.
  - done.
  - done.
  - rewrite Hdm, list_to_map_to_list. by rewrite (right_id_L ∅ (∪)).
Qed.

End Restart.

(** ** Running the fix again *)

Section Rerun.
Context {num : Type} {numpy : NumPy num} {wrf_python : @WrfPython num}.
Implicit Types (s : @nbstate num) (c : @NcData num) (d : @Dataset num).
Implicit Types (ds : @XrDataset num).

Lemma cell17_again s s' :
  cell17 s = (Ok (), s') → cell17 s' = (Raise KeyError, s').
Proof.
  unfold cell17. intros ([] & s1 & Hfix & Hw)%bind_Ok.
  apply fix_attributes_Ok in Hfix as (ds & ds' & Hds & Hall & ->).
  apply write_netcdf_Ok in Hw as (ds'' & Hds'' & Hw & _ & Hg).
  simpl in Hds'', Hg. rewrite lookup_insert_eq in Hds''. injection Hds'' as <-.
  assert (globals s' !! "ds" = Some (VXr ds')) as Hs' by (by rewrite Hg, lookup_insert_eq).
  destruct (fix_all_spec _ _ _ NoDup_my_vars Hall) as (_ & _ & Hin).
  destruct (Hin "SPDUV10MEAN") as (v & p & Hv & Hp & _ & Hdv & Hco).
  { unfold my_vars. set_solver. }
  set (a := fix_attrs p (xr_attrs v)) in *.
  assert (xr_variables ds' !! "SPDUV10MEAN" = Some (with_attrs a v)) as Hv'.
  { unfold xr_variables in *. rewrite lookup_union, Hdv, Hco.
    rewrite lookup_union in Hv.
    destruct (coords ds !! "SPDUV10MEAN"), (data_vars ds !! "SPDUV10MEAN");
      cbv [union option_union union_with option_union_with] in *; by simplify_eq/=. }
  assert (a !! "projection" = Some (AStr (py_str p))) as Hpa.
  { unfold a, fix_attrs. by rewrite lookup_delete_ne, lookup_insert_eq. }
  assert (a !! "coordinates" = None) as Hca.
  { unfold a, fix_attrs. by rewrite lookup_delete_eq. }
  assert (stringify_projection "SPDUV10MEAN" ds' = Ok ds') as Hstr.
  { unfold stringify_projection, xr_getitem, getitem. rewrite Hv'. simpl.
    rewrite Hpa. simpl. f_equal. rewrite insert_id by done.
    unfold xr_set_attrs. destruct ds' as [dv cs ga]. simpl in *. f_equal.
    - apply map_eq. intros k. destruct (decide ("SPDUV10MEAN" = k)) as [<-|Hne].
      + rewrite lookup_alter_eq, Hdv. by destruct (data_vars ds !! "SPDUV10MEAN").
      + by rewrite lookup_alter_ne.
    - apply map_eq. intros k. destruct (decide ("SPDUV10MEAN" = k)) as [<-|Hne].
      + rewrite lookup_alter_eq, Hco. by destruct (coords ds !! "SPDUV10MEAN").
      + by rewrite lookup_alter_ne. }
  assert (pop_coordinates "SPDUV10MEAN" ds' = Raise KeyError) as Hpop.
  { unfold pop_coordinates, xr_getitem, getitem. rewrite Hv'. simpl. by rewrite Hca. }
  unfold fix_attributes, my_vars, update_xr, load_xr, load. simpl.
  cbv [mbind M_bind mret M_ret lift store]. simpl. rewrite Hs'. simpl.
  rewrite Hstr. simpl. rewrite lookup_insert_eq. simpl. rewrite Hpop. simpl.
  f_equal. destruct s' as [dk so gl]. simpl in *. f_equal. by apply insert_id.
Qed.

(** X3.  The fix loop cannot be run twice: when cell 17 has returned, running
    it again raises KeyError, as the [coordinates] attribute is gone; the
    disk and the dataset bound to [ds] are what they were, so [test.nc] is
    not written a second time. *)
Theorem fix_runs_once s s' :
  cell17 s = (Ok (), s') →
  (cell17 s').1 = Raise KeyError ∧
  disk (cell17 s').2 = disk s' ∧
  globals (cell17 s').2 !! "ds" = globals s' !! "ds".
Proof. intros Hr. by rewrite (cell17_again _ _ Hr). Qed.

End Rerun.

(** ** The metadata of the grids *)

Section Grids.
Context {num : Type} {numpy : NumPy num} {wrf_python : @WrfPython num}.
Implicit Types (s : @nbstate num) (c : @NcData num) (d : @Dataset num).
Implicit Types (w : @NcVariable num).

(** What cell 8 leaves for both grids, with the variables written out. *)
Lemma cell8_Ok s s' :
  cell8 s = (Ok (), s') →
  ∃ cf dst,
    disk s !! coord_path = Some cf ∧
    globals s' !! "dst" = Some (VDataset dst) ∧
    ∀ name, name ∈ ["XLAT"; "XLONG"] →
      ∃ v T inner shape_c,
        nc_variables cf !! name = Some v ∧
        shape_of (nc_dimensions cf) (dimensions v) = Ok shape_c ∧
        tail shape_c = inner ∧ hd 0 shape_c ≠ 0 ∧
        holds name
          {| datatype := datatype v; dimensions := dimensions v;
             var_data :=
               cast_to (datatype v)
                 {| nd_dtype := Float64; nd_shape := T :: inner;
                    nd_flat := mjoin (replicate T (cast_to Float64
                      {| nd_dtype := datatype v; nd_shape := inner;
                         nd_flat := index0 shape_c (var_data v) 0 |})) |};
             var_ncattrs := var_ncattrs v |}
          (T :: inner) (ds_data dst).
Proof.
  intros Hr. unfold cell8 in Hr.
  apply bind_Ok in Hr as (d0 & s0 & (cf & Hcf & -> & ->)%Dataset_r_Ok & Hr).
  apply bind_Ok in Hr as (? & s1 & Hs1%store_Ok & Hr). subst s1.
  simpl in Hr.
  apply bind_Ok in Hr as ([] & s2 & H1 & Hr).
  apply bind_Ok in Hr as ([] & s3 & H2 & Hr).
  apply ret_Ok in Hr as [_ <-].
  pose proof H1 as H1'. pose proof H2 as H2'.
  eapply copy_coordinate_Ok in H1' as
    (d1 & v1 & T1 & inner1 & sc1 & Hd1 & Hv1 & Hsc1 & Ht1 & Hh1 & Hold1 & Hg1);
    [|by simpl; rewrite lookup_insert_eq].
  eapply copy_coordinate_Ok in H2' as
    (d2 & v2 & T2 & inner2 & sc2 & Hd2 & Hv2 & Hsc2 & Ht2 & Hh2 & Hold2 & Hg2);
    [|by rewrite Hg1; [simpl; rewrite lookup_insert_eq|done..]].
  simpl in Hv1, Hsc1, Hv2, Hsc2.
  exists cf, d2. split_and!; [done..|]. intros name Hname.
  match type of Hold1 with holds _ ?w _ _ => set (w1 := w) in * end.
  assert (holds "XLAT" w1 (T1 :: inner1) (ds_data d2)) as Hnew1.
  { assert (dst_inv (holds "XLAT" w1 (T1 :: inner1)) s2) as Hinv.
    { intros d Hd. rewrite Hd1 in Hd. by injection Hd as <-. }
    assert (stable ["XLONG"] (holds "XLAT" w1 (T1 :: inner1))) as Hst.
    { apply holds_stable. set_solver. }
    assert ("XLONG" ∈ ["XLONG"]) as Hin by set_solver.
    destruct (dst_copy_coordinate _ _ _ Hst Hin s2 _ _ Hinv H2) as [Hinv' _].
    by apply Hinv'. }
  apply elem_of_cons in Hname as [->|Hname];
    [|apply list_elem_of_singleton in Hname as ->].
  - by exists v1, T1, inner1, sc1.
  - by exists v2, T2, inner2, sc2.
Qed.

(** X4.  When cell 8 returns, XLAT and XLONG of [dst] have the type, the
    dimension names and the attributes of the variable of that name in the
    coordinate file. *)
Theorem grids_keep_metadata s s' :
  cell8 s = (Ok (), s') →
  ∃ cf dst,
    disk s !! coord_path = Some cf ∧
    globals s' !! "dst" = Some (VDataset dst) ∧
    ∀ name, name ∈ ["XLAT"; "XLONG"] →
      ∃ v w,
        nc_variables cf !! name = Some v ∧
        nc_variables (ds_data dst) !! name = Some w ∧
        datatype w = datatype v ∧ dimensions w = dimensions v ∧
        var_ncattrs w = var_ncattrs v.
Proof.
  intros (cf & dst & Hcf & Hdst & Hall)%cell8_Ok. exists cf, dst.
  split_and!; [done..|]. intros name Hn.
  destruct (Hall name Hn) as (v & T & inner & sc & Hv & _ & _ & _ & [Hw _]).
  eexists v, _. split_and!; [done|exact Hw|done..].
Qed.

End Grids.

(** ** The axis variables *)

Section AxisVariables.
Context {num : Type} {numpy : NumPy num} {wrf_python : @WrfPython num}.
Implicit Types (s : @nbstate num) (c : @NcData num) (d : @Dataset num).
Implicit Types (w : @NcVariable num).

Lemma add_axis_Ok name points axis s s' :
  points ≠ "dst" →
  add_axis name points axis s = (Ok (), s') →
  ∃ d p d',
    globals s !! "dst" = Some (VDataset d) ∧
    globals s !! points = Some (VArray p) ∧
    nc_variables (ds_data d) !! name = None ∧
    s' = set_global "dst" (VDataset d') s ∧
    nc_variables (ds_data d') !! name
    = Some {| datatype := nd_dtype p; dimensions := [name];
              var_data := nd_flat p;
              var_ncattrs := <["units" := AStr "m"]> {["axis" := AStr axis]} |} ∧
    ∀ k, k ≠ name → nc_variables (ds_data d') !! k = nc_variables (ds_data d) !! k.
Proof.
  intros Hp Hr. unfold add_axis in Hr.
  repeat (inv1; subst; cbn [disk stdout globals] in * ).
  repeat match goal with
  | H : <[_ := _]> _ !! "dst" = Some _ |- _ => rewrite lookup_insert_eq in H
  | H : <[ "dst" := _]> _ !! points = Some _ |- _ =>
      rewrite lookup_insert_ne in H by done
  end.
  simplify_eq. simpl in *.
  repeat match goal with
  | H : createVariable _ _ _ _ = Ok _ |- _ =>
      apply createVariable_Ok in H as (? & ? & ? & ?)
  | H : assign_all _ _ _ = Ok _ |- _ =>
      apply assign_all_Ok in H as (? & ? & ? & ? & ? & ?)
  | H : var_setncatts _ _ _ = Ok _ |- _ =>
      apply var_setncatts_Ok in H as (? & ? & ? & ?)
  end.
  subst. simpl in *. rewrite !lookup_insert_eq in *. simplify_eq. simpl in *.
  eexists _, _, _. split_and!; [done|done|done| | |].
  - unfold set_global. simpl. f_equal. by rewrite !insert_insert_eq.
  - simpl. rewrite lookup_insert_eq. unfold cast_to. simpl.
    rewrite decide_True by done. by rewrite (right_id_L ∅ (∪)).
  - intros k Hk. simpl. by rewrite !lookup_insert_ne.
Qed.

(** X5.  When cell 10 returns, the variables west_east and south_north of
    [dst] are float32 variables over the dimension of their name; they hold
    the points bound to [west_east_points] and [south_north_points], and
    their attributes are units = m and axis = x, respectively axis = y. *)
Theorem axis_variables_stored s s' :
  cell10 s = (Ok (), s') →
  ∃ dst we sn,
    globals s' !! "dst" = Some (VDataset dst) ∧
    globals s' !! "west_east_points" = Some (VArray we) ∧
    globals s' !! "south_north_points" = Some (VArray sn) ∧
    nc_variables (ds_data dst) !! "west_east"
    = Some {| datatype := Float32; dimensions := ["west_east"];
              var_data := nd_flat we;
              var_ncattrs := <["units" := AStr "m"]> {["axis" := AStr "x"]} |} ∧
    nc_variables (ds_data dst) !! "south_north"
    = Some {| datatype := Float32; dimensions := ["south_north"];
              var_data := nd_flat sn;
              var_ncattrs := <["units" := AStr "m"]> {["axis" := AStr "y"]} |}.
Proof.
  unfold cell10. intros Hr.
  repeat (inv2; subst; cbn [disk stdout globals] in *; simplify_map_eq).
  repeat match goal with u : () |- _ => destruct u end.
  repeat match goal with
  | H : add_axis _ _ _ _ = (Ok _, _) |- _ =>
      apply add_axis_Ok in H as (? & ? & ? & ? & ? & ? & ? & ? & ?); [|done]
  end.
  subst. cbn [disk stdout globals set_global] in *. simplify_map_eq.
  eexists _, _, _. split_and!; [done..| |].
  - done.
  - match goal with H : ∀ k, k ≠ "west_east" → _ |- _ => rewrite H by done end.
    done.
Qed.

End AxisVariables.

(** ** From the files to the merged dataset *)

Section EndToEnd.
Context {num : Type} {numpy : NumPy num} {wrf_python : @WrfPython num}.
Implicit Types (s : @nbstate num) (c : @NcData num) (d : @Dataset num).
Implicit Types (w : @NcVariable num) (ds : @XrDataset num).

Lemma cell13_coords s s' :
  cell13 s = (Ok (), s') →
  ∃ dst ds xlong xlat,
    globals s !! "dst" = Some (VDataset dst) ∧
    globals s' !! "ds" = Some (VXr ds) ∧
    latlon_coord (ds_data dst) "XLONG" = Ok xlong ∧
    latlon_coord (ds_data dst) "XLAT" = Ok xlat ∧
    coords ds !! "XLONG" = Some xlong ∧ coords ds !! "XLAT" = Some xlat.
Proof.
  intros (dst & das & ds & Hdst & HF & Hm & ->)%cell13_Ok.
  unfold my_vars in HF.
  apply Forall2_cons_inv_l in HF as (da1 & das1 & H1 & HF & ->).
  apply getvar_Ok in H1 as (w1 & a1 & proj & xlong & xlat & times & Hw1 & Ha1
                            & Hd1 & Hn1 & Hp & Hx & Hy & Ht & ->).
  apply xr_merge_Ok in Hm as (Hc & _). simpl in Hc.
  rewrite (left_id_L ∅ (∪)) in Hc.
  exists dst, ds, xlong, xlat. split_and!; try done.
  - simpl. by rewrite lookup_insert_eq.
  - rewrite Hc. by rewrite lookup_insert_eq.
  - rewrite Hc. rewrite lookup_insert_ne by done. by rewrite lookup_insert_eq.
Qed.

Lemma latlon_of_held name w T inner c x :
  holds name w (T :: inner) c → latlon_coord c name = Ok x →
  T ≠ 0 ∧
  x = {| xr_dims := ["south_north"; "west_east"];
         xr_values := {| nd_dtype := datatype w; nd_shape := inner;
                         nd_flat := index0 (T :: inner) (var_data w) 0 |};
         xr_attrs := ∅ |}.
Proof.
  intros [Hw Hs]. unfold latlon_coord, getitem. rewrite Hw. simpl. rewrite Hs. simpl.
  case_decide as Hd; [|done]. destruct T as [|T]; [done|].
  case_decide; [|done]. intros [= <-]. split; [done|]. by rewrite Hd.
Qed.

Lemma filled_slice c name (v : @NcVariable num) shape_c T inner t :
  well_formed c → exact_in_float64 (datatype v) (var_data v) →
  nc_variables c !! name = Some v →
  shape_of (nc_dimensions c) (dimensions v) = Ok shape_c →
  tail shape_c = inner → hd 0 shape_c ≠ 0 → t < T →
  index0 (T :: inner) (cast_to (datatype v)
    {| nd_dtype := Float64; nd_shape := T :: inner;
       nd_flat := mjoin (replicate T (cast_to Float64
         {| nd_dtype := datatype v; nd_shape := inner;
            nd_flat := index0 shape_c (var_data v) 0 |})) |}) t
  = index0 shape_c (var_data v) 0.
Proof.
  intros Hwf Hex Hv Hsc Htl Hhd Ht.
  rewrite filled_data by (by apply exact_in_slice).
  destruct shape_c as [|Tc inner']; simpl in *; [done|]. subst inner'.
  apply (index0_replicate _ _ T inner); [done| |done].
  by eapply (first_slice_length c name).
Qed.

(** X6.  From the coordinate file to the merged dataset.  When cells 8 to 13
    return, on a well-formed coordinate file in which the elements of XLAT
    and XLONG pass through float64 unchanged, as the values of the
    variable's type do, the coordinates XLAT and XLONG of [ds] are over
    (south_north, west_east), hold the first time slice of the coordinate
    file's variable, in its type, and have no attributes. *)
Theorem coordinates_from_coordinate_file s s' cf :
  (cell8;; cell9;; cell10;; cell11;; cell13) s = (Ok (), s') →
  disk s !! coord_path = Some cf →
  well_formed cf →
  (∀ name v, name ∈ ["XLAT"; "XLONG"] → nc_variables cf !! name = Some v →
     exact_in_float64 (datatype v) (var_data v)) →
  ∃ ds, globals s' !! "ds" = Some (VXr ds) ∧
    ∀ name, name ∈ ["XLAT"; "XLONG"] →
      ∃ v shape_c,
        nc_variables cf !! name = Some v ∧
        shape_of (nc_dimensions cf) (dimensions v) = Ok shape_c ∧
        coords ds !! name
        = Some {| xr_dims := ["south_north"; "west_east"];
                  xr_values := {| nd_dtype := datatype v; nd_shape := tail shape_c;
                                  nd_flat := index0 shape_c (var_data v) 0 |};
                  xr_attrs := ∅ |}.
Proof.
  intros Hr Hcf Hwf Hex.
  apply bind_Ok in Hr as ([] & s8 & H8 & Hr).
  apply bind_Ok in Hr as ([] & s9 & H9 & Hr).
  apply bind_Ok in Hr as ([] & s10 & H10 & Hr).
  apply bind_Ok in Hr as ([] & s11 & H11 & H13).
  pose proof H8 as (cf' & d8 & Hcf' & Hd8 & Hall)%cell8_Ok.
  rewrite Hcf in Hcf'. injection Hcf' as <-.
  apply cell13_coords in H13
    as (dst & ds & xlong & xlat & Hdst & Hds & Hx & Hy & Hcx & Hcy).
  assert (∀ name w shape, name ∈ ["XLAT"; "XLONG"] →
            holds name w shape (ds_data d8) → holds name w shape (ds_data dst))
    as Hkeep.
  { intros name w shape Hn Hh.
    set (names := ["south_north"; "west_east"] ++ my_vars).
    assert (stable names (holds name w shape)) as Hst.
    { apply holds_stable. unfold names, my_vars.
      repeat (apply elem_of_cons in Hn as [->|Hn]); set_solver. }
    assert (dst_inv (holds name w shape) s11) as Hinv; [|by apply Hinv].
    eapply (preserved _ cell11); [| |done].
    { apply preserves_for_M. intros n Hin. eapply dst_copy_variable; [done|].
      unfold names. set_solver. }
    eapply (preserved _ cell10); [eapply dst_cell10; [done|..]| |done];
      [unfold names; set_solver..|].
    eapply (preserved _ cell9); [apply dst_cell9| |done].
    intros d Hd. rewrite Hd8 in Hd. by injection Hd as <-. }
  exists ds. split; [done|]. intros name Hn.
  destruct (Hall name Hn) as (v & T & inner & sc & Hv & Hsc & Htl & Hhd & Hh).
  apply (Hkeep name) in Hh; [|done]. exists v, sc. split_and!; [done..|].
  assert (∀ x, latlon_coord (ds_data dst) name = Ok x → coords ds !! name = Some x →
    coords ds !! name
    = Some {| xr_dims := ["south_north"; "west_east"];
              xr_values := {| nd_dtype := datatype v; nd_shape := tail sc;
                              nd_flat := index0 sc (var_data v) 0 |};
              xr_attrs := ∅ |}) as Hfin.
  { intros x Hlx ->. f_equal.
    destruct (latlon_of_held _ _ _ _ _ _ Hh Hlx) as [HT ->]. simpl.
    rewrite Htl. do 2 f_equal.
    apply (filled_slice cf name); try done; [by eapply Hex|lia]. }
  apply elem_of_cons in Hn as [->|Hn];
    [|apply list_elem_of_singleton in Hn as ->]; eauto.
Qed.

(** X7.  From the source file to the merged dataset.  When cells 6 to 13
    return, every field of [my_vars] in [ds] is over (Time, south_north,
    west_east), holds the data of the source file's variable, and has that
    variable's attributes and a [projection] object.  (A field with an axis
    of extent 1 is one for which [getvar] does not return.) *)
Theorem fields_from_source s s' :
  (cell6;; cell7;; cell8;; cell9;; cell10;; cell11;; cell13) s = (Ok (), s') →
  ∃ src ds,
    disk s !! src_path = Some src ∧
    globals s' !! "ds" = Some (VXr ds) ∧
    ∀ name, name ∈ my_vars →
      ∃ w a proj,
        nc_variables src !! name = Some w ∧
        read_all name src = Ok a ∧
        data_vars ds !! name
        = Some {| xr_dims := wrf_dims; xr_values := a;
                  xr_attrs := <["projection" := AObj proj]> (var_ncattrs w) |}.
Proof.
  intros Hr.
  apply bind_Ok in Hr as ([] & s6 & H6 & Hr).
  apply bind_Ok in Hr as ([] & s7 & H7 & Hr).
  apply bind_Ok in Hr as ([] & s8 & H8 & Hr).
  apply bind_Ok in Hr as ([] & s9 & H9 & Hr).
  apply bind_Ok in Hr as ([] & s10 & H10 & Hr).
  apply bind_Ok in Hr as ([] & s11 & H11 & H13).
  apply cell6_Ok in H6
    as (src & dsrc & d6 & Hsrc & Hb6 & <- & _).
  destruct (copy_variable_copied "src" _ _ _ _ ltac:(done) H7 Hb6)
    as (d7 & Hd7 & Hc7 & Hfr7).
  assert (bound "src" (VDataset dsrc) s10) as Hb10.
  { eapply (preserved _ cell10); [apply bound_src_cell10| |done].
    eapply (preserved _ cell9); [apply bound_src_cell9| |done].
    eapply (preserved _ cell8); [apply bound_src_cell8| |done].
    unfold bound. by rewrite Hfr7. }
  destruct (copy_loop_copied my_vars NoDup_my_vars _ _ _ H11 Hb10) as (Hall & _).
  apply cell13_merged in H13 as (dst & ds & Hdst & Hds & Hm).
  destruct Hm as (_ & _ & _ & _ & Hvars & _).
  exists (ds_data dsrc), ds. split_and!; [done..|]. intros name Hn.
  destruct (Hvars name Hn) as (w & a & proj & Hw & Ha & Hv).
  destruct (Hall name Hn dst Hdst) as (w' & a' & Hw' & Hwd & Ha' & Had).
  rewrite Hw in Hwd. injection Hwd as <-. rewrite Ha in Had. injection Had as <-.
  by exists w, a, proj.
Qed.

End EndToEnd.

(** ** The scalars of cell 9 *)

Section Scalars.
Context {num : Type} {numpy : NumPy num} {wrf_python : @WrfPython num}.
Implicit Types (s : @nbstate num) (c : @NcData num) (d : @Dataset num).

Lemma cell9_scalars s s9 :
  cell9 s = (Ok (), s9) →
  ∃ d, globals s !! "dst" = Some (VDataset d) ∧
    (∀ x attr,
       (x, attr) ∈ [("dt", "DT"); ("dx", "DX"); ("dy", "DY");
                    ("cen_lat", "CEN_LAT"); ("cen_lon", "CEN_LON");
                    ("truelat1", "TRUELAT1"); ("truelat2", "TRUELAT2");
                    ("STAND_LON", "STAND_LON");
                    ("pole_lat", "POLE_LAT"); ("pole_lon", "POLE_LON")] →
       ∃ a, nc_ncattrs (ds_data d) !! attr = Some a ∧
            globals s9 !! x = Some (VAttr a)) ∧
    (∀ x k, (x, k) ∈ [("nx", "west_east"); ("ny", "south_north")] →
       ∃ dim, nc_dimensions (ds_data d) !! k = Some dim ∧
              globals s9 !! x = Some (VInt (dim_size dim))).
Proof.
  unfold cell9. intros Hr. inv_run2. simplify_map_eq.
  eexists. split; [done|]. split.
  - intros y attr Hin.
    repeat (apply elem_of_cons in Hin as [[= -> ->]|Hin];
      [eexists; split; [eassumption|by simplify_map_eq]|]).
    by apply elem_of_nil in Hin.
  - intros y k Hin.
    repeat (apply elem_of_cons in Hin as [[= -> ->]|Hin];
      [eexists; split; [eassumption|by simplify_map_eq]|]).
    by apply elem_of_nil in Hin.
Qed.

(** X8.  The scalars of cell 9 come from the source file.  When cells 6 to 9
    return, each of [dt], [dx], [dy] and the seven names after them is bound
    to the global attribute of the source file it is read from, and [nx] and
    [ny] are bound to numbers, which are the lengths of west_east and
    south_north in the source file when these are fixed dimensions. *)
Theorem scalars_from_source s s' :
  (cell6;; cell7;; cell8;; cell9) s = (Ok (), s') →
  ∃ src, disk s !! src_path = Some src ∧
    (∀ x attr,
       (x, attr) ∈ [("dt", "DT"); ("dx", "DX"); ("dy", "DY");
                    ("cen_lat", "CEN_LAT"); ("cen_lon", "CEN_LON");
                    ("truelat1", "TRUELAT1"); ("truelat2", "TRUELAT2");
                    ("STAND_LON", "STAND_LON");
                    ("pole_lat", "POLE_LAT"); ("pole_lon", "POLE_LON")] →
       ∃ a, nc_ncattrs src !! attr = Some a ∧
            globals s' !! x = Some (VAttr a)) ∧
    (∀ x k, (x, k) ∈ [("nx", "west_east"); ("ny", "south_north")] →
       ∃ n, globals s' !! x = Some (VInt n) ∧
         ∀ dimension, nc_dimensions src !! k = Some dimension →
           isunlimited dimension = false → n = dim_size dimension).
Proof.
  intros Hr.
  apply bind_Ok in Hr as ([] & s6 & H6 & Hr).
  apply bind_Ok in Hr as ([] & s7 & H7 & Hr).
  apply bind_Ok in Hr as ([] & s8 & H8 & H9).
  apply cell6_Ok in H6
    as (src & dsrc & d6 & Hsrc & Hb6 & <- & Hopen & Hd6 & Ho6 & Hw6 & Ha6 & Hv6 & Hdims6).
  set (names := ["Times"; "XLAT"; "XLONG"]).
  set (Q := λ c : @NcData num,
         nc_ncattrs c = nc_ncattrs (ds_data dsrc) ∧ dims_copied (ds_data dsrc) c).
  assert (stable names Q) as Hst.
  { intros n c c' Hn [HQ2 HQ3] Hstep. split.
    - by eapply (ncattrs_stable _ names).
    - by eapply (dims_copied_stable _ names). }
  assert (dst_inv Q s8) as HQ.
  { eapply (preserved _ cell8); [eapply dst_cell8; [done|..]| |done];
      [unfold names; set_solver..|].
    eapply (preserved _ cell7); [|  |done].
    { eapply dst_copy_variable; [done|]. unfold names. set_solver. }
    intros d Hd. rewrite Hd6 in Hd. injection Hd as <-. by split. }
  apply cell9_scalars in H9 as (d & Hd & Hat & Hdim).
  destruct (HQ d Hd) as [Ha Hdc].
  exists (ds_data dsrc). split_and!; [done| |].
  - intros x attr Hin. destruct (Hat x attr Hin) as (a & Hl & Hg).
    exists a. by rewrite <- Ha.
  - intros x k Hin. destruct (Hdim x k Hin) as (dim & Hl & Hg).
    exists (dim_size dim). split; [done|]. intros dimension Hk Hfix.
    destruct (Hdc k dimension Hk) as (dim' & Hl' & _ & Hsize).
    rewrite Hl in Hl'. injection Hl' as <-. by apply Hsize.
Qed.

End Scalars.

(** ** Before the fix nothing is written *)

Section Quiet.
Context {num : Type} {numpy : NumPy num} {wrf_python : @WrfPython num}.
Implicit Types (s : @nbstate num) (c : @NcData num) (d : @Dataset num).
Implicit Types (files : gmap string (@NcData num)) (v : @pyvalue num).

Lemma bind_Raise {A B} (m : M A) (f : A → M B) s e s' :
  (m ≫= f) s = (Raise e, s') ↔
  m s = (Raise e, s') ∨ ∃ a s1, m s = (Ok a, s1) ∧ f a s1 = (Raise e, s').
Proof.
  unfold mbind, M_bind. destruct (m s) as [[a|e'] s1]; naive_solver.
Qed.

Lemma quiet_store files x v :
  value_ok v → x ≠ "ds" → preserves (quiet files) (store x v) (λ _, True).
Proof.
  intros Hv Hx. apply preserves_store. intros s (Hd & Hg & Hds).
  split_and!; [done| |]; simpl.
  - intros y d. destruct (decide (x = y)) as [->|].
    + rewrite lookup_insert_eq. intros [= ->]. done.
    + rewrite lookup_insert_ne by done. apply Hg.
  - by rewrite lookup_insert_ne.
Qed.

Lemma quiet_load_dataset files x :
  preserves (quiet files) (load_dataset x) flags_ok.
Proof. apply preserves_load_dataset. intros s d (_ & Hg & _). apply Hg. Qed.

Lemma quiet_update_dataset files x f :
  x ≠ "ds" → preserves (quiet files) (update_dataset x (writing f)) (λ _, True).
Proof.
  intros Hx. unfold update_dataset. eapply preserves_bind; [apply quiet_load_dataset|].
  intros d Hd. eapply preserves_bind.
  - apply (preserves_lift _ _ flags_ok). intros d' (_ & _ & c' & _ & ->)%writing_Ok. done.
  - intros d' Hd'. by apply quiet_store.
Qed.

Lemma quiet_Dataset_r files p : preserves (quiet files) (Dataset_r p) flags_ok.
Proof.
  intros s r s' HI. unfold Dataset_r. destruct (disk s !! p); intros [= <- <-];
    (split; [done|]); intros a [= <-]. done.
Qed.

Lemma quiet_Dataset_w files p : preserves (quiet files) (Dataset_w p true) flags_ok.
Proof. intros s r s' HI [= <- <-]. split; [done|]. intros a [= <-]. done. Qed.

Lemma quiet_close files x :
  x ≠ "ds" → preserves (quiet files) (close x) (λ _, True).
Proof.
  intros Hx. unfold close. eapply preserves_bind; [apply quiet_load_dataset|].
  intros d Hd. destruct (ds_isopen d); [|by apply preserves_lift].
  apply preserves_modify. intros s (Hdisk & Hg & Hds). split_and!; simpl.
  - destruct (ds_writable d) eqn:Ew, (ds_diskless d) eqn:El; simpl; try done.
    specialize (Hd Ew). congruence.
  - intros y d'. destruct (decide (x = y)) as [->|].
    + rewrite lookup_insert_eq. intros [= <-]. done.
    + rewrite lookup_insert_ne by done. apply Hg.
  - by rewrite lookup_insert_ne.
Qed.

Lemma quiet_print files l : preserves (quiet files) (print l) (λ _, True).
Proof. apply preserves_print. intros s (? & ? & ?). done. Qed.

(** The first write: [ds] is unbound, or a dataset that is refused. *)
Lemma quiet_cell15 files s :
  quiet files s →
  cell15 s = (Raise NameError, s) ∨ cell15 s = (Raise TypeError, s).
Proof.
  intros (Hd & Hg & Hds). unfold cell15.
  destruct (globals s !! "ds") as [v|] eqn:E.
  - right. destruct (Hds v eq_refl) as (ds & -> & Hser).
    rewrite (write_netcdf_run _ _ _ ds) by done.
    rewrite to_netcdf_unserializable by done. by destruct s.
  - left. unfold write_netcdf, load_xr, load. cbv [mbind M_bind]. by rewrite E.
Qed.

Ltac quiet_leaf :=
  first
    [ apply quiet_update_dataset; done
    | apply quiet_store; [first [done | by case_match] | done]
    | apply quiet_close; done
    | apply quiet_print
    | apply preserves_load_array
    | apply (preserves_ret _ _ (λ _, True)); done
    | apply (preserves_lift _ _ (λ _, True)); done
    | eapply preserves_weaken; [apply quiet_load_dataset|done]
    | eapply preserves_weaken; [apply quiet_Dataset_r|done]
    | eapply preserves_weaken; [apply quiet_Dataset_w|done]
    | apply (preserves_load_xr _ _ (λ _, True)); done
    | apply (preserves_load _ _ (λ _, True)); done ].

Ltac quiet_step :=
  lazymatch goal with
  | |- preserves _ (_ ≫= _) _ =>
      eapply preserves_bind; [quiet_step | intros ? ?; quiet_step]
  | |- preserves _ (for_M _ _) _ => apply preserves_for_M; intros ? ?; quiet_step
  | |- preserves _ (try_except _ _ _) _ => apply preserves_try_except; quiet_step
  | |- preserves _ (let '(_, _) := ?p in _) _ => destruct p; quiet_step
  | |- preserves _ (match ?v with VInt _ => _ | _ => _ end) _ => destruct v; quiet_step
  | |- preserves _ (match ?v with ANum _ => _ | _ => _ end) _ => destruct v; quiet_step
  | |- _ => first [ apply quiet_load_dataset | apply quiet_Dataset_r
                  | apply quiet_Dataset_w | quiet_leaf ]
  end.

Lemma quiet_copy_variable files from name :
  preserves (quiet files) (copy_variable from name) (λ _, True).
Proof. unfold copy_variable. quiet_step. Qed.

Lemma merged_unserializable c (ds : @XrDataset num) :
  merged_from c ds → ¬ attrs_serializable ds.
Proof.
  intros Hm [_ Hs]. pose proof Hm as (_ & _ & _ & _ & Hvars & _).
  destruct (Hvars "SPDUV10MEAN") as (w & a & proj & _ & _ & Hv).
  { unfold my_vars. set_solver. }
  assert (xr_variables ds !! "SPDUV10MEAN" = Some
    {| xr_dims := wrf_dims; xr_values := a;
       xr_attrs := <["projection" := AObj proj]> (var_ncattrs w) |}) as Hx.
  { apply lookup_union_Some_raw. right. split; [|done].
    eapply my_vars_no_coords; [done|]. unfold my_vars. set_solver. }
  specialize (Hs _ _ Hx "projection" (AObj proj)). simpl in Hs.
  rewrite lookup_insert_eq in Hs. by specialize (Hs eq_refl).
Qed.

Lemma quiet_cell13 files : preserves (quiet files) cell13 (λ _, True).
Proof.
  intros s r s' HK Hr. split; [|done].
  destruct r as [[]|e].
  - pose proof Hr as (dst & das & ds & Hdst & HF & Hm & ->)%cell13_Ok.
    apply cell13_merged in Hr as (dst' & ds' & _ & Hds' & Hmer).
    simpl in Hds'. rewrite lookup_insert_eq in Hds'. injection Hds' as <-.
    destruct HK as (Hd & Hg & Hds). split_and!; simpl.
    + done.
    + intros y d Hy.
      apply lookup_insert_Some in Hy as [[_ Hy]|[_ Hy]]; [done|].
      apply lookup_insert_Some in Hy as [[_ Hy]|[_ Hy]]; [done|]. by eapply Hg.
    + rewrite lookup_insert_eq. intros v [= <-]. exists ds. split; [done|].
      by eapply merged_unserializable.
  - unfold cell13 in Hr.
    apply bind_Raise in Hr as [Hr|([] & s1 & H1 & Hr)]; [done|].
    assert (quiet files s1) as HK1.
    { eapply (preserved _ (store "da_list" (VDataArrays []))); [|done|done].
      by apply quiet_store. }
    apply bind_Raise in Hr as [Hr|([] & s2 & H2 & Hr)].
    { eapply preserved; [|exact HK1|exact Hr]. unfold load_da_list. quiet_step. }
    assert (quiet files s2) as HK2.
    { eapply preserved; [|exact HK1|exact H2]. unfold load_da_list. quiet_step. }
    apply bind_Raise in Hr as [Hr|(l & s3 & H3 & Hr)].
    { eapply preserved; [|exact HK2|exact Hr]. unfold load_da_list. quiet_step. }
    assert (quiet files s3) as HK3.
    { eapply preserved; [|exact HK2|exact H3]. unfold load_da_list. quiet_step. }
    apply bind_Raise in Hr as [Hr|(ds & s4 & H4 & Hr)]; [|done].
    unfold lift in Hr. by injection Hr as _ <-.
Qed.

Lemma quiet_cells files (cell : M unit) :
  cell ∈ take 11 cells → preserves (quiet files) cell (λ _, True).
Proof.
  unfold cells. cbn [take]. rewrite !elem_of_cons, elem_of_nil.
  intros [->|[->|[->|[->|[->|[->|[->|[->|[->|[->|[->|[]]]]]]]]]]]].
  - unfold cell3. quiet_step.
  - unfold cell6, close_dst, close_dst_body. quiet_step.
  - apply quiet_copy_variable.
  - unfold cell8, copy_coordinate. quiet_step.
  - unfold cell9, dimension_size, getattr. quiet_step.
  - unfold cell10, add_axis, load_int, load_num, load_tuple. quiet_step.
  - apply preserves_for_M. intros ??. apply quiet_copy_variable.
  - apply quiet_cell13.
  - unfold cell14, close_dst, close_dst_body. quiet_step.
  - intros s r s' HK Hr. destruct (quiet_cell15 _ _ HK) as [E|E];
      rewrite E in Hr; by injection Hr as <- <-.
  - unfold cell16. quiet_step.
Qed.

Lemma run_cells_keeps (I : @nbstate num → Prop) (cs : list (M unit)) s :
  (∀ cell, cell ∈ cs → preserves I cell (λ _, True)) → I s → I (run_cells cs s).
Proof.
  revert s. induction cs as [|cell cs IH]; intros s Hcs HI; [done|].
  unfold run_cells. simpl. apply IH; [intros ??; apply Hcs; by right|].
  destruct (cell s) as [r s'] eqn:E. eapply (Hcs cell); [left|done|done].
Qed.

(** X9.  The first write never returns.  In a run of the cells from a fresh
    kernel, over any files, the disk is unchanged after each of the first
    eleven cells (up to cell 16), and cell 15 raises NameError or
    TypeError. *)
Theorem first_write_never_returns files :
  Forall (λ s, disk s = files) (trace (take 11 cells) (fresh files)) ∧
  (outcomes cells (fresh files) !! 9 = Some (Raise NameError) ∨
   outcomes cells (fresh files) !! 9 = Some (Raise TypeError)).
Proof.
  assert (quiet files (fresh files)) as H0.
  { split_and!; [done|..]; simpl; intros ?; by rewrite lookup_empty. }
  split.
  - eapply Forall_impl; [by apply (trace_Forall (quiet files)); [apply quiet_cells|]|].
    by intros s (? & _).
  - rewrite outcomes_lookup.
    change (cells !! 9) with (Some (cell15 : @M num unit)).
    cbn [fmap option_fmap option_map].
    assert (quiet files (run_cells (take 9 cells) (fresh files))) as HK.
    { apply run_cells_keeps; [|done]. intros cell Hc. apply quiet_cells.
      revert Hc. unfold cells. cbn [take]. rewrite !elem_of_cons. tauto. }
    destruct (quiet_cell15 _ _ HK) as [-> | ->]; eauto.
Qed.

End Quiet.

(** ** The whole run *)

Section Session.
Context {num : Type} {numpy : NumPy num} {wrf_python : @WrfPython num}.
Implicit Types (s : @nbstate num) (c : @NcData num) (d : @Dataset num).
Implicit Types (w : @NcVariable num) (ds : @XrDataset num).
Implicit Types (files : gmap string (@NcData num)).

Lemma written_reads_back c ds ds' path files files' :
  merged_from c ds → fix_all my_vars ds = Ok ds' →
  to_netcdf ds' path files = (Ok (), files') →
  open_dataset path files' = Ok ds'.
Proof.
  intros Hm Hfix (_ & file & Henc & ->)%to_netcdf_Ok.
  apply (open_written ds' file); [done|by eapply fixed_plain|].
  by rewrite lookup_insert_eq.
Qed.

Lemma fixed_field c ds ds' :
  merged_from c ds → fix_all my_vars ds = Ok ds' →
  ∃ v, xr_getitem ds' "SPDUV10MEAN" = Ok v.
Proof.
  intros Hm Hfix.
  destruct (fixed_merged _ _ _ Hm Hfix) as (_ & Hc & Hd & _).
  assert (is_Some (data_vars ds' !! "SPDUV10MEAN")) as [v Hv].
  { apply elem_of_dom. rewrite Hd. unfold my_vars. set_solver. }
  exists v. unfold xr_getitem, getitem.
  assert (xr_variables ds' !! "SPDUV10MEAN" = Some v) as ->; [|done].
  apply lookup_union_Some_raw. right. split; [|done]. rewrite Hc.
  eapply my_vars_no_coords; [done|]. unfold my_vars. set_solver.
Qed.

Lemma cell20_Ok_of s ds' :
  open_dataset "test.nc" (disk s) = Ok ds' →
  cell20 s = (Ok (), set_global "ds2" (VXr ds') s).
Proof.
  intros Hopen. unfold cell20, on_disk. cbv [mbind M_bind mret M_ret store]. simpl.
  by rewrite Hopen.
Qed.

Lemma cell21_Ok_of s ds' v :
  globals s !! "ds2" = Some (VXr ds') → xr_getitem ds' "SPDUV10MEAN" = Ok v →
  cell21 s = (Ok (), s).
Proof.
  intros Hg Hv. unfold cell21, load_xr, load, lift.
  cbv [mbind M_bind mret M_ret]. rewrite Hg. simpl. by rewrite Hv.
Qed.

(** X10.  Cell 20 reads back what cell 17 wrote.  Under the hypotheses of C5,
    in any state with the disk cell 17 left, cell 20 binds [ds2] to the very
    dataset that [ds] holds after the fix, and cell 21 then returns and
    changes nothing. *)
Theorem written_dataset_read_back s s13 s16 s17 s18 :
  cell13 s = (Ok (), s13) →
  globals s16 !! "ds" = globals s13 !! "ds" →
  cell17 s16 = (Ok (), s17) →
  disk s18 = disk s17 →
  ∃ ds', globals s17 !! "ds" = Some (VXr ds') ∧
    cell20 s18 = (Ok (), set_global "ds2" (VXr ds') s18) ∧
    cell21 (set_global "ds2" (VXr ds') s18)
    = (Ok (), set_global "ds2" (VXr ds') s18).
Proof.
  intros (dst & ds & Hdst & Hds & Hm)%cell13_merged H16 H17 H18.
  rewrite Hds in H16. unfold cell17 in H17.
  apply bind_Ok in H17 as ([] & s16' & Hfix & Hw).
  apply fix_attributes_Ok in Hfix as (ds0 & ds' & Hds0 & Hfix & ->).
  rewrite H16 in Hds0. injection Hds0 as <-.
  apply write_netcdf_Ok in Hw as (ds'' & Hds' & Hw & _ & Hg).
  simpl in Hds'. rewrite lookup_insert_eq in Hds'. injection Hds' as <-.
  simpl in Hw. exists ds'. split_and!.
  - rewrite Hg. simpl. by rewrite lookup_insert_eq.
  - apply cell20_Ok_of. rewrite H18. by eapply written_reads_back.
  - destruct (fixed_field _ _ _ Hm Hfix) as [v Hv].
    eapply cell21_Ok_of; [|done]. simpl. by rewrite lookup_insert_eq.
Qed.

Lemma fields_copied s1 s2 s3 s4 s5 s6 s7 :
  cell6 s1 = (Ok (), s2) → cell7 s2 = (Ok (), s3) → cell8 s3 = (Ok (), s4) →
  cell9 s4 = (Ok (), s5) → cell10 s5 = (Ok (), s6) → cell11 s6 = (Ok (), s7) →
  ∃ src, disk s1 !! src_path = Some src ∧
    ∀ name dst, name ∈ my_vars → globals s7 !! "dst" = Some (VDataset dst) →
      copied src name (ds_data dst) ∧ checked name (ds_data dst).
Proof.
  intros H6 H7 H8 H9 H10 H11.
  apply cell6_Ok in H6 as (src & dsrc & d6 & Hsrc & Hb6 & <- & _).
  destruct (copy_variable_copied "src" _ _ _ _ ltac:(done) H7 Hb6)
    as (d7 & Hd7 & Hc7 & Hfr7).
  assert (bound "src" (VDataset dsrc) s6) as Hb10.
  { eapply (preserved _ cell10); [apply bound_src_cell10| |done].
    eapply (preserved _ cell9); [apply bound_src_cell9| |done].
    eapply (preserved _ cell8); [apply bound_src_cell8| |done].
    unfold bound. by rewrite Hfr7. }
  destruct (copy_loop_copied my_vars NoDup_my_vars _ _ _ H11 Hb10) as (Hall & _).
  pose proof (copy_loop_checked _ NoDup_my_vars _ _ H11) as Hch.
  exists (ds_data dsrc). split; [done|]. intros name dst Hn Hdst. split.
  - by apply (Hall name Hn).
  - by apply (Hch name Hn).
Qed.

Lemma cell18_returns s :
  cell18 s = (Ok (), {| disk := disk s;
                        stdout := stdout s ++
                          [if decide (is_Some (disk s !! "test.nc")) then "test.nc"
                           else "ls: cannot access test.nc"];
                        globals := globals s |}).
Proof. done. Qed.

(** X11.  The run as the notebook records it.  In a run from a fresh kernel
    in which the nine cells up to the guarded close return, and on a source
    file in which every variable of [my_vars] has a [coordinates] attribute,
    the first write raises TypeError and every other cell returns. *)
Theorem session_as_recorded files :
  take 9 (outcomes cells (fresh files)) = replicate 9 (Ok ()) →
  (∀ src name w, files !! src_path = Some src → name ∈ my_vars →
     nc_variables src !! name = Some w →
     is_Some (var_ncattrs w !! "coordinates")) →
  outcomes cells (fresh files)
  = replicate 9 (Ok ()) ++ Raise TypeError :: replicate 5 (Ok ()).
Proof.
  intros H9 Hco.
  assert (quiet files (fresh files)) as K0.
  { split_and!; [done|..]; simpl; intros ?; by rewrite lookup_empty. }
  revert H9. unfold cells. cbn [outcomes take replicate app].
  destruct (cell3 (fresh files)) as [r1 s1] eqn:E1; cbn [fst snd].
  destruct (cell6 s1) as [r2 s2] eqn:E2; cbn [fst snd].
  destruct (cell7 s2) as [r3 s3] eqn:E3; cbn [fst snd].
  destruct (cell8 s3) as [r4 s4] eqn:E4; cbn [fst snd].
  destruct (cell9 s4) as [r5 s5] eqn:E5; cbn [fst snd].
  destruct (cell10 s5) as [r6 s6] eqn:E6; cbn [fst snd].
  destruct (cell11 s6) as [r7 s7] eqn:E7; cbn [fst snd].
  destruct (cell13 s7) as [r8 s8] eqn:E8; cbn [fst snd].
  destruct (cell14 s8) as [r9 s9] eqn:E9; cbn [fst snd].
  intros [= -> -> -> -> -> -> -> -> ->].
  assert (disk s1 = files) as Hd1.
  { assert (quiet files s1) as (? & _); [|done].
    eapply (preserved _ cell3); [apply quiet_cells| |exact E1]; [|done].
    unfold cells. cbn [take]. rewrite !elem_of_cons. tauto. }
  destruct (fields_copied _ _ _ _ _ _ _ E2 E3 E4 E5 E6 E7) as (src & Hsrc & Hall).
  rewrite Hd1 in Hsrc.
  apply cell13_merged in E8 as (dst & ds & Hdst & Hds & Hm).
  assert (globals s9 !! "ds" = Some (VXr ds)) as Hds9.
  { eapply (preserved (bound "ds" (VXr ds)) cell14); [|exact Hds|exact E9].
    by apply bound_close_dst. }
  assert (cell15 s9 = (Raise TypeError, s9)) as E10.
  { unfold cell15. rewrite (write_netcdf_run _ _ _ ds) by done.
    rewrite to_netcdf_unserializable by (by eapply merged_unserializable).
    by destruct s9. }
  rewrite E10; cbn [fst snd].
  pose proof Hm as (_ & _ & _ & _ & Hvars & _).
  assert (∀ k, k ∈ my_vars → ∃ v, xr_variables ds !! k = Some v ∧
            is_Some (xr_attrs v !! "projection") ∧
            is_Some (xr_attrs v !! "coordinates")) as Hfields.
  { intros k Hk. destruct (Hvars k Hk) as (w & a & proj & Hw & _ & Hv).
    eexists. split.
    { apply lookup_union_Some_raw. right. split; [|exact Hv].
      by eapply my_vars_no_coords. }
    simpl. split; [by rewrite lookup_insert_eq|].
    rewrite lookup_insert_ne by done.
    destruct (Hall k dst Hk Hdst) as ((w' & a' & Hw' & Hwd & _) & _).
    rewrite Hw in Hwd. injection Hwd as <-. by eapply Hco. }
  assert (cell16 s9 = (Ok (), s9)) as E11.
  { destruct (Hfields "SPDUV10MEAN") as (v & Hv & _).
    { unfold my_vars. set_solver. }
    unfold cell16, load_xr, load, lift, xr_getitem, getitem.
    cbv [mbind M_bind mret M_ret]. rewrite Hds9. simpl. by rewrite Hv. }
  rewrite E11; cbn [fst snd].
  destruct (fix_all_succeeds my_vars ds NoDup_my_vars Hfields) as [ds' Hfix].
  destruct (fixed_written _ _ _ Hm (λ n Hn, proj2 (Hall n dst Hn Hdst)) Hfix)
    as (Hser & file & Henc).
  assert (to_netcdf ds' "test.nc" (disk s9)
          = (Ok (), <["test.nc" := file]> (disk s9))) as Hto.
  { apply to_netcdf_Ok. eauto. }
  assert (cell17 s9 = (Ok (), {| disk := <["test.nc" := file]> (disk s9);
                                 stdout := stdout s9;
                                 globals := <["ds" := VXr ds']> (globals s9) |}))
    as E12.
  { unfold cell17. apply bind_Ok. eexists (), _. split.
    - apply fix_attributes_Ok. eauto.
    - rewrite (write_netcdf_run _ _ _ ds') by (by simpl; rewrite lookup_insert_eq).
      simpl. by rewrite Hto. }
  rewrite E12; cbn [fst snd].
  rewrite cell18_returns; cbn [fst snd disk stdout globals].
  rewrite (cell20_Ok_of _ ds')
    by (simpl; by eapply written_reads_back).
  cbn [fst snd].
  destruct (fixed_field _ _ _ Hm Hfix) as [v Hv].
  rewrite (cell21_Ok_of _ ds' v); [done| |done].
  simpl. by rewrite lookup_insert_eq.
Qed.

End Session.

(** ** A run without the source file *)

Section MissingSource.
Context {num : Type} {numpy : NumPy num} {wrf_python : @WrfPython num}.
Implicit Types (s : @nbstate num) (c : @NcData num) (d : @Dataset num).
Implicit Types (files : gmap string (@NcData num)) (v : @pyvalue num).

Lemma unassembled_set files x v s :
  x ≠ "src" → x ≠ "dst" → x ≠ "ds" → unassembled files s →
  unassembled files {| disk := disk s; stdout := stdout s;
                       globals := <[x := v]> (globals s) |}.
Proof.
  intros ??? (? & ? & ? & ?). split_and!; simpl; [done|..];
    by rewrite lookup_insert_ne.
Qed.

Lemma unassembled_raise {A} files (m : M A) s r s' :
  unassembled files s → (∃ e, m s = (Raise e, s)) → m s = (r, s') →
  unassembled files s'.
Proof. intros HU [e E] Hr. rewrite E in Hr. by injection Hr as _ <-. Qed.

Lemma cell6_missing files s :
  files !! src_path = None → unassembled files s →
  cell6 s = (Raise FileNotFoundError, s).
Proof.
  intros Hf (Hd & _). unfold cell6, Dataset_r. cbv [mbind M_bind].
  by rewrite Hd, Hf.
Qed.

Lemma copy_variable_unbound name s :
  globals s !! "src" = None → copy_variable "src" name s = (Raise NameError, s).
Proof.
  intros Hs. unfold copy_variable, load_dataset, load. cbv [mbind M_bind].
  by rewrite Hs.
Qed.

Lemma copy_coordinate_unbound name s :
  globals s !! "dst" = None → ∃ e, copy_coordinate name s = (Raise e, s).
Proof.
  intros Hs. unfold copy_coordinate, update_dataset, load_dataset, load, lift.
  cbv [mbind M_bind mret M_ret].
  destruct (globals s !! "coord_file") as [[| |d| | | |]|]; try (by eexists).
  destruct (reading d _) as [w|e]; [|by eexists].
  rewrite Hs. by eexists.
Qed.

Lemma cell8_unassembled files : preserves (unassembled files) cell8 (λ _, True).
Proof.
  unfold cell8. eapply (preserves_bind _ _ _ (λ _, True)).
  { intros s r s' HU. unfold Dataset_r.
    destruct (disk s !! coord_path); by intros [= <- <-]. }
  intros d _. eapply preserves_bind.
  { apply preserves_store. intros s HU. by apply unassembled_set. }
  intros _ _. apply preserves_for_M. intros name _ s r s' HU Hr. split; [|done].
  destruct (copy_coordinate_unbound name s) as [e E]; [apply HU|].
  rewrite E in Hr. by injection Hr as _ <-.
Qed.

Lemma unassembled_NameError files (cell : M unit) s :
  unassembled files s →
  cell ∈ [cell7; cell9; cell10; cell11; cell15; cell16; cell17] →
  cell s = (Raise NameError, s).
Proof.
  intros (Hd & Hsrc & Hdst & Hds). rewrite !elem_of_cons, elem_of_nil.
  intros [->|[->|[->|[->|[->|[->|[->|[]]]]]]]].
  - by apply copy_variable_unbound.
  - unfold cell9, dimension_size, load_dataset, load. cbv [mbind M_bind].
    by rewrite Hdst.
  - unfold cell10, load_dataset, load. cbv [mbind M_bind]. by rewrite Hdst.
  - unfold cell11, my_vars. cbn [for_M]. cbv [mbind M_bind].
    by rewrite copy_variable_unbound.
  - unfold cell15, write_netcdf, load_xr, load. cbv [mbind M_bind]. by rewrite Hds.
  - unfold cell16, load_xr, load. cbv [mbind M_bind]. by rewrite Hds.
  - unfold cell17, fix_attributes, my_vars. cbn [for_M].
    unfold update_xr, load_xr, load. cbv [mbind M_bind]. by rewrite Hds.
Qed.

Lemma cell13_unbound s :
  globals s !! "dst" = None →
  cell13 s = (Raise NameError, set_global "da_list" (VDataArrays []) s).
Proof.
  intros Hs. unfold cell13, my_vars. cbn [for_M].
  unfold load_dataset, load, store. cbv [mbind M_bind]. simpl.
  rewrite lookup_insert_ne by done. by rewrite Hs.
Qed.

Lemma cell14_unbound s :
  globals s !! "dst" = None →
  cell14 s = (Ok (), {| disk := disk s; stdout := stdout s ++ [">> closing dst << "];
                        globals := globals s |}).
Proof.
  intros Hn. unfold cell14, close_dst, try_except, close_dst_body.
  cbv [mbind M_bind print close load_dataset load mret M_ret lift]. simpl.
  rewrite Hn. by rewrite decide_True.
Qed.

Lemma unassembled_cells files (cell : M unit) :
  files !! src_path = None → cell ∈ cells →
  preserves (unassembled files) cell (λ _, True).
Proof.
  intros Hf Hin s r s' HU Hr. split; [|done]. revert Hin Hr.
  unfold cells. rewrite !elem_of_cons, elem_of_nil.
  intros [->|[->|[->|[->|[->|[->|[->|[->|[->|[->|[->|[->|[->|[->|[->|[]]]]]]]]]]]]]]]].
  - unfold cell3. cbv [mbind M_bind Dataset_r store].
    destruct (disk s !! coord_path); intros [= _ <-]; [|done].
    by apply unassembled_set.
  - rewrite (cell6_missing files) by done. by intros [= _ <-].
  - rewrite (unassembled_NameError files) by (done || set_solver). by intros [= _ <-].
  - intros Hr. by eapply (preserved _ cell8); [apply cell8_unassembled| |done].
  - rewrite (unassembled_NameError files) by (done || set_solver). by intros [= _ <-].
  - rewrite (unassembled_NameError files) by (done || set_solver). by intros [= _ <-].
  - rewrite (unassembled_NameError files) by (done || set_solver). by intros [= _ <-].
  - rewrite cell13_unbound by apply HU. intros [= _ <-]. by apply unassembled_set.
  - rewrite cell14_unbound by apply HU. intros [= _ <-]. done.
  - rewrite (unassembled_NameError files) by (done || set_solver). by intros [= _ <-].
  - rewrite (unassembled_NameError files) by (done || set_solver). by intros [= _ <-].
  - rewrite (unassembled_NameError files) by (done || set_solver). by intros [= _ <-].
  - intros [= _ <-]. done.
  - unfold cell20, on_disk. cbv [mbind M_bind store]. simpl.
    destruct (open_dataset _ _); intros [= _ <-]; [|by destruct HU].
    by apply unassembled_set.
  - unfold cell21, load_xr, load, lift. cbv [mbind M_bind mret M_ret].
    destruct (globals s !! "ds2") as [[]|]; try (by intros [= _ <-]).
    simpl. destruct (xr_getitem _ _); by intros [= _ <-].
Qed.

(** X12.  Without the source file nothing is assembled and nothing is
    written.  In a run from a fresh kernel, cell 6 raises FileNotFoundError;
    cells 7, 9, 10, 11, 13, 15, 16 and 17 raise NameError; the guard of cell
    14 catches the NameError and the cell returns; and after every cell the
    disk is unchanged and [dst] and [ds] are unbound. *)
Theorem missing_source_writes_nothing files :
  files !! src_path = None →
  Forall (λ s, disk s = files ∧ globals s !! "dst" = None ∧ globals s !! "ds" = None)
    (trace cells (fresh files)) ∧
  outcomes cells (fresh files) !! 1 = Some (Raise FileNotFoundError) ∧
  outcomes cells (fresh files) !! 8 = Some (Ok ()) ∧
  ∀ i, i ∈ [2; 4; 5; 6; 7; 9; 10; 11] →
    outcomes cells (fresh files) !! i = Some (Raise NameError).
Proof.
  intros Hf.
  assert (unassembled files (fresh files)) as H0 by done.
  assert (∀ n, unassembled files (run_cells (take n cells) (fresh files))) as HU.
  { intros n. apply run_cells_keeps; [|done]. intros cell Hc.
    apply unassembled_cells; [done|].
    apply elem_of_take in Hc as (i & Hi & _). by eapply list_elem_of_lookup_2. }
  split_and!.
  - eapply Forall_impl;
      [apply (trace_Forall (unassembled files));
         [intros cell Hc; by apply unassembled_cells|done]|].
    by intros s (? & ? & ? & ?).
  - rewrite outcomes_lookup.
    change (cells !! 1) with (Some (cell6 : @M num unit)).
    cbn [fmap option_fmap option_map]. by rewrite (cell6_missing files).
  - rewrite outcomes_lookup.
    change (cells !! 8) with (Some (cell14 : @M num unit)).
    cbn [fmap option_fmap option_map]. rewrite cell14_unbound; [done|apply HU].
  - intros i. rewrite !elem_of_cons, elem_of_nil.
    intros [->|[->|[->|[->|[->|[->|[->|[->|[]]]]]]]]]; rewrite outcomes_lookup.
    + change (cells !! 2) with (Some (cell7 : @M num unit)).
      cbn [fmap option_fmap option_map].
      rewrite (unassembled_NameError files); [done|apply HU|set_solver].
    + change (cells !! 4) with (Some (cell9 : @M num unit)).
      cbn [fmap option_fmap option_map].
      rewrite (unassembled_NameError files); [done|apply HU|set_solver].
    + change (cells !! 5) with (Some (cell10 : @M num unit)).
      cbn [fmap option_fmap option_map].
      rewrite (unassembled_NameError files); [done|apply HU|set_solver].
    + change (cells !! 6) with (Some (cell11 : @M num unit)).
      cbn [fmap option_fmap option_map].
      rewrite (unassembled_NameError files); [done|apply HU|set_solver].
    + change (cells !! 7) with (Some (cell13 : @M num unit)).
      cbn [fmap option_fmap option_map].
      rewrite cell13_unbound; [done|apply HU].
    + change (cells !! 9) with (Some (cell15 : @M num unit)).
      cbn [fmap option_fmap option_map].
      rewrite (unassembled_NameError files); [done|apply HU|set_solver].
    + change (cells !! 10) with (Some (cell16 : @M num unit)).
      cbn [fmap option_fmap option_map].
      rewrite (unassembled_NameError files); [done|apply HU|set_solver].
    + change (cells !! 11) with (Some (cell17 : @M num unit)).
      cbn [fmap option_fmap option_map].
      rewrite (unassembled_NameError files); [done|apply HU|set_solver].
Qed.

End MissingSource.

(** * The theorems on the small run *)

Lemma run_Ok {num A} (m : @M num A) s a : (m s).1 = Ok a → m s = (Ok a, (m s).2).
Proof. destruct (m s) as [r s']. simpl. by intros ->. Qed.

Lemma copy_stage_faithful_witness :
  ((cell6;; cell7;; cell8;; cell9;; cell10;; cell11) (after 1)).1 = Ok () ∧
  ∃ dst, globals ((cell6;; cell7;; cell8;; cell9;; cell10;; cell11) (after 1)).2 !! "dst"
         = Some (VDataset dst).
Proof.
  assert (((cell6;; cell7;; cell8;; cell9;; cell10;; cell11) (after 1)).1 = Ok ())
    as Hrun by (vm_compute; reflexivity).
  split; [exact Hrun|].
  destruct (copy_stage_faithful _ _ (run_Ok _ _ _ Hrun))
    as (src & dst & _ & Hdst & _).
  exists dst. exact Hdst.
Defined.

Lemma first_write_witness :
  ((cell11;; cell13) (after 6)).1 = Ok () ∧
  ∃ ds, globals ((cell11;; cell13) (after 6)).2 !! "ds" = Some (VXr ds) ∧
        cell15 ((cell11;; cell13) (after 6)).2
        = (Raise TypeError, ((cell11;; cell13) (after 6)).2).
Proof.
  assert (((cell11;; cell13) (after 6)).1 = Ok ()) as Hrun
    by (vm_compute; reflexivity).
  split; [exact Hrun|].
  destruct (first_write_raises_TypeError _ _ (run_Ok _ _ _ Hrun))
    as (ds & Hds & _ & Hfirst & _).
  exists ds. split; [exact Hds|]. apply Hfirst. exact Hds.
Defined.

Lemma first_write_counterexample :
  (ds ← stringified;
   Ok (bool_decide (attrs_serializable ds), (to_netcdf ds "test.nc" ∅).1))
  = Ok (true, Raise ValueError).
Proof. vm_compute. reflexivity. Qed.

Lemma fix_witness :
  (fix_attributes (after 11)).1 = Ok () ∧
  disk (fix_attributes (after 11)).2 = disk (after 11).
Proof.
  assert ((fix_attributes (after 11)).1 = Ok ()) as Hrun by (vm_compute; reflexivity).
  split; [exact Hrun|].
  destruct (fix_changes_projection_and_coordinates _ _ (run_Ok _ _ _ Hrun))
    as (ds & ds' & _ & _ & _ & _ & _ & Hdisk & _).
  exact Hdisk.
Defined.

Lemma fix_counterexample :
  (fix_attributes (after 11)).1 = Ok () ∧
  attrs_get "ds" "SPDUV10MEAN" "coordinates" (after 11)
  = Ok (Some (AStr "XLONG XLAT XTIME")) ∧
  attrs_get "ds" "SPDUV10MEAN" "coordinates" (fix_attributes (after 11)).2
  = Ok None.
Proof. split_and!; vm_compute; reflexivity. Qed.

Lemma written_attributes_witness :
  (cell17 (after 11)).1 = Ok () ∧
  ∃ ds', globals (cell17 (after 11)).2 !! "ds" = Some (VXr ds') ∧
         to_netcdf ds' "test.nc" (disk (after 11))
         = (Ok (), disk (cell17 (after 11)).2).
Proof.
  assert ((cell17 (after 11)).1 = Ok ()) as Hrun by (vm_compute; reflexivity).
  split; [exact Hrun|].
  destruct (written_attributes _ _ (run_Ok _ _ _ Hrun))
    as (ds & ds' & _ & Hds' & Hw & _).
  exists ds'. split; [exact Hds'|exact Hw].
Defined.

Lemma reopened_structure_witness :
  (cell13 (after 7)).1 = Ok () ∧
  globals (after 11) !! "ds" = globals (cell13 (after 7)).2 !! "ds" ∧
  (cell17 (after 11)).1 = Ok () ∧
  ∃ ds2 : @XrDataset Z,
    cell20 (cell17 (after 11)).2
    = (Ok (), set_global "ds2" (VXr ds2) (cell17 (after 11)).2) ∧
    dom (data_vars ds2) = list_to_set my_vars.
Proof.
  assert ((cell13 (after 7)).1 = Ok ()) as H13 by (vm_compute; reflexivity).
  assert (globals (after 11) !! "ds" = globals (cell13 (after 7)).2 !! "ds") as H16
    by (vm_compute; reflexivity).
  assert ((cell17 (after 11)).1 = Ok ()) as H17 by (vm_compute; reflexivity).
  split_and!; [exact H13|exact H16|exact H17|].
  destruct (reopened_structure _ _ _ _ (run_Ok _ _ _ H13) H16 (run_Ok _ _ _ H17))
    as (ds' & ds2 & dims & _ & H20 & _ & _ & Hdom).
  exists ds2. split; [|exact Hdom]. apply H20. reflexivity.
Defined.

Lemma getvar_for_each_field_witness :
  (cell13 (after 7)).1 = Ok () ∧
  ∃ ds : @XrDataset Z,
    globals (cell13 (after 7)).2 !! "ds" = Some (VXr ds) ∧
    dom (data_vars ds) = list_to_set my_vars.
Proof.
  assert ((cell13 (after 7)).1 = Ok ()) as H13 by (vm_compute; reflexivity).
  split; [exact H13|].
  destruct (getvar_for_each_field _ _ (run_Ok _ _ _ H13))
    as (dst & das & ds & _ & _ & _ & Hds & Hdom & _).
  exists ds. split; [exact Hds|exact Hdom].
Defined.

Lemma sample_coord_well_formed : well_formed sample_coord.
Proof.
  intros k w shape Hk Hs.
  assert (k = "XLAT" ∧ w = grid (-70) ∨ k = "XLONG" ∧ w = grid (-120))
    as [[-> ->]|[-> ->]].
  { unfold sample_coord in Hk. cbn [nc_variables] in Hk.
    apply lookup_insert_Some in Hk as [[<- <-]|[_ Hk]]; [by left|].
    apply lookup_insert_Some in Hk as [[<- <-]|[_ Hk]]; [by right|].
    by apply lookup_empty_Some in Hk. }
  - vm_compute in Hs. injection Hs as <-. reflexivity.
  - vm_compute in Hs. injection Hs as <-. reflexivity.
Qed.

Lemma axes_use_dy_witness :
  (cell9 (after 4)).1 = Ok () ∧ (cell10 (cell9 (after 4)).2).1 = Ok () ∧
  ∃ d dy, globals (after 4) !! "dst" = Some (VDataset d) ∧
          nc_ncattrs (ds_data d) !! "DY" = Some (ANum dy).
Proof.
  assert ((cell9 (after 4)).1 = Ok ()) as H9 by (vm_compute; reflexivity).
  assert ((cell10 (cell9 (after 4)).2).1 = Ok ()) as H10 by (vm_compute; reflexivity).
  split_and!; [exact H9|exact H10|].
  destruct (axes_use_dy _ _ _ (run_Ok _ _ _ H9) (run_Ok _ _ _ H10))
    as (d & dy & proj & lon & lat & wx & wy & we & sn & Hd & Hdy & _).
  exists d, dy. split; [exact Hd|exact Hdy].
Defined.


Lemma cell6_starts_afresh_witness :
  (cell6 (after 1)).1 = Ok () ∧
  ∃ dst, globals (cell6 (after 1)).2 !! "dst" = Some (VDataset dst) ∧
         ds_diskless dst = true ∧ nc_variables (ds_data dst) = ∅.
Proof.
  assert ((cell6 (after 1)).1 = Ok ()) as Hrun by (vm_compute; reflexivity).
  split; [exact Hrun|].
  destruct (cell6_starts_afresh _ _ (run_Ok _ _ _ Hrun))
    as (src & dst & _ & Hdst & _ & Hdl & _ & _ & _ & Hv).
  exists dst. split; [exact Hdst|]. split; [exact Hdl|exact Hv].
Defined.

Lemma fix_runs_once_witness :
  (cell17 (after 11)).1 = Ok () ∧
  (cell17 (cell17 (after 11)).2).1 = Raise KeyError.
Proof.
  assert ((cell17 (after 11)).1 = Ok ()) as Hrun by (vm_compute; reflexivity).
  split; [exact Hrun|].
  destruct (fix_runs_once _ _ (run_Ok _ _ _ Hrun)) as [H17 _].
  exact H17.
Defined.

Lemma grids_keep_metadata_witness :
  (cell8 (after 3)).1 = Ok () ∧
  ∃ cf dst v w,
    disk (after 3) !! coord_path = Some cf ∧
    globals (cell8 (after 3)).2 !! "dst" = Some (VDataset dst) ∧
    nc_variables cf !! "XLAT" = Some v ∧
    nc_variables (ds_data dst) !! "XLAT" = Some w ∧
    var_ncattrs w = var_ncattrs v.
Proof.
  assert ((cell8 (after 3)).1 = Ok ()) as Hrun by (vm_compute; reflexivity).
  split; [exact Hrun|].
  destruct (grids_keep_metadata _ _ (run_Ok _ _ _ Hrun))
    as (cf & dst & Hcf & Hdst & Hall).
  destruct (Hall "XLAT") as (v & w & Hv & Hw & _ & _ & Ha).
  { apply elem_of_cons. left. reflexivity. }
  exists cf, dst, v, w.
  split; [exact Hcf|]. split; [exact Hdst|]. split; [exact Hv|].
  split; [exact Hw|exact Ha].
Defined.

Lemma axis_variables_stored_witness :
  (cell10 (after 5)).1 = Ok () ∧
  ∃ dst we,
    globals (cell10 (after 5)).2 !! "dst" = Some (VDataset dst) ∧
    globals (cell10 (after 5)).2 !! "west_east_points" = Some (VArray we) ∧
    nc_variables (ds_data dst) !! "west_east"
    = Some {| datatype := Float32; dimensions := ["west_east"];
              var_data := nd_flat we;
              var_ncattrs := <["units" := AStr "m"]> {["axis" := AStr "x"]} |}.
Proof.
  assert ((cell10 (after 5)).1 = Ok ()) as Hrun by (vm_compute; reflexivity).
  split; [exact Hrun|].
  destruct (axis_variables_stored _ _ (run_Ok _ _ _ Hrun))
    as (dst & we & sn & Hdst & Hwe & _ & Hv & _).
  exists dst, we. split; [exact Hdst|]. split; [exact Hwe|exact Hv].
Defined.

Lemma fields_from_source_witness :
  ((cell6;; cell7;; cell8;; cell9;; cell10;; cell11;; cell13) (after 1)).1 = Ok () ∧
  ∃ src ds w a proj,
    disk (after 1) !! src_path = Some src ∧
    globals ((cell6;; cell7;; cell8;; cell9;; cell10;; cell11;; cell13) (after 1)).2
      !! "ds" = Some (VXr ds) ∧
    nc_variables src !! "U10MEAN" = Some w ∧
    data_vars ds !! "U10MEAN"
    = Some {| xr_dims := wrf_dims; xr_values := a;
              xr_attrs := <["projection" := AObj proj]> (var_ncattrs w) |}.
Proof.
  assert (((cell6;; cell7;; cell8;; cell9;; cell10;; cell11;; cell13) (after 1)).1
          = Ok ()) as Hrun by (vm_compute; reflexivity).
  split; [exact Hrun|].
  destruct (fields_from_source _ _ (run_Ok _ _ _ Hrun)) as (src & ds & Hsrc & Hds & Hall).
  destruct (Hall "U10MEAN") as (w & a & proj & Hw & _ & Hv).
  { unfold my_vars. apply elem_of_cons. right. apply elem_of_cons. right.
    apply elem_of_cons. left. reflexivity. }
  exists src, ds, w, a, proj.
  split; [exact Hsrc|]. split; [exact Hds|]. split; [exact Hw|exact Hv].
Defined.

Lemma written_dataset_read_back_witness :
  (cell13 (after 7)).1 = Ok () ∧
  globals (after 11) !! "ds" = globals (cell13 (after 7)).2 !! "ds" ∧
  (cell17 (after 11)).1 = Ok () ∧
  ∃ ds' : @XrDataset Z,
    globals (cell17 (after 11)).2 !! "ds" = Some (VXr ds') ∧
    cell20 (cell17 (after 11)).2
    = (Ok (), set_global "ds2" (VXr ds') (cell17 (after 11)).2).
Proof.
  assert ((cell13 (after 7)).1 = Ok ()) as H13 by (vm_compute; reflexivity).
  assert (globals (after 11) !! "ds" = globals (cell13 (after 7)).2 !! "ds") as H16
    by (vm_compute; reflexivity).
  assert ((cell17 (after 11)).1 = Ok ()) as H17 by (vm_compute; reflexivity).
  split; [exact H13|]. split; [exact H16|]. split; [exact H17|].
  destruct (written_dataset_read_back _ _ _ _ (cell17 (after 11)).2
              (run_Ok _ _ _ H13) H16 (run_Ok _ _ _ H17) eq_refl)
    as (ds' & Hds' & H20 & _).
  exists ds'. split; [exact Hds'|exact H20].
Defined.

Lemma sample_fields_have_coordinates (src : @NcData Z) name (w : @NcVariable Z) :
  sample_files !! src_path = Some src → name ∈ my_vars →
  nc_variables src !! name = Some w →
  is_Some (var_ncattrs w !! "coordinates").
Proof.
  intros Hsrc Hn Hw.
  assert (sample_files !! src_path = Some sample_src) as E by (vm_compute; reflexivity).
  rewrite E in Hsrc. injection Hsrc as <-.
  exists (AStr "XLONG XLAT XTIME").
  unfold my_vars in Hn.
  repeat (apply elem_of_cons in Hn as [->|Hn];
          [vm_compute in Hw; injection Hw as <-; vm_compute; reflexivity|]).
  by apply elem_of_nil in Hn.
Qed.

Lemma session_as_recorded_witness :
  take 9 (outcomes cells (fresh sample_files)) = replicate 9 (Ok ()) ∧
  outcomes cells (fresh sample_files)
  = replicate 9 (Ok ()) ++ Raise TypeError :: replicate 5 (Ok ()).
Proof.
  assert (take 9 (outcomes cells (fresh sample_files)) = replicate 9 (Ok ())) as H9
    by (vm_compute; reflexivity).
  split; [exact H9|].
  exact (session_as_recorded sample_files H9 sample_fields_have_coordinates).
Defined.

Lemma scalars_from_source_witness :
  ((cell6;; cell7;; cell8;; cell9) (after 1)).1 = Ok () ∧
  ∃ src a,
    disk (after 1) !! src_path = Some src ∧
    nc_ncattrs src !! "DX" = Some a ∧
    globals ((cell6;; cell7;; cell8;; cell9) (after 1)).2 !! "dx" = Some (VAttr a).
Proof.
  assert (((cell6;; cell7;; cell8;; cell9) (after 1)).1 = Ok ()) as Hrun
    by (vm_compute; reflexivity).
  split; [exact Hrun|].
  destruct (scalars_from_source _ _ (run_Ok _ _ _ Hrun)) as (src & Hsrc & Hat & _).
  destruct (Hat "dx" "DX") as (a & Ha & Hg).
  { apply elem_of_cons. right. apply elem_of_cons. left. reflexivity. }
  exists src, a. split; [exact Hsrc|]. split; [exact Ha|exact Hg].
Defined.

Lemma missing_source_writes_nothing_witness :
  delete src_path sample_files !! src_path = None ∧
  outcomes cells (fresh (delete src_path sample_files)) !! 1
  = Some (Raise FileNotFoundError) ∧
  outcomes cells (fresh (delete src_path sample_files)) !! 8 = Some (Ok ()).
Proof.
  assert (delete src_path sample_files !! src_path = None) as Hf
    by (vm_compute; reflexivity).
  split; [exact Hf|].
  destruct (missing_source_writes_nothing _ Hf) as (_ & H6 & H14 & _).
  split; [exact H6|exact H14].
Defined.

Lemma sample_grids_exact name (v : @NcVariable Z) :
  name ∈ ["XLAT"; "XLONG"] → nc_variables sample_coord !! name = Some v →
  @exact_in_float64 Z Z_rounding (datatype v) (var_data v).
Proof.
  intros Hn Hv x Hx.
  assert (v = grid (-70) ∨ v = grid (-120)) as Hg.
  { apply elem_of_cons in Hn as [->|Hn].
    - left. vm_compute in Hv. injection Hv as <-. reflexivity.
    - apply elem_of_cons in Hn as [->|Hn]; [|by apply elem_of_nil in Hn].
      right. vm_compute in Hv. injection Hv as <-. reflexivity. }
  destruct Hg as [-> | ->]; vm_compute in Hx;
    repeat (apply elem_of_cons in Hx as [->|Hx]; [vm_compute; reflexivity|]);
    by apply elem_of_nil in Hx.
Qed.

(** The runs below convert with [Z_rounding], under which 2^24 + 1 is not a
    float32. *)
Section Rounding.
#[local] Existing Instance Z_rounding | 0.

Lemma coordinates_constant_in_time_witness :
  np_astype Float64 Float32 16777217%Z = 16777216%Z ∧
  (cell8 (after 3)).1 = Ok () ∧
  disk (after 3) !! coord_path = Some sample_coord ∧
  well_formed sample_coord ∧
  ∃ dst, globals (cell8 (after 3)).2 !! "dst" = Some (VDataset dst) ∧
    ∃ w T inner,
      nc_variables (ds_data dst) !! "XLAT" = Some w ∧
      ∀ t, t < T → index0 (T :: inner) (var_data w) t
                   = index0 [1; 2; 3] (var_data (grid (-70))) 0.
Proof.
  assert ((cell8 (after 3)).1 = Ok ()) as H8 by (vm_compute; reflexivity).
  assert (disk (after 3) !! coord_path = Some sample_coord) as Hcf
    by (vm_compute; reflexivity).
  pose proof sample_coord_well_formed as Hwf.
  split; [vm_compute; reflexivity|].
  split; [exact H8|]. split; [exact Hcf|]. split; [exact Hwf|].
  destruct (coordinates_constant_in_time _ _ _ (run_Ok _ _ _ H8) Hcf Hwf
              sample_grids_exact)
    as (dst & Hdst & Hall).
  exists dst. split; [exact Hdst|].
  destruct (Hall "XLAT") as (v & w & sc & T & inner & Hv & Hsc & Hw & Hs & _ & Hsl).
  { apply elem_of_cons. left. reflexivity. }
  exists w, T, inner. split; [exact Hw|].
  assert (v = grid (-70)) as ->
    by (vm_compute in Hv; injection Hv as <-; reflexivity).
  assert (sc = [1; 2; 3]) as ->
    by (vm_compute in Hsc; injection Hsc as <-; reflexivity).
  exact Hsl.
Defined.

Lemma coordinates_from_coordinate_file_witness :
  np_astype Float64 Float32 16777217%Z = 16777216%Z ∧
  ((cell8;; cell9;; cell10;; cell11;; cell13) (after 3)).1 = Ok () ∧
  disk (after 3) !! coord_path = Some sample_coord ∧
  well_formed sample_coord ∧
  ∃ ds v shape_c,
    globals ((cell8;; cell9;; cell10;; cell11;; cell13) (after 3)).2 !! "ds"
    = Some (VXr ds) ∧
    nc_variables sample_coord !! "XLAT" = Some v ∧
    coords ds !! "XLAT"
    = Some {| xr_dims := ["south_north"; "west_east"];
              xr_values := {| nd_dtype := datatype v; nd_shape := tail shape_c;
                              nd_flat := index0 shape_c (var_data v) 0 |};
              xr_attrs := ∅ |}.
Proof.
  assert (((cell8;; cell9;; cell10;; cell11;; cell13) (after 3)).1 = Ok ()) as Hrun
    by (vm_compute; reflexivity).
  assert (disk (after 3) !! coord_path = Some sample_coord) as Hcf
    by (vm_compute; reflexivity).
  pose proof sample_coord_well_formed as Hwf.
  split; [vm_compute; reflexivity|].
  split; [exact Hrun|]. split; [exact Hcf|]. split; [exact Hwf|].
  destruct (coordinates_from_coordinate_file _ _ _ (run_Ok _ _ _ Hrun) Hcf Hwf
              sample_grids_exact)
    as (ds & Hds & Hall).
  destruct (Hall "XLAT") as (v & sc & Hv & _ & Hc).
  { apply elem_of_cons. left. reflexivity. }
  exists ds, v, sc. split; [exact Hds|]. split; [exact Hv|exact Hc].
Defined.

End Rounding.
